(** * F1 Singapore GP prediction: data collection pipeline and dashboard

    A shallow embedding of the Python sources

    - [src/ergast_data_collector.py]  (Ergast source client and collectors),
    - [src/weather_data_collector.py] (weather reconciliation),
    - [src/run_data_collection.py]    (orchestrator),
    - [webapp/app.py]                 (dashboard routes),
    - [run_webapp.py]                 (dashboard launcher),

    together with the properties of the specification that were checked
    against them.

    Effects are explicit.  A computation is a function from the program
    state (the trace of observable events, the output directory, numpy's
    global generator) to a result and a new state; a result is a value or a
    raised Python exception.  The upstream services are oracles that
    answer each request from the history of the run so far, so a theorem
    that quantifies over the oracles covers every behaviour of the
    upstream. *)

From Stdlib Require Import ZArith List String Ascii Bool Lia Floats.
From stdpp Require Import base strings gmap pretty.
Import ListNotations.

#[local] Set Warnings "-register-all,-inexact-float".
Local Open Scope string_scope.
Local Open Scope Z_scope.

(** ** Python values, exceptions and the operations the sources use *)

Module Py.

(** The exception classes that can occur.  [RequestException] stands for
    [requests.exceptions.RequestException] and all its subclasses
    (connection errors, timeouts, HTTP errors, and, from requests 2.27 on,
    the JSON decoding error of [Response.json]). *)
Inductive exn : Type :=
| KeyError (key : string)
| TypeError
| IndexError
| ValueError
| OverflowError
| RequestException (detail : string)
| OtherException (detail : string).

Inductive result (A : Type) : Type :=
| Ok (a : A)
| Raise (e : exn).
Arguments Ok {A} a.
Arguments Raise {A} e.

(** [except requests.exceptions.RequestException] catches exactly these. *)
Definition is_RequestException (e : exn) : bool :=
  match e with RequestException _ => true | _ => false end.

(** [str(e)] in the messages that report a caught exception. *)
Definition exn_text (e : exn) : string :=
  match e with
  | KeyError k => "'" ++ k ++ "'"
  | TypeError => "TypeError"
  | IndexError => "IndexError"
  | ValueError => "ValueError"
  | OverflowError => "OverflowError"
  | RequestException d => d
  | OtherException d => d
  end.

(** What [response.json()] can return; also the cells of the rows that the
    Ergast collectors build from it. *)
Inductive value : Type :=
| VNone
| VBool (b : bool)
| VInt (n : Z)
| VFloat (f : float)
| VStr (s : string)
| VList (items : list value)
| VDict (items : list (string * value)).

(** A row is a Python dict whose keys are column names; a frame is what
    [pd.DataFrame(list_of_dicts)] holds. *)
Definition row : Type := list (string * value).
Definition frame : Type := list row.

(** Truth value of an object, as tested by [if data and ...]. *)
Definition truthy (v : value) : bool :=
  match v with
  | VNone => false
  | VBool b => b
  | VInt n => negb (n =? 0)
  | VFloat f => negb (PrimFloat.eqb f 0%float)
  | VStr s => negb (String.eqb s "")
  | VList l => match l with [] => false | _ => true end
  | VDict kvs => match kvs with [] => false | _ => true end
  end.

(** First binding of a key (a parsed JSON object has each key once). *)
Fixpoint lookup_key (k : string) (kvs : list (string * value)) : option value :=
  match kvs with
  | [] => None
  | (k', v) :: rest => if String.eqb k k' then Some v else lookup_key k rest
  end.

Fixpoint is_substring (needle hay : string) : bool :=
  if String.prefix needle hay then true
  else match hay with
       | EmptyString => false
       | String _ rest => is_substring needle rest
       end.

Definition is_str (k : string) (v : value) : bool :=
  match v with VStr s => String.eqb k s | _ => false end.

(** [k in container] for a string [k]. *)
Definition contains (k : string) (container : value) : result bool :=
  match container with
  | VDict kvs => Ok (match lookup_key k kvs with Some _ => true | None => false end)
  | VList l => Ok (existsb (is_str k) l)
  | VStr s => Ok (is_substring k s)
  | VNone | VBool _ | VInt _ | VFloat _ => Raise TypeError
  end.

(** [container[k]] for a string [k]. *)
Definition getitem (container : value) (k : string) : result value :=
  match container with
  | VDict kvs => match lookup_key k kvs with
                 | Some v => Ok v
                 | None => Raise (KeyError k)
                 end
  | _ => Raise TypeError
  end.

(** [container[0]]. *)
Definition getitem0 (container : value) : result value :=
  match container with
  | VList (v :: _) => Ok v
  | VList [] => Raise IndexError
  | VStr (String c _) => Ok (VStr (String c EmptyString))
  | VStr EmptyString => Raise IndexError
  | VDict _ => Raise (KeyError "0")
  | _ => Raise TypeError
  end.

Fixpoint chars (s : string) : list value :=
  match s with
  | EmptyString => []
  | String c rest => VStr (String c EmptyString) :: chars rest
  end.

(** The elements a [for] loop visits. *)
Definition iter (v : value) : result (list value) :=
  match v with
  | VList l => Ok l
  | VDict kvs => Ok (map (fun kv => VStr (fst kv)) kvs)
  | VStr s => Ok (chars s)
  | _ => Raise TypeError
  end.

(** *** [int(x)] *)

Definition is_space (c : ascii) : bool :=
  let n := nat_of_ascii c in
  ((9 <=? n) && (n <=? 13) || (n =? 32))%nat.

Definition digit_of (c : ascii) : option Z :=
  let n := Z.of_nat (nat_of_ascii c) in
  if (48 <=? n) && (n <=? 57) then Some (n - 48) else None.

Fixpoint lstrip (s : string) : string :=
  match s with
  | String c rest => if is_space c then lstrip rest else s
  | EmptyString => s
  end.

(** Digits with single underscores between them, then optional trailing
    white space; [prev] tells whether the previous character was a digit. *)
Fixpoint digits (acc : Z) (prev : bool) (s : string) : option Z :=
  match s with
  | EmptyString => if prev then Some acc else None
  | String c rest =>
      match digit_of c with
      | Some d => digits (10 * acc + d) true rest
      | None =>
          if prev then
            if Ascii.eqb c "_" then
              match rest with
              | String c' _ => match digit_of c' with
                               | Some _ => digits acc false rest
                               | None => None
                               end
              | EmptyString => None
              end
            else if String.eqb (lstrip s) "" then Some acc else None
          else None
      end
  end.

Definition int_of_string (s : string) : option Z :=
  match lstrip s with
  | String "-" rest => option_map Z.opp (digits 0 false rest)
  | String "+" rest => digits 0 false rest
  | t => digits 0 false t
  end.

(** Truncation of a binary64 toward zero. *)
Definition int_of_float (f : float) : result Z :=
  match Prim2SF f with
  | S754_zero _ => Ok 0
  | S754_infinity _ => Raise OverflowError
  | S754_nan => Raise ValueError
  | S754_finite s m e =>
      let a := if 0 <=? e then Z.pos m * 2 ^ e else Z.pos m / 2 ^ (- e) in
      Ok (if s then - a else a)
  end.

Definition int (v : value) : result Z :=
  match v with
  | VInt n => Ok n
  | VBool b => Ok (if b then 1 else 0)
  | VFloat f => int_of_float f
  | VStr s => match int_of_string s with
              | Some n => Ok n
              | None => Raise ValueError
              end
  | VNone | VList _ | VDict _ => Raise TypeError
  end.

(** *** [round(x, ndigits)] on a float, for [ndigits >= 0]

    CPython rounds the exact binary value to the nearest decimal with
    [ndigits] places, ties to even, and returns the float nearest to that
    decimal. *)
Definition round_half_even (num den : Z) : Z :=
  let q := num / den in
  let r := num mod den in
  if 2 * r <? den then q
  else if den <? 2 * r then q + 1
  else if Z.even q then q else q + 1.

Definition nearest_float (neg : bool) (num den : positive) : float :=
  SF2Prim (SFdiv prec emax (S754_finite neg num 0) (S754_finite false den 0)).

Definition round (x : float) (ndigits : Z) : float :=
  match Prim2SF x with
  | S754_finite s m e =>
      let p := 10 ^ ndigits in
      let n := if 0 <=? e then Z.pos m * 2 ^ e * p
               else round_half_even (Z.pos m * p) (2 ^ (- e)) in
      match n, p with
      | Z.pos n', Z.pos p' => nearest_float s n' p'
      | _, _ => if s then (-0)%float else 0%float
      end
  | _ => x
  end.

(** Two-argument [min] and [max]: the first argument stays unless the
    second compares strictly smaller (larger). *)
Definition min (a b : float) : float := if PrimFloat.ltb b a then b else a.
Definition max (a b : float) : float := if PrimFloat.ltb a b then b else a.

(** [str(n)] for an integer. *)
Definition str (n : Z) : string := pretty n.

End Py.


(** ** Sequencing pure evaluation

    [let* x := e in k] evaluates the Python expression [e], which may
    raise, and continues with its value. *)

Definition bind_result {A B : Type} (c : Py.result A) (k : A -> Py.result B)
  : Py.result B :=
  match c with
  | Py.Ok a => k a
  | Py.Raise e => Py.Raise e
  end.

Notation "'let*' x ':=' c1 'in' c2" := (bind_result c1 (fun x => c2))
  (at level 10, x name, c1 at level 100, c2 at level 200).

(** Evaluate [f] on each element in order, stopping at the first that
    raises. *)
Fixpoint map_result {A B : Type} (f : A -> Py.result B) (l : list A)
  : Py.result (list B) :=
  match l with
  | [] => Py.Ok []
  | x :: rest =>
      let* y := f x in
      let* ys := map_result f rest in
      Py.Ok (y :: ys)
  end.

(** ** Observable events, upstream oracles, program state *)

Inductive event : Type :=
| Mkdir (path : string)
| Get (url : string) (params : option (list (string * string)))
| Sleep (seconds : float)
| LoadSession (year : Z)
| Print (line : string)
| ToCsv (path : string).

(** What [requests.get(url, params=params, timeout=10)] meets: no usable
    response (connection error, timeout), or a response with a status code
    and a body that parses as JSON or does not. *)
Inductive http_outcome : Type :=
| NoResponse (detail : string)
| Response (status : Z) (body : option Py.value).

(** One row of FastF1's [session.weather_data]. *)
Record weather_sample : Type := {
  Time : float;
  AirTemp : float;
  Humidity : float;
  Pressure : float;
  Rainfall : bool;
  TrackTemp : float;
  WindDirection : Z;
  WindSpeed : float
}.

(** What [fastf1.get_session(year, 'Singapore', 'R')] followed by
    [session.load()] yields: an exception, or a session with its date, its
    weather table (possibly missing) and its results table (possibly not a
    table, in which case any use of it raises). *)
Record session : Type := {
  date : string;
  weather_data : option (list weather_sample);
  results : option Py.frame
}.

Inductive session_outcome : Type :=
| SessionError (detail : string)
| SessionLoaded (s : session).

(** The upstream services.  Each answer may depend on everything that
    happened before the request. *)
Class Upstream : Type := {
  http_get : list event -> string -> option (list (string * string)) -> http_outcome;
  fastf1_session : list event -> Z -> session_outcome
}.

(** numpy's legacy global generator: its state, the state that
    [np.random.seed(n)] installs for a valid seed, and the three samplers
    the code draws from. *)
Class Numpy : Type := {
  generator : Type;
  seeded : Z -> generator;
  normal : float -> float -> generator -> float * generator;
  exponential : float -> generator -> float * generator;
  uniform : float -> float -> generator -> float * generator
}.

(** The record built at lines 134-148 of [weather_data_collector.py]. *)
Record weather_record : Type := {
  Year : Z;
  Race : string;
  Date : string;
  Temperature_Min_C : float;
  Temperature_Max_C : float;
  Temperature_Avg_C : float;
  Humidity_Percent : float;
  Precipitation_mm : float;
  Wind_Speed_kmh : float;
  Wind_Direction_deg : float;
  Pressure_hPa : float;
  Weather_Condition : string;
  Data_Source : string
}.

(** A row of a FastF1 weather table after lines 73-75 added the columns
    [Year], [Race] and [Date]. *)
Record observed_row : Type := {
  sample : weather_sample;
  obs_Year : Z;
  obs_Race : string;
  obs_Date : string
}.

(** A row of the concatenated weather table.  [pd.concat] takes the union
    of the columns and leaves a cell empty (NaN) where a frame had no such
    column. *)
Inductive weather_row : Type :=
| FromFastF1 (r : observed_row)
| FromSynthetic (r : weather_record).

Definition col_Year (r : weather_row) : Z :=
  match r with
  | FromFastF1 o => obs_Year o
  | FromSynthetic w => Year w
  end.

Definition col_Data_Source (r : weather_row) : option string :=
  match r with
  | FromFastF1 _ => None
  | FromSynthetic w => Some (Data_Source w)
  end.

Definition col_Weather_Condition (r : weather_row) : option string :=
  match r with
  | FromFastF1 _ => None
  | FromSynthetic w => Some (Weather_Condition w)
  end.

(** Contents of a file written by [to_csv]. *)
Inductive table : Type :=
| Rows (f : Py.frame)
| WeatherRows (rows : list weather_row).

Declare Scope monad_scope.
Delimit Scope monad_scope with monad.
Local Open Scope monad_scope.

Section Runtime.
Context {np : Numpy} {up : Upstream}.

Record state : Type := {
  trace : list event;
  files : gmap string table;
  rng : generator
}.

Definition M (A : Type) : Type := state -> Py.result A * state.

Definition ret {A : Type} (a : A) : M A := fun s => (Py.Ok a, s).

Definition bind {A B : Type} (c : M A) (k : A -> M B) : M B :=
  fun s => match c s with
           | (Py.Ok a, s') => k a s'
           | (Py.Raise e, s') => (Py.Raise e, s')
           end.

Notation "x <- c1 ;; c2" := (bind c1 (fun x => c2))
  (at level 100, c1 at next level, right associativity) : monad_scope.
Notation "c1 ;; c2" := (bind c1 (fun _ => c2))
  (at level 100, right associativity) : monad_scope.

Definition lift {A : Type} (r : Py.result A) : M A := fun s => (r, s).

Definition raise {A : Type} (e : Py.exn) : M A := fun s => (Py.Raise e, s).

(** [try: body  except <class>: handler]; an exception outside the class
    is raised again. *)
Definition try_except {A : Type} (body : M A) (catches : Py.exn -> bool)
    (handler : Py.exn -> M A) : M A :=
  fun s => match body s with
           | (Py.Ok a, s') => (Py.Ok a, s')
           | (Py.Raise e, s') => if catches e then handler e s' else (Py.Raise e, s')
           end.

(** [except Exception] *)
Definition any_Exception (e : Py.exn) : bool := true.

Definition emit (e : event) : M unit :=
  fun s => (Py.Ok tt, {| trace := trace s ++ [e]; files := files s; rng := rng s |}).

Definition print (line : string) : M unit := emit (Print line).

Definition mkdir (path : string) : M unit := emit (Mkdir path).

Definition time_sleep (seconds : float) : M unit := emit (Sleep seconds).

(** [df.to_csv(path, index=False)] creates or overwrites the file. *)
Definition to_csv (path : string) (t : table) : M unit :=
  fun s => (Py.Ok tt, {| trace := trace s ++ [ToCsv path];
                         files := <[path := t]> (files s);
                         rng := rng s |}).

Definition path_exists (path : string) : M bool :=
  fun s => (Py.Ok (bool_decide (is_Some (files s !! path))), s).

(** [requests.get]: one request; raises when there is no response. *)
Definition requests_get (url : string) (params : option (list (string * string)))
  : M (Z * option Py.value) :=
  fun s =>
    let s' := {| trace := trace s ++ [Get url params]; files := files s; rng := rng s |} in
    match http_get (trace s) url params with
    | NoResponse detail => (Py.Raise (Py.RequestException detail), s')
    | Response status body => (Py.Ok (status, body), s')
    end.

(** [response.raise_for_status()]; the text of the library's message is
    shortened. *)
Definition raise_for_status (response : Z * option Py.value) : M unit :=
  let status := fst response in
  if (400 <=? status) && (status <? 600)
  then raise (Py.RequestException ("HTTP " ++ Py.str status))
  else ret tt.

(** [response.json()]; a body that is not JSON raises the library's
    decoding error, a [RequestException]. *)
Definition response_json (response : Z * option Py.value) : M Py.value :=
  match snd response with
  | Some v => ret v
  | None => raise (Py.RequestException "Expecting value")
  end.

(** [fastf1.get_session(year, 'Singapore', 'R')] and [session.load()] *)
Definition load_session (year : Z) : M session :=
  fun s =>
    let s' := {| trace := trace s ++ [LoadSession year]; files := files s; rng := rng s |} in
    match fastf1_session (trace s) year with
    | SessionError detail => (Py.Raise (Py.OtherException detail), s')
    | SessionLoaded sess => (Py.Ok sess, s')
    end.

(** [np.random.seed(n)]: legacy seeding accepts 0 <= n < 2**32. *)
Definition np_random_seed (n : Z) : M unit :=
  fun s =>
    if (0 <=? n) && (n <? 2 ^ 32)
    then (Py.Ok tt, {| trace := trace s; files := files s; rng := seeded n |})
    else (Py.Raise Py.ValueError, s).

Definition draw (sampler : generator -> float * generator) : M float :=
  fun s => let (x, g) := sampler (rng s) in
           (Py.Ok x, {| trace := trace s; files := files s; rng := g |}).

Definition np_random_normal (loc scale : float) : M float := draw (normal loc scale).
Definition np_random_exponential (scale : float) : M float := draw (exponential scale).
Definition np_random_uniform (low high : float) : M float := draw (uniform low high).

(** A [for] loop whose body extends an accumulator. *)
Fixpoint for_each {A B : Type} (xs : list A) (body : B -> A -> M B) (acc : B) : M B :=
  match xs with
  | [] => ret acc
  | x :: rest => acc' <- body acc x ;; for_each rest body acc'
  end.

End Runtime.

Notation "x <- c1 ;; c2" := (bind c1 (fun x => c2))
  (at level 100, c1 at next level, right associativity) : monad_scope.
Notation "c1 ;; c2" := (bind c1 (fun _ => c2))
  (at level 100, right associativity) : monad_scope.

(** [range(a, b)] *)
Definition range (a b : Z) : list Z :=
  map (fun i => a + Z.of_nat i) (seq 0 (Z.to_nat (b - a))).

(** [str] of a list of integers, as an f-string prints it. *)
Fixpoint join (sep : string) (l : list string) : string :=
  match l with
  | [] => ""
  | [x] => x
  | x :: rest => x ++ sep ++ join sep rest
  end.

Definition repr_list (l : list Z) : string :=
  "[" ++ join ", " (map Py.str l) ++ "]".

Definition newline : string := String (ascii_of_nat 10) EmptyString.

Definition len {A : Type} (l : list A) : Z := Z.of_nat (length l).

(** ** [src/ergast_data_collector.py] *)

Module ergast_data_collector.
Import Py.

(** [d.update(u)]: an existing key keeps its place and takes the new
    value, a new key is appended. *)
Fixpoint dict_set (k : string) (v : value) (d : row) : row :=
  match d with
  | [] => [(k, v)]
  | (k', v') :: rest =>
      if String.eqb k k' then (k', v) :: rest else (k', v') :: dict_set k v rest
  end.

Definition dict_update (d u : row) : row :=
  fold_left (fun acc kv => dict_set (fst kv) (snd kv) acc) u d.

(** [obj[k1][k2]] *)
Definition getitem2 (obj : value) (k1 k2 : string) : result value :=
  let* inner := getitem obj k1 in getitem inner k2.

(** [obj[k1][k2][k3]] *)
Definition getitem3 (obj : value) (k1 k2 k3 : string) : result value :=
  let* inner := getitem2 obj k1 k2 in getitem inner k3.

(** Lines 59-65. *)
Definition race_info_of (year : Z) (race : value) : result row :=
  let* date := getitem race "date" in
  let* round := getitem race "round" in
  let* raceName := getitem race "raceName" in
  Ok [("Year", VInt year); ("Race", VStr "Singapore"); ("Date", date);
      ("Round", round); ("RaceName", raceName)].

(** Lines 70-88: one flat record per driver result; the entries of the
    dictionary display are evaluated in order. *)
Definition result_data_of (race_info : row) (result : value) : Py.result row :=
  let* position := getitem result "position" in
  let* positionText := getitem result "positionText" in
  let* points := getitem result "points" in
  let* driver := getitem result "Driver" in
  let* has_number := contains "permanentNumber" driver in
  let* driverNumber := (if has_number
                        then getitem2 result "Driver" "permanentNumber"
                        else Ok VNone) in
  let* driverCode := getitem2 result "Driver" "code" in
  let* givenName := getitem2 result "Driver" "givenName" in
  let* familyName := getitem2 result "Driver" "familyName" in
  let* constructorName := getitem2 result "Constructor" "name" in
  let* constructorId := getitem2 result "Constructor" "constructorId" in
  let* grid := getitem result "Grid" in
  let* laps := getitem result "Laps" in
  let* status := getitem result "Status" in
  let* has_time := contains "Time" result in
  let* time := (if has_time then getitem2 result "Time" "time" else Ok VNone) in
  let* has_fl := contains "FastestLap" result in
  let* rank := (if has_fl then getitem2 result "FastestLap" "rank" else Ok VNone) in
  let* has_fl1 := contains "FastestLap" result in
  let* has_fl_time := (if has_fl1
                       then let* fl := getitem result "FastestLap" in
                            contains "Time" fl
                       else Ok false) in
  let* fl_time := (if has_fl_time
                   then getitem3 result "FastestLap" "Time" "time"
                   else Ok VNone) in
  let* has_fl2 := contains "FastestLap" result in
  let* has_fl_speed := (if has_fl2
                        then let* fl := getitem result "FastestLap" in
                             contains "AverageSpeed" fl
                        else Ok false) in
  let* fl_speed := (if has_fl_speed
                    then getitem3 result "FastestLap" "AverageSpeed" "speed"
                    else Ok VNone) in
  Ok (dict_update race_info
         [("Position", position); ("PositionText", positionText);
          ("Points", points); ("DriverNumber", driverNumber);
          ("DriverCode", driverCode); ("DriverGivenName", givenName);
          ("DriverFamilyName", familyName); ("ConstructorName", constructorName);
          ("ConstructorId", constructorId); ("Grid", grid); ("Laps", laps);
          ("Status", status); ("Time", time); ("FastestLapRank", rank);
          ("FastestLapTime", fl_time); ("FastestLapAvgSpeed", fl_speed)]).

(** Lines 58-90, for one race. *)
Definition results_of_race (year : Z) (race : value) : result (list row) :=
  let* race_info := race_info_of year race in
  let* has_results := contains "Results" race in
  if has_results then
    let* results := getitem race "Results" in
    let* items := iter results in
    map_result (result_data_of race_info) items
  else Ok [].

(** Concatenation of what [f] yields on each element, in order. *)
Definition flat_map_result {A B : Type} (f : A -> result (list B)) (l : list A)
  : result (list B) :=
  let* chunks := map_result f l in Ok (concat chunks).

(** Lines 55-90: the records one response contributes.  [data] is what
    [make_request] returned. *)
Definition singapore_records (year : Z) (data : option value) : result (list row) :=
  match data with
  | None => Ok []
  | Some d =>
      if truthy d then
        let* has := contains "MRData" d in
        if has then
          let* mrdata := getitem d "MRData" in
          let* race_table := getitem mrdata "RaceTable" in
          let* races := getitem race_table "Races" in
          let* items := iter races in
          flat_map_result (results_of_race year) items
        else Ok []
      else Ok []
  end.

(** Lines 127-137. *)
Definition driver_standing_data (year_data : value) (standing : value) : result row :=
  let* year := int year_data in
  let* position := getitem standing "position" in
  let* points := getitem standing "points" in
  let* wins := getitem standing "wins" in
  let* code := getitem2 standing "Driver" "code" in
  let* givenName := getitem2 standing "Driver" "givenName" in
  let* familyName := getitem2 standing "Driver" "familyName" in
  let* constructors := getitem standing "Constructors" in
  let* constructorName := (if truthy constructors
                           then let* cs := getitem standing "Constructors" in
                                let* c := getitem0 cs in
                                getitem c "name"
                           else Ok VNone) in
  let* constructors' := getitem standing "Constructors" in
  let* constructorId := (if truthy constructors'
                         then let* cs := getitem standing "Constructors" in
                              let* c := getitem0 cs in
                              getitem c "constructorId"
                         else Ok VNone) in
  Ok [("Year", VInt year); ("Position", position); ("Points", points);
      ("Wins", wins); ("DriverCode", code); ("DriverGivenName", givenName);
      ("DriverFamilyName", familyName); ("ConstructorName", constructorName);
      ("ConstructorId", constructorId)].

(** Lines 176-183. *)
Definition constructor_standing_data (year_data : value) (standing : value)
  : result row :=
  let* year := int year_data in
  let* position := getitem standing "position" in
  let* points := getitem standing "points" in
  let* wins := getitem standing "wins" in
  let* name := getitem2 standing "Constructor" "name" in
  let* constructorId := getitem2 standing "Constructor" "constructorId" in
  Ok [("Year", VInt year); ("Position", position); ("Points", points);
      ("Wins", wins); ("ConstructorName", name); ("ConstructorId", constructorId)].

(** Lines 120-139 and 169-185: the records one standings response
    contributes; [list_key] is 'DriverStandings' or 'ConstructorStandings'. *)
Definition standings_records (list_key : string)
    (standing_data : value -> value -> result row) (data : option value)
  : result (list row) :=
  match data with
  | None => Ok []
  | Some d =>
      if truthy d then
        let* has := contains "MRData" d in
        if has then
          let* standings_table := getitem2 d "MRData" "StandingsTable" in
          let* lists := getitem standings_table "StandingsLists" in
          let* items := iter lists in
          flat_map_result
            (fun standings_list =>
               let* year_data := getitem standings_list "season" in
               let* standings := getitem standings_list list_key in
               let* entries := iter standings in
               map_result (standing_data year_data) entries)
            items
        else Ok []
      else Ok []
  end.

(** Lines 212-219. *)
Definition circuit_info_of (circuit : value) : result row :=
  let* circuitId := getitem circuit "circuitId" in
  let* circuitName := getitem circuit "circuitName" in
  let* country := getitem2 circuit "Location" "country" in
  let* lat := getitem2 circuit "Location" "lat" in
  let* long := getitem2 circuit "Location" "long" in
  let* locality := getitem2 circuit "Location" "locality" in
  Ok [("CircuitId", circuitId); ("CircuitName", circuitName);
      ("Country", country); ("Latitude", lat); ("Longitude", long);
      ("Locality", locality)].

(** Lines 207-220: the rows of the circuit table, or [None] when the
    test of line 207 fails. *)
Definition circuit_records (data : option value) : result (option (list row)) :=
  match data with
  | None => Ok None
  | Some d =>
      if truthy d then
        let* has := contains "MRData" d in
        if has then
          let* circuits := getitem3 d "MRData" "CircuitTable" "Circuits" in
          let* items := iter circuits in
          let* circuit_data := map_result circuit_info_of items in
          Ok (Some circuit_data)
        else Ok None
      else Ok None
  end.

(** Lines 253-263. *)
Definition schedule_data_of (year : Z) (race : value) : result row :=
  let* round := getitem race "round" in
  let* raceName := getitem race "raceName" in
  let* circuitName := getitem2 race "Circuit" "circuitName" in
  let* circuitId := getitem2 race "Circuit" "circuitId" in
  let* date := getitem race "date" in
  let* has_time := contains "time" race in
  let* time := (if has_time then getitem race "time" else Ok VNone) in
  let* country := getitem3 race "Circuit" "Location" "country" in
  let* locality := getitem3 race "Circuit" "Location" "locality" in
  Ok [("Year", VInt year); ("Round", round); ("RaceName", raceName);
      ("CircuitName", circuitName); ("CircuitId", circuitId); ("Date", date);
      ("Time", time); ("Country", country); ("Locality", locality)].

(** Lines 249-265. *)
Definition schedule_records (year : Z) (data : option value) : result (list row) :=
  match data with
  | None => Ok []
  | Some d =>
      if truthy d then
        let* has := contains "MRData" d in
        if has then
          let* races := getitem3 d "MRData" "RaceTable" "Races" in
          let* items := iter races in
          map_result (schedule_data_of year) items
        else Ok []
      else Ok []
  end.

Section Collector.
Context {np : Numpy} {up : Upstream}.

(** The attributes set by [__init__]. *)
Record ErgastDataCollector : Type := {
  base_url : string;
  data_dir : string
}.

Definition init (data_dir : string) : M ErgastDataCollector :=
  mkdir data_dir ;;
  ret {| base_url := "http://ergast.com/api/f1"; data_dir := data_dir |}.

Definition url_of (self : ErgastDataCollector) (endpoint : string) : string :=
  base_url self ++ "/" ++ endpoint ++ ".json".

(** Lines 26-40. *)
Definition make_request (self : ErgastDataCollector) (endpoint : string)
    (params : option (list (string * string))) : M (option value) :=
  let url := url_of self endpoint in
  try_except
    (response <- requests_get url params ;;
     raise_for_status response ;;
     time_sleep 0.5 ;;
     body <- response_json response ;;
     ret (Some body))
    is_RequestException
    (fun e =>
       print ("Error making request to " ++ url ++ ": " ++ exn_text e) ;;
       ret None).

(** Lines 92-104, 141-153, 187-199, 267-279: write the table when the
    accumulated list is not empty. *)
Definition save_if_any (self : ErgastDataCollector) (records : list row)
    (file saved total nothing : string) : M (option frame) :=
  match records with
  | _ :: _ =>
      let output_path := data_dir self ++ "/" ++ file in
      to_csv output_path (Rows records) ;;
      print (saved ++ output_path) ;;
      print (total ++ str (len records)) ;;
      ret (Some records)
  | [] =>
      print nothing ;;
      ret None
  end.

(** Lines 42-104. *)
Definition collect_singapore_gp_results (self : ErgastDataCollector)
  : M (option frame) :=
  print "Collecting Singapore GP results from Ergast API..." ;;
  all_results <-
    for_each (range 2008 2025)
      (fun all_results year =>
         print ("Collecting " ++ str year ++ " Singapore GP...") ;;
         data <- make_request self (str year ++ "/Singapore/results") None ;;
         records <- lift (singapore_records year data) ;;
         ret (all_results ++ records)%list)
      [] ;;
  save_if_any self all_results "singapore_gp_results_ergast_2008_2024.csv"
    "Saved Singapore GP results: " "Total records: "
    "No Singapore GP results collected".

Definition default_years (years : option (list Z)) : list Z :=
  match years with
  | Some l => l
  | None => range 2015 2025
  end.

(** Lines 106-153. *)
Definition collect_driver_standings (self : ErgastDataCollector)
    (years : option (list Z)) : M (option frame) :=
  let years := default_years years in
  print ("Collecting driver standings for years: " ++ repr_list years) ;;
  all_standings <-
    for_each years
      (fun all_standings year =>
         print ("Collecting " ++ str year ++ " driver standings...") ;;
         data <- make_request self (str year ++ "/driverStandings") None ;;
         records <- lift (standings_records "DriverStandings" driver_standing_data data) ;;
         ret (all_standings ++ records)%list)
      [] ;;
  save_if_any self all_standings "driver_standings_2015_2024.csv"
    "Saved driver standings: " "Total records: " "No driver standings collected".

(** Lines 155-199. *)
Definition collect_constructor_standings (self : ErgastDataCollector)
    (years : option (list Z)) : M (option frame) :=
  let years := default_years years in
  print ("Collecting constructor standings for years: " ++ repr_list years) ;;
  all_standings <-
    for_each years
      (fun all_standings year =>
         print ("Collecting " ++ str year ++ " constructor standings...") ;;
         data <- make_request self (str year ++ "/constructorStandings") None ;;
         records <- lift (standings_records "ConstructorStandings"
                            constructor_standing_data data) ;;
         ret (all_standings ++ records)%list)
      [] ;;
  save_if_any self all_standings "constructor_standings_2015_2024.csv"
    "Saved constructor standings: " "Total records: "
    "No constructor standings collected".

(** Lines 201-233.  The table is written whenever the response carries
    the [MRData] envelope, whatever the number of circuits. *)
Definition collect_circuit_info (self : ErgastDataCollector) : M (option frame) :=
  print "Collecting circuit information..." ;;
  data <- make_request self "circuits" None ;;
  flattened <- lift (circuit_records data) ;;
  match flattened with
  | Some circuit_data =>
      let output_path := data_dir self ++ "/" ++ "circuits_info.csv" in
      to_csv output_path (Rows circuit_data) ;;
      print ("Saved circuit information: " ++ output_path) ;;
      print ("Total circuits: " ++ str (len circuit_data)) ;;
      ret (Some circuit_data)
  | None =>
      print "No circuit information collected" ;;
      ret None
  end.

(** Lines 235-279. *)
Definition collect_season_schedules (self : ErgastDataCollector)
    (years : option (list Z)) : M (option frame) :=
  let years := default_years years in
  print ("Collecting season schedules for years: " ++ repr_list years) ;;
  all_schedules <-
    for_each years
      (fun all_schedules year =>
         print ("Collecting " ++ str year ++ " schedule...") ;;
         data <- make_request self (str year) None ;;
         records <- lift (schedule_records year data) ;;
         ret (all_schedules ++ records)%list)
      [] ;;
  save_if_any self all_schedules "season_schedules_2015_2024.csv"
    "Saved season schedules: " "Total races: " "No season schedules collected".

(** The dictionary returned by [collect_all_data]. *)
Record collected : Type := {
  singapore_results : option frame;
  driver_standings : option frame;
  constructor_standings : option frame;
  circuit_info : option frame;
  season_schedules : option frame
}.

(** Lines 281-301. *)
Definition collect_all_data (self : ErgastDataCollector) : M collected :=
  print "Starting comprehensive data collection..." ;;
  singapore_results <- collect_singapore_gp_results self ;;
  driver_standings <- collect_driver_standings self None ;;
  constructor_standings <- collect_constructor_standings self None ;;
  circuit_info <- collect_circuit_info self ;;
  season_schedules <- collect_season_schedules self None ;;
  print (newline ++ "=== DATA COLLECTION COMPLETE ===") ;;
  print ("Data saved to: " ++ data_dir self) ;;
  ret {| singapore_results := singapore_results;
         driver_standings := driver_standings;
         constructor_standings := constructor_standings;
         circuit_info := circuit_info;
         season_schedules := season_schedules |}.

(** Lines 310-314: one line of the summary. *)
Definition summary_line (data_type : string) (df : option frame) : string :=
  match df with
  | Some df => data_type ++ ": " ++ str (len df) ++ " records"
  | None => data_type ++ ": No data collected"
  end.

(** [data.items()], in the order of the dictionary display of lines
    295-301. *)
Definition items (data : collected) : list (string * option frame) :=
  [("singapore_results", singapore_results data);
   ("driver_standings", driver_standings data);
   ("constructor_standings", constructor_standings data);
   ("circuit_info", circuit_info data);
   ("season_schedules", season_schedules data)].

(** Lines 303-314. *)
Definition main : M unit :=
  collector <- init "../data" ;;
  data <- collect_all_data collector ;;
  print (newline ++ "=== COLLECTION SUMMARY ===") ;;
  for_each (items data)
    (fun _ item => print (summary_line (fst item) (snd item)))
    tt.

End Collector.
End ergast_data_collector.

(** ** [src/weather_data_collector.py] *)

Module weather_data_collector.

(** Lines 124-132. *)
Definition condition_of (precipitation humidity : float) : string :=
  if PrimFloat.ltb 10 precipitation then "Rain"
  else if PrimFloat.ltb 2 precipitation then "Light Rain"
  else if PrimFloat.ltb 85 humidity then "Humid"
  else "Clear".

(** [drop_duplicates(subset=['Year'], keep='first')]: a row stays when no
    earlier row has its Year; [seen] holds the years met so far. *)
Fixpoint drop_duplicates_from (seen : list Z) (rows : list weather_row)
  : list weather_row :=
  match rows with
  | [] => []
  | r :: rest =>
      if existsb (Z.eqb (col_Year r)) seen
      then drop_duplicates_from seen rest
      else r :: drop_duplicates_from (col_Year r :: seen) rest
  end.

Definition drop_duplicates (rows : list weather_row) : list weather_row :=
  drop_duplicates_from [] rows.

Section Collector.
Context {np : Numpy} {up : Upstream}.

(** The attributes set by [__init__]. *)
Record WeatherDataCollector : Type := {
  data_dir : string;
  singapore_lat : float;
  singapore_lon : float;
  weather_api_key : option string
}.

Definition init (data_dir : string) : M WeatherDataCollector :=
  mkdir data_dir ;;
  ret {| data_dir := data_dir;
         singapore_lat := 1.3521;
         singapore_lon := 103.8198;
         weather_api_key := None |}.

(** Lines 59-84. *)
Definition get_weather_from_fastf1 (year : Z) : M (option (list observed_row)) :=
  try_except
    (session <- load_session year ;;
     match weather_data session with
     | Some ((_ :: _) as rows) =>
         ret (Some (map (fun smp => {| sample := smp;
                                       obs_Year := year;
                                       obs_Race := "Singapore";
                                       obs_Date := date session |}) rows))
     | _ =>
         print ("No weather data available for " ++ Py.str year ++ " Singapore GP") ;;
         ret None
     end)
    any_Exception
    (fun e =>
       print ("Error getting FastF1 weather data for " ++ Py.str year ++ ": "
              ++ Py.exn_text e) ;;
       ret None).

(** Lines 96-148: the body of the loop, for one year. *)
Definition synthetic_record (year : Z) : M weather_record :=
  let race_date := Py.str year ++ "-09-22" in
  np_random_seed year ;;
  temp_min <- np_random_normal 26 2 ;;
  temp_max <- np_random_normal 31 2 ;;
  let temp_avg := ((temp_min + temp_max) / 2)%float in
  humidity <- np_random_normal 80 10 ;;
  let humidity := Py.max 60 (Py.min 95 humidity) in
  precipitation <- np_random_exponential 5 ;;
  wind_speed <- np_random_exponential 8 ;;
  let wind_speed := Py.min 25 wind_speed in
  wind_direction <- np_random_uniform 0 360 ;;
  pressure <- np_random_normal 1013 10 ;;
  let condition := condition_of precipitation humidity in
  ret {| Year := year;
         Race := "Singapore";
         Date := race_date;
         Temperature_Min_C := Py.round temp_min 1;
         Temperature_Max_C := Py.round temp_max 1;
         Temperature_Avg_C := Py.round temp_avg 1;
         Humidity_Percent := Py.round humidity 1;
         Precipitation_mm := Py.round precipitation 1;
         Wind_Speed_kmh := Py.round wind_speed 1;
         Wind_Direction_deg := Py.round wind_direction 0;
         Pressure_hPa := Py.round pressure 1;
         Weather_Condition := condition;
         Data_Source := "Synthetic" |}.

(** Lines 86-152. *)
Definition create_synthetic_weather_data (years : list Z) : M (list weather_record) :=
  print "Creating synthetic weather data based on Singapore climate patterns..." ;;
  for_each years
    (fun weather_data year =>
       weather_record <- synthetic_record year ;;
       ret (weather_data ++ [weather_record])%list)
    [].

(** Lines 164-175: one frame per year for which FastF1 has weather. *)
Definition collect_fastf1_frames (years : list Z) : M (list (list weather_row)) :=
  for_each years
    (fun all_weather_data year =>
       try_except
         (weather_df <- get_weather_from_fastf1 year ;;
          match weather_df with
          | Some df =>
              print ("Collected FastF1 weather data for " ++ Py.str year) ;;
              ret (all_weather_data ++ [map FromFastF1 df])%list
          | None =>
              print ("No FastF1 weather data for " ++ Py.str year) ;;
              ret all_weather_data
          end)
         any_Exception
         (fun e =>
            print ("Error collecting FastF1 weather data for " ++ Py.str year ++ ": "
                   ++ Py.exn_text e) ;;
            ret all_weather_data))
    [].

(** Line 178: [len(all_weather_data) < len(years) * 0.5].  Halving a list
    length is exact in binary64 and Python compares an int with a float
    exactly, so the test is the integer comparison below. *)
Definition below_half_coverage {A B : Type} (all_weather_data : list A)
    (years : list B) : bool :=
  2 * len all_weather_data <? len years.

(** Lines 163-175. *)
Definition observed_frames (years : list Z) (use_fastf1 : bool)
  : M (list (list weather_row)) :=
  if use_fastf1
  then print "Attempting to collect weather data from FastF1..." ;;
       collect_fastf1_frames years
  else ret [].

Definition gaps_banner : string := "Creating synthetic weather data to fill gaps...".

(** Lines 177-181. *)
Definition fill_gaps (years : list Z) (use_synthetic : bool)
    (all_weather_data : list (list weather_row)) : M (list (list weather_row)) :=
  if use_synthetic && below_half_coverage all_weather_data years
  then print gaps_banner ;;
       synthetic_data <- create_synthetic_weather_data years ;;
       ret (all_weather_data ++ [map FromSynthetic synthetic_data])%list
  else ret all_weather_data.

Definition weather_csv (self : WeatherDataCollector) : string :=
  data_dir self ++ "/" ++ "singapore_weather_2008_2024.csv".

(** Lines 183-199. *)
Definition combine_and_save (self : WeatherDataCollector)
    (all_weather_data : list (list weather_row)) : M (option (list weather_row)) :=
  match all_weather_data with
  | _ :: _ =>
      let combined_weather := drop_duplicates (concat all_weather_data) in
      let output_path := weather_csv self in
      to_csv output_path (WeatherRows combined_weather) ;;
      print ("Saved weather data: " ++ output_path) ;;
      print ("Total records: " ++ Py.str (len combined_weather)) ;;
      ret (Some combined_weather)
  | [] =>
      print "No weather data collected" ;;
      ret None
  end.

Definition requested_years (years : option (list Z)) : list Z :=
  match years with
  | Some l => l
  | None => range 2008 2025
  end.

(** Lines 154-199. *)
Definition collect_weather_data (self : WeatherDataCollector)
    (years : option (list Z)) (use_fastf1 use_synthetic : bool)
  : M (option (list weather_row)) :=
  let years := requested_years years in
  print ("Collecting weather data for Singapore GP years: " ++ repr_list years) ;;
  all_weather_data <- observed_frames years use_fastf1 ;;
  all_weather_data <- fill_gaps years use_synthetic all_weather_data ;;
  combine_and_save self all_weather_data.

End Collector.
End weather_data_collector.

(** ** [src/run_data_collection.py]

    The script is modelled in a working directory as it expects it: the
    data directory can be created, the FastF1 cache directory exists and
    files can be written.  Decorative glyphs, byte sizes and thousands
    separators of the printed lines are left out. *)

Module run_data_collection.
Import Py.

(** Lines 69-78: the three added columns, then the columns to keep that
    the frame has, in the order of [cols_to_keep]. *)
Definition cols_to_keep : list string :=
  ["Year"; "Race"; "Date"; "Abbreviation"; "FullName"; "TeamName";
   "Position"; "Points"; "GridPosition"; "Status"; "Time"; "FastestLapTime"].

Definition select_columns (cols : list string) (r : row) : row :=
  flat_map (fun col => match lookup_key col r with
                       | Some v => [(col, v)]
                       | None => []
                       end) cols.

Definition results_subset_of (year : Z) (session_date : string) (r : row) : row :=
  let r := ergast_data_collector.dict_set "Year" (VInt year) r in
  let r := ergast_data_collector.dict_set "Race" (VStr "Singapore") r in
  let r := ergast_data_collector.dict_set "Date" (VStr session_date) r in
  select_columns cols_to_keep r.

Definition ends_with (suffix s : string) : bool :=
  let n := String.length s in
  let k := String.length suffix in
  (k <=? n)%nat && String.eqb (String.substring (n - k) k s) suffix.

(** The name of [path] when it is a [*.csv] file directly in [dir]. *)
Definition csv_name_in (dir path : string) : option string :=
  let prefix := dir ++ "/" in
  if String.prefix prefix path then
    let name := String.substring (String.length prefix)
                  (String.length path - String.length prefix) path in
    if ends_with ".csv" name && negb (is_substring "/" name)
    then Some name else None
  else None.

(** [pd.read_csv] on a file the collectors wrote, up to the number of
    records.  A table without rows is taken to be without columns, as the
    one the circuit collector can write, and such a file cannot be
    parsed. *)
Definition read_csv (t : table) : result Z :=
  match t with
  | Rows [] => Raise (OtherException "No columns to parse from file")
  | Rows f => Ok (len f)
  | WeatherRows rows => Ok (len rows)
  end.

Definition key_files : list string :=
  ["singapore_gp_results_ergast_2008_2024.csv";
   "driver_standings_2015_2024.csv";
   "constructor_standings_2015_2024.csv";
   "singapore_weather_2008_2024.csv"].

Section Script.
Context {np : Numpy} {up : Upstream}.

(** [fastf1.Cache.enable_cache] *)
Definition enable_cache (path : string) : M unit := mkdir path.

(** Lines 57-93. *)
Definition collect_singapore_fastf1 (data_dir : string) : M (option frame) :=
  singapore_results <-
    for_each (range 2008 2025)
      (fun singapore_results year =>
         try_except
           (print ("  Collecting " ++ str year ++ " Singapore GP from FastF1...") ;;
            session <- load_session year ;;
            match results session with
            | None => raise TypeError
            | Some results =>
                let results_subset :=
                  map (results_subset_of year (date session)) results in
                ret (singapore_results ++ [results_subset])%list
            end)
           any_Exception
           (fun e =>
              print ("  Error collecting " ++ str year ++ ": " ++ exn_text e) ;;
              ret singapore_results))
      [] ;;
  match singapore_results with
  | _ :: _ =>
      let all_results := concat singapore_results in
      let output_path := data_dir ++ "/" ++ "singapore_gp_results_fastf1_2008_2024.csv" in
      to_csv output_path (Rows all_results) ;;
      print ("  Saved FastF1 Singapore GP results: " ++ output_path) ;;
      ret (Some all_results)
  | [] => ret None
  end.

(** [list(data_dir.glob('*.csv'))], in the order the directory yields. *)
Definition glob_csv (data_dir : string) : M (list (string * table)) :=
  fun s =>
    (Ok (omap (fun entry => match csv_name_in data_dir (fst entry) with
                            | Some name => Some (name, snd entry)
                            | None => None
                            end)
              (map_to_list (files s))),
     s).

(** Lines 95-131. *)
Definition validate_and_summarize (data_dir : string) : M unit :=
  data_files <- glob_csv data_dir ;;
  print (newline ++ "Collected " ++ str (len data_files) ++ " data files:") ;;
  total_records <-
    for_each data_files
      (fun total_records file =>
         try_except
           (records <- lift (read_csv (snd file)) ;;
            print ("  " ++ fst file ++ ": " ++ str records ++ " records") ;;
            ret (total_records + records))
           any_Exception
           (fun e =>
              print ("  " ++ fst file ++ ": Error reading file - " ++ exn_text e) ;;
              ret total_records))
      0 ;;
  print (newline ++ "Total records collected: " ++ str total_records) ;;
  print (newline ++ "Key data files status:") ;;
  for_each key_files
    (fun _ key_file =>
       present <- path_exists (data_dir ++ "/" ++ key_file) ;;
       if present : bool
       then print ("  " ++ key_file)
       else print ("  " ++ key_file ++ " (missing)"))
    tt.

Definition step1 : string :=
  newline ++ "Step 1: Collecting historical F1 data from Ergast API...".
Definition step2 : string := newline ++ "Step 2: Collecting weather data...".
Definition step3 : string :=
  newline ++ "Step 3: Collecting Singapore GP results from FastF1...".
Definition step4 : string := newline ++ "Step 4: Data validation and summary...".

(** Lines 23-55. *)
Definition main : M unit :=
  print "F1 Singapore GP Data Collection" ;;
  print "==================================================" ;;
  let data_dir := "../data" in
  mkdir data_dir ;;
  enable_cache "../f1_cache" ;;
  print step1 ;;
  ergast_collector <- ergast_data_collector.init data_dir ;;
  historical_data <- ergast_data_collector.collect_all_data ergast_collector ;;
  print step2 ;;
  weather_collector <- weather_data_collector.init data_dir ;;
  weather_data <- weather_data_collector.collect_weather_data
                    weather_collector None true true ;;
  print step3 ;;
  singapore_results <- collect_singapore_fastf1 data_dir ;;
  print step4 ;;
  validate_and_summarize data_dir ;;
  print (newline ++ "Data collection complete!") ;;
  print ("All data saved to: " ++ data_dir).

End Script.
End run_data_collection.

(** ** [webapp/app.py] *)

Module app.
Import Py.

(** Python's [str.upper], on the ASCII letters. *)
Definition upper_char (c : ascii) : ascii :=
  let n := nat_of_ascii c in
  if ((97 <=? n) && (n <=? 122))%nat then ascii_of_nat (n - 32) else c.

Fixpoint upper (s : string) : string :=
  match s with
  | EmptyString => EmptyString
  | String c rest => String (upper_char c) (upper rest)
  end.



(** A row of [singapore_gp_2025_predictions.csv]: the columns the routes
    read, and the remaining columns as they are. *)
Record prediction : Type := {
  Driver : string;
  Team : string;
  Win_Probability : float;
  other_columns : row
}.

(** What is on disk for one startup artifact: nothing, a file that cannot
    be deserialized, or a file with its content. *)
Inductive artifact (A : Type) : Type :=
| Absent
| Unreadable (detail : string)
| Stored (content : A).
Arguments Absent {A}.
Arguments Unreadable {A} detail.
Arguments Stored {A} content.

(** [joblib.load] and [pd.read_csv] *)
Definition load {A : Type} (name : string) (a : artifact A) : result A :=
  match a with
  | Absent => Raise (OtherException ("No such file or directory: " ++ name))
  | Unreadable detail => Raise (OtherException detail)
  | Stored content => Ok content
  end.

(** [df.iloc[0]] *)
Definition iloc0 {A : Type} (df : list A) : result A :=
  match df with
  | x :: _ => Ok x
  | [] => Raise IndexError
  end.

(** A row of the team table of the landing page (lines 66-70). *)
Record team_row : Type := {
  team : string;
  Total_Win_Probability : float;
  Drivers : Z
}.

(** What a route returns: a rendered template with its context, or a JSON
    body with a status code. *)
Inductive response : Type :=
| error_html (error : string)
| index_html (predictions : list prediction) (team_analysis : list team_row)
    (summary : row)
| driver_detail_html (driver : prediction)
| about_html
| json_predictions (predictions : list prediction) (summary : row) (status : Z)
| json_feature_importance (features : frame) (status : Z)
| json_error (error : string) (status : Z).

Section Dashboard.
(** The pickled objects are not inspected by any route. *)
Context {Model Scaler Encoders : Type}.
(** The team table is computed by pandas ([groupby], [agg],
    [sort_values]); the computation is taken as given. *)
Context (team_analysis_of : list prediction -> list team_row).

Record features_dir : Type := {
  best_model_pkl : artifact Model;
  feature_scaler_pkl : artifact Scaler;
  label_encoders_pkl : artifact Encoders;
  singapore_gp_2025_predictions_csv : artifact (list prediction);
  feature_importance_csv : artifact frame;
  prediction_summary_csv : artifact frame
}.

(** The dictionary returned by [load_model_and_data]. *)
Record model_data_t : Type := {
  model : Model;
  scaler : Scaler;
  label_encoders : Encoders;
  predictions : list prediction;
  feature_importance : frame;
  summary : row
}.

(** Lines 20-47: the body of the [try]. *)
Definition load_all (dir : features_dir) : result model_data_t :=
  let* model := load "best_model.pkl" (best_model_pkl dir) in
  let* scaler := load "feature_scaler.pkl" (feature_scaler_pkl dir) in
  let* label_encoders := load "label_encoders.pkl" (label_encoders_pkl dir) in
  let* predictions_df := load "singapore_gp_2025_predictions.csv"
                           (singapore_gp_2025_predictions_csv dir) in
  let* feature_importance_df := load "feature_importance.csv"
                                  (feature_importance_csv dir) in
  let* summary_df := load "prediction_summary.csv" (prediction_summary_csv dir) in
  let* summary := iloc0 summary_df in
  Ok {| model := model;
        scaler := scaler;
        label_encoders := label_encoders;
        predictions := predictions_df;
        feature_importance := feature_importance_df;
        summary := summary |}.

(** Lines 18-50.  The printed message is not part of the result. *)
Definition load_model_and_data (dir : features_dir) : option model_data_t :=
  match load_all dir with
  | Ok data => Some data
  | Raise _ => None
  end.

Definition not_loaded : string :=
  "Model data not found. Please run the feature engineering notebook first.".

(** Lines 55-75. *)
Definition index (model_data : option model_data_t) : result response :=
  match model_data with
  | None => Ok (error_html not_loaded)
  | Some data =>
      let top_predictions := firstn 10 (predictions data) in
      let team_analysis := team_analysis_of (predictions data) in
      Ok (index_html top_predictions team_analysis (summary data))
  end.

(** Lines 77-86. *)
Definition api_predictions (model_data : option model_data_t) : result response :=
  match model_data with
  | None => Ok (json_error "Model data not found" 500)
  | Some data => Ok (json_predictions (predictions data) (summary data) 200)
  end.

(** Lines 88-94. *)
Definition api_feature_importance (model_data : option model_data_t)
  : result response :=
  match model_data with
  | None => Ok (json_error "Model data not found" 500)
  | Some data => Ok (json_feature_importance (feature_importance data) 200)
  end.

(** Lines 104-106: the rows whose Driver equals the uppercased code. *)
Definition find_driver (predictions : list prediction) (driver_code : string)
  : list prediction :=
  List.filter (fun p => String.eqb (Driver p) (upper driver_code)) predictions.

Definition driver_not_found (driver_code : string) : string :=
  "Driver " ++ driver_code ++ " not found in predictions.".

(** Lines 96-114. *)
Definition driver_detail (model_data : option model_data_t) (driver_code : string)
  : result response :=
  match model_data with
  | None => Ok (error_html not_loaded)
  | Some data =>
      let driver_data := find_driver (predictions data) driver_code in
      match driver_data with
      | [] => Ok (error_html (driver_not_found driver_code))
      | _ :: _ =>
          let* driver_info := iloc0 driver_data in
          Ok (driver_detail_html driver_info)
      end
  end.

(** Lines 116-119. *)
Definition about : result response := Ok about_html.

(** The URL map built by the [@app.route] decorators. *)
Inductive route : Type :=
| route_index
| route_api_predictions
| route_api_feature_importance
| route_driver (driver_code : string)
| route_about.

Definition dispatch (model_data : option model_data_t) (r : route) : result response :=
  match r with
  | route_index => index model_data
  | route_api_predictions => api_predictions model_data
  | route_api_feature_importance => api_feature_importance model_data
  | route_driver driver_code => driver_detail model_data driver_code
  | route_about => about
  end.

(** Line 53 runs once, when the module is imported; every request is then
    answered from that snapshot. *)
Definition serve (dir : features_dir) (r : route) : result response :=
  let model_data := load_model_and_data dir in
  dispatch model_data r.

End Dashboard.
End app.

(** ** [run_webapp.py]

    The launcher checks that the six artifacts exist, then starts the
    dashboard from the [webapp] directory.  Paths are relative to the
    directory the launcher is started in.  Decorative glyphs of the
    printed lines are left out. *)

Module run_webapp.

(** What a path names on disk. *)
Inductive entry : Type :=
| File
| Directory.

(** What the launcher does that can be observed. *)
Inductive action : Type :=
| Out (line : string)
| Chdir (path : string)
| System (command : string).

(** How a call ends: it returns, [sys.exit(code)] ends the process, or an
    exception escapes. *)
Inductive outcome (A : Type) : Type :=
| Done (a : A)
| Exit (code : Z)
| Failed (e : Py.exn).
Arguments Done {A} a.
Arguments Exit {A} code.
Arguments Failed {A} e.

(** A computation appends to the actions done so far. *)
Definition W (A : Type) : Type := list action -> outcome A * list action.

Definition wret {A : Type} (a : A) : W A := fun t => (Done a, t).

Definition wbind {A B : Type} (c : W A) (k : A -> W B) : W B :=
  fun t => match c t with
           | (Done a, t') => k a t'
           | (Exit code, t') => (Exit code, t')
           | (Failed e, t') => (Failed e, t')
           end.

Declare Scope launcher_scope.
Delimit Scope launcher_scope with launcher.
Notation "x <- c1 ;; c2" := (wbind c1 (fun x => c2))
  (at level 100, c1 at next level, right associativity) : launcher_scope.
Notation "c1 ;; c2" := (wbind c1 (fun _ => c2))
  (at level 100, right associativity) : launcher_scope.

Definition do (a : action) : W unit := fun t => (Done tt, t ++ [a])%list.

Definition print (line : string) : W unit := do (Out line).

(** [sys.exit(code)] *)
Definition sys_exit {A : Type} (code : Z) : W A := fun t => (Exit code, t).

Fixpoint for_each {A : Type} (xs : list A) (body : A -> W unit) : W unit :=
  match xs with
  | [] => wret tt
  | x :: rest => (body x ;; for_each rest body)%launcher
  end.

Definition required_files : list string :=
  ["data/features/best_model.pkl";
   "data/features/feature_scaler.pkl";
   "data/features/label_encoders.pkl";
   "data/features/singapore_gp_2025_predictions.csv";
   "data/features/feature_importance.csv";
   "data/features/prediction_summary.csv"].

Section Launcher.
(** The directory tree the launcher is started in. *)
Variable disk : string -> option entry.

(** [Path(path).exists()] *)
Definition path_exists (path : string) : bool :=
  match disk path with
  | Some _ => true
  | None => false
  end.

(** [os.chdir(path)] *)
Definition os_chdir (path : string) : W unit :=
  match disk path with
  | Some Directory => do (Chdir path)
  | Some File => fun t => (Failed (Py.OtherException ("Not a directory: " ++ path)), t)
  | None => fun t => (Failed (Py.OtherException ("No such file or directory: " ++ path)), t)
  end.

(** [os.system(command)]; the exit status it returns is not used. *)
Definition os_system (command : string) : W unit := do (System command).

(** Lines 24-27: the required files that are not there, in the order of
    the list. *)
Definition missing_files : list string :=
  List.filter (fun file_path => negb (path_exists file_path)) required_files.

(** Lines 13-37. *)
Definition check_requirements : W bool :=
  match missing_files with
  | _ :: _ =>
      (print "Missing required files:" ;;
       for_each missing_files (fun file_path => print ("   - " ++ file_path)) ;;
       print (newline ++ "Please run the feature engineering notebook first:") ;;
       print "   jupyter notebook src/feature_engineering.ipynb" ;;
       wret false)%launcher
  | [] => wret true
  end.

(** Lines 39-56. *)
Definition main : W unit :=
  (print "F1 Singapore GP Prediction Web Application" ;;
   print "==================================================" ;;
   ok <- check_requirements ;;
   (if ok : bool then wret tt else sys_exit 1) ;;
   print "All required files found!" ;;
   print (newline ++ "Starting web application...") ;;
   print "Open your browser and go to: http://localhost:5000" ;;
   print " Press Ctrl+C to stop the server" ;;
   print "--------------------------------------------------" ;;
   os_chdir "webapp" ;;
   os_system "python app.py")%launcher.

End Launcher.
End run_webapp.

(** ** Vocabulary of the statements

    [wpe c Q E s]: run from [s], the computation [c] either returns a value
    and a state that satisfy [Q], or raises an exception in a state that
    satisfies [E]. *)

Section Vocabulary.
Context {np : Numpy} {up : Upstream}.

Definition wpe {A : Type} (c : M A) (Q : A -> state -> Prop)
    (E : Py.exn -> state -> Prop) (s : state) : Prop :=
  match c s with
  | (Py.Ok a, s') => Q a s'
  | (Py.Raise e, s') => E e s'
  end.

(** No exception may escape. *)
Definition never (e : Py.exn) (s : state) : Prop := False.

(** The state [s] with the events [evs] appended to its trace. *)
Definition after (evs : list event) (s : state) : state :=
  {| trace := (trace s ++ evs)%list; files := files s; rng := rng s |}.

(** From [s] to [s'] events happened and nothing else: no file was
    written and the generator was not used. *)
Definition only_events (s s' : state) : Prop :=
  exists evs, s' = after evs s.

(** A status outside the range that [raise_for_status] rejects. *)
Definition status_ok (status : Z) : Prop :=
  (400 <=? status) && (status <? 600) = false.


(** The answer [o] carries no data: no response, an error status, or a
    body that is not JSON. *)
Definition failed (o : http_outcome) : Prop :=
  match o with
  | Response status (Some v) => ~ status_ok status
  | _ => True
  end.

(** The shape shared by the four collectors that loop over years. *)
Definition request_loop (self : ergast_data_collector.ErgastDataCollector)
    (years : list Z) (banner endpoint : Z -> string)
    (flatten : Z -> option Py.value -> Py.result (list Py.row)) : M (list Py.row) :=
  for_each years
    (fun acc year =>
       print (banner year) ;;
       data <- ergast_data_collector.make_request self (endpoint year) None ;;
       records <- lift (flatten year data) ;;
       ret (acc ++ records)%list)
    [].


(** The collector that the orchestrator builds, and the URL it requests
    for an endpoint. *)
Definition ergast_collector : ergast_data_collector.ErgastDataCollector := {|
  ergast_data_collector.base_url := "http://ergast.com/api/f1";
  ergast_data_collector.data_dir := "../data"
|}.



(** A seed that [np.random.seed] accepts. *)
Definition valid_seed (n : Z) : Prop := 0 <= n < 2 ^ 32.

(** The draws that follow [np.random.seed(year)], in the order of lines
    103-122, and the generator they leave behind. *)
Record draws : Type := {
  temp_min : float;
  temp_max : float;
  humidity_drawn : float;
  precipitation : float;
  wind_speed_drawn : float;
  wind_direction : float;
  pressure : float;
  generator_after : generator
}.

Definition draws_of (year : Z) : draws :=
  let (temp_min, g1) := normal 26 2 (seeded year) in
  let (temp_max, g2) := normal 31 2 g1 in
  let (humidity, g3) := normal 80 10 g2 in
  let (precipitation, g4) := exponential 5 g3 in
  let (wind_speed, g5) := exponential 8 g4 in
  let (wind_direction, g6) := uniform 0 360 g5 in
  let (pressure, g7) := normal 1013 10 g6 in
  {| temp_min := temp_min; temp_max := temp_max; humidity_drawn := humidity;
     precipitation := precipitation; wind_speed_drawn := wind_speed;
     wind_direction := wind_direction; pressure := pressure;
     generator_after := g7 |}.

(** The humidity after the clamp of line 109. *)
Definition humidity_of (year : Z) : float :=
  Py.max 60 (Py.min 95 (humidity_drawn (draws_of year))).

(** The precipitation of line 112. *)
Definition precipitation_of (year : Z) : float := precipitation (draws_of year).

(** The record of lines 134-148 for the draws of [year]. *)
Definition synthetic_of (year : Z) : weather_record :=
  let d := draws_of year in
  {| Year := year;
     Race := "Singapore";
     Date := Py.str year ++ "-09-22";
     Temperature_Min_C := Py.round (temp_min d) 1;
     Temperature_Max_C := Py.round (temp_max d) 1;
     Temperature_Avg_C := Py.round ((temp_min d + temp_max d) / 2)%float 1;
     Humidity_Percent := Py.round (humidity_of year) 1;
     Precipitation_mm := Py.round (precipitation_of year) 1;
     Wind_Speed_kmh := Py.round (Py.min 25 (wind_speed_drawn d)) 1;
     Wind_Direction_deg := Py.round (wind_direction d) 0;
     Pressure_hPa := Py.round (pressure d) 1;
     Weather_Condition :=
       weather_data_collector.condition_of (precipitation_of year) (humidity_of year);
     Data_Source := "Synthetic" |}.

(** A row that came from FastF1. *)
Definition from_fastf1 (r : weather_row) : Prop :=
  match r with
  | FromFastF1 _ => True
  | FromSynthetic _ => False
  end.

(** The first row of a table that carries the year [y]. *)
Definition first_of_year (y : Z) (rows : list weather_row) : option weather_row :=
  List.find (fun r => col_Year r =? y) rows.

(** The rows of a weather table that carry the year [y]. *)
Definition rows_of_year (y : Z) (rows : list weather_row) : list weather_row :=
  List.filter (fun r => col_Year r =? y) rows.

(** The line that [make_request] prints when it catches an exception. *)
Definition request_failed (url detail : string) : event :=
  Print ("Error making request to " +:+ url +:+ ": " +:+ detail).


(** The first line that [create_synthetic_weather_data] prints. *)
Definition synthetic_banner : event :=
  Print "Creating synthetic weather data based on Singapore climate patterns...".

(** A frame of the observed part: not empty, and all its rows from FastF1. *)
Definition observed_frame (frame : list weather_row) : Prop :=
  frame <> [] /\ Forall from_fastf1 frame.

(** The synthetic batch appended by [fill_gaps]. *)
Definition synthetic_batch (years : list Z) : list weather_row :=
  map FromSynthetic (map synthetic_of years).

(** What [combine_and_save] returns and writes for the frames [all]. *)
Definition combined (all : list (list weather_row)) : option (list weather_row) :=
  match all with
  | [] => None
  | _ :: _ => Some (weather_data_collector.drop_duplicates (concat all))
  end.

Definition saved (self : weather_data_collector.WeatherDataCollector)
    (all : list (list weather_row)) (before : gmap string table)
  : gmap string table :=
  match combined all with
  | None => before
  | Some rows => <[weather_data_collector.weather_csv self := WeatherRows rows]> before
  end.

(** The first line that [collect_weather_data] prints. *)
Definition weather_intro (years : list Z) : event :=
  Print ("Collecting weather data for Singapore GP years: " +:+ repr_list years).

(** The frames that a run concatenates: those of the FastF1 phase, and
    the synthetic batch when synthesis is triggered. *)
Definition candidates (years : list Z) (use_synthetic : bool)
    (frames : list (list weather_row)) : list (list weather_row) :=
  if use_synthetic && weather_data_collector.below_half_coverage frames years
  then (frames ++ [synthetic_batch years])%list
  else frames.

(** The endpoints requested per year. *)
Definition results_endpoint (year : Z) : string :=
  Py.str year +:+ "/Singapore/results".
Definition driver_standings_endpoint (year : Z) : string :=
  Py.str year +:+ "/driverStandings".
Definition constructor_standings_endpoint (year : Z) : string :=
  Py.str year +:+ "/constructorStandings".

(** The weather collector that the orchestrator builds. *)
Definition weather_collector : weather_data_collector.WeatherDataCollector := {|
  weather_data_collector.data_dir := "../data";
  weather_data_collector.singapore_lat := 1.3521;
  weather_data_collector.singapore_lon := 103.8198;
  weather_data_collector.weather_api_key := None
|}.



End Vocabulary.

(** A startup artifact that cannot be loaded: absent, or not
    deserializable. *)
Definition unloadable {A : Type} (a : app.artifact A) : Prop :=
  match a with
  | app.Stored _ => False
  | _ => True
  end.

(** ** Vocabulary of the further properties *)

(** The column names of a record, in the order of its keys. *)
Definition columns (r : Py.row) : list string := map fst r.

(** The header of each table the Ergast collectors write. *)
Definition singapore_columns : list string :=
  ["Year"; "Race"; "Date"; "Round"; "RaceName"; "Position"; "PositionText";
   "Points"; "DriverNumber"; "DriverCode"; "DriverGivenName"; "DriverFamilyName";
   "ConstructorName"; "ConstructorId"; "Grid"; "Laps"; "Status"; "Time";
   "FastestLapRank"; "FastestLapTime"; "FastestLapAvgSpeed"].

Definition driver_standings_columns : list string :=
  ["Year"; "Position"; "Points"; "Wins"; "DriverCode"; "DriverGivenName";
   "DriverFamilyName"; "ConstructorName"; "ConstructorId"].

Definition constructor_standings_columns : list string :=
  ["Year"; "Position"; "Points"; "Wins"; "ConstructorName"; "ConstructorId"].

Definition circuit_columns : list string :=
  ["CircuitId"; "CircuitName"; "Country"; "Latitude"; "Longitude"; "Locality"].

Definition schedule_columns : list string :=
  ["Year"; "Round"; "RaceName"; "CircuitName"; "CircuitId"; "Date"; "Time";
   "Country"; "Locality"].

(** When the flattening [r] returns, every record of it has exactly the
    columns [cols], in this order. *)
Definition records_with_columns (cols : list string) (r : Py.result (list Py.row))
  : Prop :=
  match r with
  | Py.Ok rows => Forall (fun record => columns record = cols) rows
  | Py.Raise _ => True
  end.

(** The keys of a race result that the flattening code treats as
    optional. *)
Definition optional_keys : list string :=
  ["permanentNumber"; "Time"; "FastestLap"; "AverageSpeed"].

(** The cell of a record under a column. *)
Definition cell (column : string) (record : Py.row) : option Py.value :=
  Py.lookup_key column record.

(** [d.update] keeps the columns in place and appends the new ones. *)
Definition add_column (cols : list string) (k : string) : list string :=
  if existsb (String.eqb k) cols then cols else (cols ++ [k])%list.

(** The URLs requested, the seasons loaded from FastF1 and the files
    written, in the order of a list of events. *)
Definition requested (evs : list event) : list string :=
  flat_map (fun ev => match ev with Get url _ => [url] | _ => [] end) evs.

Definition sessions_loaded (evs : list event) : list Z :=
  flat_map (fun ev => match ev with LoadSession year => [year] | _ => [] end) evs.

Definition written (evs : list event) : list string :=
  flat_map (fun ev => match ev with ToCsv path => [path] | _ => [] end) evs.

(** The events of an exchange with the Ergast service: a request, the
    delay after it, a printed line. *)
Definition chatter (ev : event) : Prop :=
  match ev with
  | Print _ | Get _ _ | Sleep _ => True
  | _ => False
  end.

(** The events of an exchange with FastF1: a session load, a printed
    line. *)
Definition fastf1_chatter (ev : event) : Prop :=
  match ev with
  | Print _ | LoadSession _ => True
  | _ => False
  end.

(** How a collector ends that writes its table to [path] when it has
    one: with the write and two lines, or with one line. *)
Definition ending (path saved total nothing : string) (r : option Py.frame)
  : list event :=
  match r with
  | Some records =>
      [ToCsv path; Print (saved +:+ path); Print (total +:+ Py.str (len records))]
  | None => [Print nothing]
  end.

Section Traces.
Context {np : Numpy} {up : Upstream}.

(** From [s] to [s'] the events [evs] happened, and the output directory
    changed accordingly: a file that no event of [evs] wrote is as it was
    (or still absent), and a file that one wrote is there. *)
Definition extends (s : state) (evs : list event) (s' : state) : Prop :=
  trace s' = (trace s ++ evs)%list /\
  (forall path, ~ In path (written evs) -> files s' !! path = files s !! path) /\
  (forall path, In path (written evs) -> is_Some (files s' !! path)).

(** [yields c s Q E]: run from [s], the computation [c] returns a value
    or raises an exception after some events [evs], with the directory
    changed accordingly; the value, the events and the final state satisfy
    [Q], or the exception, the events and the final state satisfy [E]. *)
Definition yields {A : Type} (c : M A) (s : state)
    (Q : A -> list event -> state -> Prop)
    (E : Py.exn -> list event -> state -> Prop) : Prop :=
  match c s with
  | (Py.Ok a, s') => exists evs, extends s evs s' /\ Q a evs s'
  | (Py.Raise e, s') => exists evs, extends s evs s' /\ E e evs s'
  end.

(** No exception may escape. *)
Definition no_exception (e : Py.exn) (evs : list event) (s : state) : Prop := False.

(** The URLs that a collector requests for the years [years]. *)
Definition urls (self : ergast_data_collector.ErgastDataCollector)
    (endpoint : Z -> string) (years : list Z) : list string :=
  map (fun year => ergast_data_collector.url_of self (endpoint year)) years.

(** The directory after a collector that writes [path] returned [r]. *)
Definition directory_after (path : string) (r : option Py.frame)
    (before : gmap string table) : gmap string table :=
  match r with
  | Some records => <[path := Rows records]> before
  | None => before
  end.

(** A run of a collector [c] that loops over [years].  When it returns:
    it printed [intro], then exchanged with the service, requesting the
    URL of each year once, in order, then ended, writing its table if it
    has one, which then holds a record.  When it raises: it requested the
    URLs of some first years and wrote nothing. *)
Definition looping_run (self : ergast_data_collector.ErgastDataCollector)
    (years : list Z) (endpoint : Z -> string)
    (intro file saved total nothing : string)
    (c : M (option Py.frame)) (s : state) : Prop :=
  let path := ergast_data_collector.data_dir self +:+ "/" +:+ file in
  yields c s
    (fun r evs s' =>
       exists loop,
         evs = (Print intro :: loop ++ ending path saved total nothing r)%list /\
         Forall chatter loop /\
         requested loop = urls self endpoint years /\
         r <> Some [] /\
         files s' = directory_after path r (files s))
    (fun _ evs s' =>
       exists loop done,
         evs = Print intro :: loop /\
         Forall chatter loop /\
         requested loop = urls self endpoint done /\
         done `prefix_of` years /\
         files s' = files s).

End Traces.

(** The files of the Ergast collectors, in the order they are written,
    and the tables that [collect_all_data] returns, in the same order. *)
Definition ergast_files : list string :=
  ["singapore_gp_results_ergast_2008_2024.csv";
   "driver_standings_2015_2024.csv";
   "constructor_standings_2015_2024.csv";
   "circuits_info.csv";
   "season_schedules_2015_2024.csv"].

Definition ergast_outputs (self : ergast_data_collector.ErgastDataCollector)
  : list string :=
  map (fun file => ergast_data_collector.data_dir self +:+ "/" +:+ file) ergast_files.

Definition tables (data : ergast_data_collector.collected) : list (option Py.frame) :=
  [ergast_data_collector.singapore_results data;
   ergast_data_collector.driver_standings data;
   ergast_data_collector.constructor_standings data;
   ergast_data_collector.circuit_info data;
   ergast_data_collector.season_schedules data].

(** The paths whose table is there. *)
Fixpoint present (paths : list string) (tables : list (option Py.frame))
  : list string :=
  match paths, tables with
  | path :: paths, Some _ :: tables => path :: present paths tables
  | _ :: paths, None :: tables => present paths tables
  | _, _ => []
  end.

(** The file [path] holds the table [r], or, for a null [r], is as it
    was. *)
Definition reflects (before after : gmap string table) (path : string)
    (r : option Py.frame) : Prop :=
  after !! path = match r with
                  | Some records => Some (Rows records)
                  | None => before !! path
                  end.

(** The URLs that a complete run of the five Ergast collectors requests,
    in order. *)
Definition request_plan (self : ergast_data_collector.ErgastDataCollector)
  : list string :=
  (map (fun year => ergast_data_collector.url_of self (results_endpoint year))
     (range 2008 2025) ++
   map (fun year => ergast_data_collector.url_of self (driver_standings_endpoint year))
     (range 2015 2025) ++
   map (fun year => ergast_data_collector.url_of self
                      (constructor_standings_endpoint year))
     (range 2015 2025) ++
   [ergast_data_collector.url_of self "circuits"] ++
   map (fun year => ergast_data_collector.url_of self (Py.str year))
     (range 2015 2025))%list.

(** The rows that [get_weather_from_fastf1] makes of the weather samples
    of a session (lines 73-75). *)
Definition tagged (year : Z) (sess : session) (samples : list weather_sample)
  : list observed_row :=
  map (fun smp => {| sample := smp; obs_Year := year; obs_Race := "Singapore";
                     obs_Date := date sess |}) samples.

(** A frame of the FastF1 phase for the year [year]: not empty, all its
    rows from FastF1 and of that year. *)
Definition frame_of_year (year : Z) (frame : list weather_row) : Prop :=
  frame <> [] /\ Forall (fun r => from_fastf1 r /\ col_Year r = year) frame.

Definition is_print (ev : event) : Prop :=
  match ev with
  | Print _ => True
  | _ => False
  end.

(** A frame that [collect_singapore_fastf1] keeps: the selected columns
    of the results of the session of one of the [years]. *)
Definition results_frame_of (years : list Z) (frame : Py.frame) : Prop :=
  exists year session_date results,
    In year years /\
    frame = map (run_data_collection.results_subset_of year session_date) results.

(** The [*.csv] files directly in [dir], as [validate_and_summarize]
    lists them, the number of records of a table, and the total over a
    list of files. *)
Definition csv_files (dir : string) (fs : gmap string table) : list (string * table) :=
  omap (fun entry => match run_data_collection.csv_name_in dir (fst entry) with
                     | Some name => Some (name, snd entry)
                     | None => None
                     end)
       (map_to_list fs).

Definition rows_of (t : table) : Z :=
  match t with
  | Rows f => len f
  | WeatherRows rows => len rows
  end.

Definition total_rows (data_files : list (string * table)) : Z :=
  fold_right (fun file total => rows_of (snd file) + total) 0 data_files.

(** The line of the checklist for a key file. *)
Definition key_file_status (dir : string) (fs : gmap string table) (key_file : string)
  : event :=
  Print (match fs !! (dir +:+ "/" +:+ key_file) with
         | Some _ => "  " +:+ key_file
         | None => "  " +:+ key_file +:+ " (missing)"
         end).

(** The files that the orchestrator can write, in the order it writes
    them. *)
Definition pipeline_outputs : list string :=
  (ergast_outputs ergast_collector ++
   [weather_data_collector.weather_csv weather_collector;
    "../data/singapore_gp_results_fastf1_2008_2024.csv"])%list.

(** What the launcher prints: its heading, its complaint about missing
    files, and the lines that announce the server. *)
Definition launcher_banner : list run_webapp.action :=
  [run_webapp.Out "F1 Singapore GP Prediction Web Application";
   run_webapp.Out "=================================================="].

Definition launcher_complaint (missing : list string) : list run_webapp.action :=
  run_webapp.Out "Missing required files:"
  :: map (fun file_path => run_webapp.Out ("   - " +:+ file_path)) missing
  ++ [run_webapp.Out (newline +:+ "Please run the feature engineering notebook first:");
      run_webapp.Out "   jupyter notebook src/feature_engineering.ipynb"].

Definition launcher_announcement : list run_webapp.action :=
  [run_webapp.Out "All required files found!";
   run_webapp.Out (newline +:+ "Starting web application...");
   run_webapp.Out "Open your browser and go to: http://localhost:5000";
   run_webapp.Out " Press Ctrl+C to stop the server";
   run_webapp.Out "--------------------------------------------------"].

(** A result of a driver who retired, from a season before permanent
    numbers: no [Time], no [FastestLap], no [permanentNumber]. *)
Definition retired_result : Py.value :=
  Py.VDict [("position", Py.VStr "20"); ("positionText", Py.VStr "R");
            ("points", Py.VStr "0");
            ("Driver", Py.VDict [("driverId", Py.VStr "sutil"); ("code", Py.VStr "SUT");
                                 ("givenName", Py.VStr "Adrian");
                                 ("familyName", Py.VStr "Sutil")]);
            ("Constructor", Py.VDict [("constructorId", Py.VStr "force_india");
                                      ("name", Py.VStr "Force India")]);
            ("Grid", Py.VStr "19"); ("Laps", Py.VStr "13");
            ("Status", Py.VStr "Accident")].

(** A standing of a driver who is listed without a constructor. *)
Definition unattached_standing : Py.value :=
  Py.VDict [("position", Py.VStr "22"); ("points", Py.VStr "0"); ("wins", Py.VStr "0");
            ("Driver", Py.VDict [("driverId", Py.VStr "sutil"); ("code", Py.VStr "SUT");
                                 ("givenName", Py.VStr "Adrian");
                                 ("familyName", Py.VStr "Sutil")]);
            ("Constructors", Py.VList [])].

(** ** Concrete upstreams and a concrete generator, for runs that can be
    evaluated *)

Module Fixtures.
Import Py.

(** A generator whose state counts the draws since seeding.  A normal
    draw returns its mean and a uniform draw its lower bound; an
    exponential draw returns its scale, except the fourth draw after
    seeding (the precipitation), which returns twice its scale plus 1/32:
    10.03125 mm for the scale 5 of line 112. *)
Definition counting_numpy : Numpy := {|
  generator := Z;
  seeded := fun n => 0;
  normal := fun loc scale g => (loc, g + 1);
  exponential := fun scale g => (if g =? 3 then (scale + scale + 0.03125)%float
                                 else scale, g + 1);
  uniform := fun low high g => (low, g + 1)
|}.

Definition fresh_state : state (np := counting_numpy) :=
  @Build_state counting_numpy [] ∅ 0.

(** Every HTTP request is answered with status 503, FastF1 is down. *)
Definition unavailable : Upstream := {|
  http_get := fun _ _ _ => Response 503 None;
  fastf1_session := fun _ _ => SessionError "no network"
|}.

(** Every HTTP request is answered with a circuit table without circuits. *)
Definition no_circuits_body : value :=
  VDict [("MRData", VDict [("CircuitTable", VDict [("Circuits", VList [])])])].

Definition no_circuits : Upstream := {|
  http_get := fun _ _ _ => Response 200 (Some no_circuits_body);
  fastf1_session := fun _ _ => SessionError "no network"
|}.


(** A body that every collector can flatten: one race with one result,
    one standings list, one circuit. *)
Definition location : value :=
  VDict [("lat", VStr "1.2914"); ("long", VStr "103.864");
         ("locality", VStr "Marina Bay"); ("country", VStr "Singapore")].

Definition circuit : value :=
  VDict [("circuitId", VStr "marina_bay");
         ("circuitName", VStr "Marina Bay Street Circuit");
         ("Location", location)].

Definition driver : value :=
  VDict [("driverId", VStr "norris"); ("permanentNumber", VStr "4");
         ("code", VStr "NOR"); ("givenName", VStr "Lando");
         ("familyName", VStr "Norris")].

Definition constructor : value :=
  VDict [("constructorId", VStr "mclaren"); ("name", VStr "McLaren")].

Definition race_result : value :=
  VDict [("position", VStr "1"); ("positionText", VStr "1"); ("points", VStr "25");
         ("Driver", driver); ("Constructor", constructor);
         ("Grid", VStr "1"); ("Laps", VStr "62"); ("Status", VStr "Finished");
         ("Time", VDict [("time", VStr "1:40:52.571")]);
         ("FastestLap", VDict [("rank", VStr "2");
                               ("Time", VDict [("time", VStr "1:34.925")])])].

Definition race : value :=
  VDict [("season", VStr "2024"); ("round", VStr "18");
         ("raceName", VStr "Singapore Grand Prix"); ("Circuit", circuit);
         ("date", VStr "2024-09-22"); ("Results", VList [race_result])].

Definition standings_list : value :=
  VDict [("season", VStr "2024");
         ("DriverStandings",
          VList [VDict [("position", VStr "1"); ("points", VStr "437");
                        ("wins", VStr "9"); ("Driver", driver);
                        ("Constructors", VList [constructor])]]);
         ("ConstructorStandings",
          VList [VDict [("position", VStr "1"); ("points", VStr "666");
                        ("wins", VStr "6"); ("Constructor", constructor)]])].


Definition a_sample : weather_sample := {|
  Time := 60; AirTemp := 29.5; Humidity := 74; Pressure := 1009.5;
  Rainfall := false; TrackTemp := 33; WindDirection := 120; WindSpeed := 1.5
|}.

(** FastF1 has weather for 2020 only; every HTTP request times out. *)
Definition only_2020 : Upstream := {|
  http_get := fun _ _ _ => NoResponse "timed out";
  fastf1_session := fun _ year =>
    if year =? 2020
    then SessionLoaded {| date := "2020-09-20";
                          weather_data := Some [a_sample; a_sample];
                          results := None |}
    else SessionError "no data"
|}.

(** A predictions table with one well-formed driver code and one stored
    in mixed case. *)
Definition verstappen : app.prediction := {|
  app.Driver := "VER"; app.Team := "Red Bull Racing";
  app.Win_Probability := 0.25; app.other_columns := []
|}.



(** A features directory from which the scaler is missing. *)
Definition no_scaler : app.features_dir (Model := unit) (Scaler := unit)
                         (Encoders := unit) := {|
  app.best_model_pkl := app.Stored tt;
  app.feature_scaler_pkl := app.Absent;
  app.label_encoders_pkl := app.Stored tt;
  app.singapore_gp_2025_predictions_csv := app.Stored [verstappen];
  app.feature_importance_csv := app.Stored [];
  app.prediction_summary_csv := app.Stored [[]]
|}.


End Fixtures.

(** * Properties *)

Local Open Scope list_scope.

(** ** The Python primitives on known values *)

Example round_half_to_even : Py.round 0.25 1 = 0.2%float /\ Py.round 2.5 0 = 2%float.
Proof. split; vm_compute; reflexivity. Qed.

Example round_uses_the_binary_value :
  Py.round 2.675 2 = 2.67%float /\ Py.round 0.45 1 = 0.5%float.
Proof. split; vm_compute; reflexivity. Qed.

Example round_keeps_the_sign_of_zero : Py.round (-0.04) 1 = (-0)%float.
Proof. vm_compute. reflexivity. Qed.

Example int_accepts_blanks_and_underscores : Py.int (Py.VStr " 2_015 ") = Py.Ok 2015.
Proof. vm_compute. reflexivity. Qed.

Example int_rejects_text : Py.int (Py.VStr "20x") = Py.Raise Py.ValueError.
Proof. vm_compute. reflexivity. Qed.

Example int_truncates : Py.int (Py.VFloat (-7.75)) = Py.Ok (-7).
Proof. vm_compute. reflexivity. Qed.

Example subscript_of_a_list_raises :
  Py.getitem (Py.VList [Py.VStr "MRData"]) "MRData" = Py.Raise Py.TypeError /\
  Py.contains "MRData" (Py.VList [Py.VStr "MRData"]) = Py.Ok true.
Proof. split; reflexivity. Qed.

Example range_and_repr : repr_list (range 2015 2018) = "[2015, 2016, 2017]"%string.
Proof. vm_compute. reflexivity. Qed.

Example rule_of_fifty_equals :
  String.length "==================================================" = 50%nat.
Proof. reflexivity. Qed.

Example upper_of_a_code : app.upper "ver" = "VER"%string /\ app.upper "p1-b" = "P1-B"%string.
Proof. split; reflexivity. Qed.

Section Laws.
Context {np : Numpy} {up : Upstream}.

Lemma wpe_ret {A : Type} (a : A) Q E s : wpe (ret a) Q E s <-> Q a s.
Proof. reflexivity. Qed.

Lemma wpe_bind {A B : Type} (c : M A) (k : A -> M B) Q E s :
  wpe (bind c k) Q E s <-> wpe c (fun a s' => wpe (k a) Q E s') E s.
Proof.
  unfold wpe, bind. destruct (c s) as [[a | e] s']; reflexivity.
Qed.

Lemma wpe_lift {A : Type} (r : Py.result A) Q E s :
  wpe (lift r) Q E s <-> match r with Py.Ok a => Q a s | Py.Raise e => E e s end.
Proof. unfold wpe, lift. destruct r; reflexivity. Qed.


Lemma wpe_try_except {A : Type} (body : M A) catches handler Q E s :
  wpe (try_except body catches handler) Q E s <->
  wpe body Q (fun e s' => if catches e then wpe (handler e) Q E s' else E e s') s.
Proof.
  unfold wpe, try_except. destruct (body s) as [[a | e] s']; [reflexivity |].
  destruct (catches e); reflexivity.
Qed.

Lemma wpe_mono {A : Type} (c : M A) (Q Q' : A -> state -> Prop)
    (E E' : Py.exn -> state -> Prop) s :
  wpe c Q E s ->
  (forall a s', Q a s' -> Q' a s') ->
  (forall e s', E e s' -> E' e s') ->
  wpe c Q' E' s.
Proof.
  unfold wpe. destruct (c s) as [[a | e] s']; auto.
Qed.

Lemma wpe_emit (ev : event) Q E s : wpe (emit ev) Q E s <-> Q tt (after [ev] s).
Proof. reflexivity. Qed.

Lemma wpe_print (line : string) Q E s :
  wpe (print line) Q E s <-> Q tt (after [Print line] s).
Proof. reflexivity. Qed.

(** The loop rule: an invariant of the accumulator and the state that
    every iteration re-establishes holds when the loop ends. *)
Lemma wpe_for_each {A B : Type} (xs : list A) (body : B -> A -> M B)
    (I : B -> state -> Prop) E :
  (forall acc x s, In x xs -> I acc s -> wpe (body acc x) I E s) ->
  forall acc s, I acc s -> wpe (for_each xs body acc) I E s.
Proof.
  induction xs as [| x rest IH]; intros Hbody acc s HI; simpl.
  - apply wpe_ret. exact HI.
  - apply wpe_bind.
    eapply wpe_mono; [apply Hbody; [left; reflexivity | exact HI] | | auto].
    intros acc' s' HI'. apply IH; [| exact HI'].
    intros acc0 x0 s0 Hin. apply Hbody. right. exact Hin.
Qed.

(** What a run that satisfies [wpe] with no exception allowed looks like. *)
Lemma wpe_never_returns {A : Type} (c : M A) Q s :
  wpe c Q never s -> exists a s', c s = (Py.Ok a, s') /\ Q a s'.
Proof.
  unfold wpe. destruct (c s) as [[a | e] s']; [eauto | intros []].
Qed.

Lemma after_after evs1 evs2 (s : state) :
  after evs2 (after evs1 s) = after (evs1 ++ evs2) s.
Proof. unfold after. simpl. rewrite <- app_assoc. reflexivity. Qed.

Lemma only_events_refl (s : state) : only_events s s.
Proof.
  exists []. destruct s. unfold after. simpl. rewrite app_nil_r. reflexivity.
Qed.

Lemma only_events_after evs (s s' : state) :
  only_events s s' -> only_events s (after evs s').
Proof. intros [evs0 ->]. exists (evs0 ++ evs). apply after_after. Qed.

Lemma only_events_trans (s1 s2 s3 : state) :
  only_events s1 s2 -> only_events s2 s3 -> only_events s1 s3.
Proof. intros H [evs ->]. apply only_events_after. exact H. Qed.

Lemma only_events_files (s s' : state) : only_events s s' -> files s' = files s.
Proof. intros [evs ->]. reflexivity. Qed.


End Laws.

(** ** The Ergast source client *)

Section SourceClient.
Context {np : Numpy} {up : Upstream}.
Import ergast_data_collector.

(** Every run of [make_request], in full. *)
Lemma make_request_run self endpoint params s :
  let url := url_of self endpoint in
  make_request self endpoint params s =
  match http_get (trace s) url params with
  | NoResponse detail =>
      (Py.Ok None, after [Get url params; request_failed url detail] s)
  | Response status body =>
      if (400 <=? status) && (status <? 600)
      then (Py.Ok None,
            after [Get url params; request_failed url ("HTTP " +:+ Py.str status)] s)
      else match body with
           | Some v => (Py.Ok (Some v), after [Get url params; Sleep 0.5] s)
           | None => (Py.Ok None,
                      after [Get url params; Sleep 0.5;
                             request_failed url "Expecting value"] s)
           end
  end.
Proof.
  intros url. unfold make_request, try_except, bind, requests_get. fold url.
  destruct (http_get (trace s) url params) as [detail | status body]; simpl.
  - unfold print, emit, after. simpl. rewrite <- app_assoc. reflexivity.
  - unfold raise_for_status. simpl.
    destruct ((400 <=? status) && (status <? 600)); simpl.
    + unfold print, emit, after. simpl. rewrite <- app_assoc. reflexivity.
    + destruct body as [v |]; simpl.
      * unfold after. simpl. rewrite <- app_assoc. reflexivity.
      * unfold print, emit, after. simpl. rewrite <- !app_assoc. reflexivity.
Qed.

(** [make_request] never raises, issues exactly one request, and leaves
    the output directory and the generator alone. *)
Lemma make_request_returns self endpoint params s :
  exists data rest,
    make_request self endpoint params s
    = (Py.Ok data, after (Get (url_of self endpoint) params :: rest) s)
    /\ Forall (fun ev => match ev with Get _ _ => False | _ => True end) rest.
Proof.
  rewrite make_request_run.
  destruct (http_get _ _ _) as [detail | status body].
  - eexists _, _. split; [reflexivity |]. repeat constructor.
  - destruct ((400 <=? status) && (status <? 600)).
    + eexists _, _. split; [reflexivity |]. repeat constructor.
    + destruct body; eexists _, _; (split; [reflexivity |]); repeat constructor.
Qed.

(** On a response that is not an error, the client sleeps after the
    request and returns the parsed body. *)
Lemma make_request_success self endpoint params s status v :
  http_get (trace s) (url_of self endpoint) params = Response status (Some v) ->
  (400 <=? status) && (status <? 600) = false ->
  make_request self endpoint params s
  = (Py.Ok (Some v), after [Get (url_of self endpoint) params; Sleep 0.5] s).
Proof.
  intros Hget Hstatus. rewrite make_request_run. simpl.
  rewrite Hget, Hstatus. reflexivity.
Qed.

End SourceClient.

(** C6 (the code departs from the claim).  A request that meets an HTTP
    error status or gets no response is answered with a null result and
    one logged line, and is not retried, but the client does not wait
    afterward: line 31 or line 32 raises before the sleep of line 35 is
    reached.  Endpoint [circuits], answered with status 503 and then left
    without an answer: each run consists of the request and the message,
    with no delay. *)
Theorem make_request_error_skips_delay :
  let rejected := ergast_data_collector.make_request (up := Fixtures.unavailable)
                    ergast_collector "circuits" None Fixtures.fresh_state in
  let timed_out := ergast_data_collector.make_request (up := Fixtures.only_2020)
                     ergast_collector "circuits" None Fixtures.fresh_state in
  fst rejected = Py.Ok None /\
  trace (snd rejected)
  = [Get "http://ergast.com/api/f1/circuits.json" None;
     Print "Error making request to http://ergast.com/api/f1/circuits.json: HTTP 503"] /\
  fst timed_out = Py.Ok None /\
  trace (snd timed_out)
  = [Get "http://ergast.com/api/f1/circuits.json" None;
     Print "Error making request to http://ergast.com/api/f1/circuits.json: timed out"].
Proof. vm_compute. repeat split. Qed.

(** ** The Ergast collectors *)

Section ErgastCollectors.
Context {np : Numpy} {up : Upstream}.
Import ergast_data_collector.

Lemma wpe_make_request self endpoint params
    (Q : option Py.value -> state -> Prop) E s :
  (forall data evs,
      (forall v, data = Some v ->
                 exists status,
                   http_get (trace s) (url_of self endpoint) params
                   = Response status (Some v) /\ status_ok status) ->
      Q data (after evs s)) ->
  wpe (make_request self endpoint params) Q E s.
Proof.
  intros HQ. unfold wpe. rewrite make_request_run. simpl.
  destruct (http_get (trace s) (url_of self endpoint) params)
    as [detail | status body] eqn:Hget.
  - apply HQ. intros v Hv. discriminate.
  - destruct ((400 <=? status) && (status <? 600)) eqn:Hstatus.
    + apply HQ. intros v Hv. discriminate.
    + destruct body as [v |].
      * apply HQ. intros v' Hv'. injection Hv' as <-. exists status. split; auto.
      * apply HQ. intros v Hv. discriminate.
Qed.


(** When every request fails, nothing is accumulated. *)
Lemma request_loop_all_failed self years banner endpoint flatten s :
  (forall year, flatten year None = Py.Ok []) ->
  (forall t url params, failed (http_get t url params)) ->
  wpe (request_loop self years banner endpoint flatten)
    (fun acc s' => acc = [] /\ only_events s s')
    never s.
Proof.
  intros Hnone Hfail. unfold request_loop.
  apply wpe_for_each with (I := fun acc s' => acc = [] /\ only_events s s');
    [| split; [reflexivity | apply only_events_refl]].
  intros acc year s1 Hin [-> Hs1].
  apply wpe_bind, wpe_print, wpe_bind, wpe_make_request.
  intros data evs Hdata. apply wpe_bind, wpe_lift.
  destruct data as [v |].
  - destruct (Hdata v eq_refl) as [status [Hget Hok]].
    specialize (Hfail (trace (after [Print (banner year)] s1))
                  (url_of self (endpoint year)) None).
    rewrite Hget in Hfail. simpl in Hfail. contradiction.
  - rewrite Hnone. apply wpe_ret. split; [reflexivity |].
    do 2 apply only_events_after. exact Hs1.
Qed.

(** [save_if_any] writes exactly when there is a record. *)
Lemma wpe_save_if_any self records file saved total nothing
    (Q : option Py.frame -> state -> Prop) E s :
  (records = [] -> Q None (after [Print nothing] s)) ->
  (records <> [] ->
   forall s', files s' = <[(data_dir self +:+ "/" +:+ file) := Rows records]> (files s) ->
              rng s' = rng s ->
              Q (Some records) s') ->
  wpe (save_if_any self records file saved total nothing) Q E s.
Proof.
  intros Hnil Hcons. unfold save_if_any. destruct records as [| r rest].
  - apply wpe_bind, wpe_print, wpe_ret. auto.
  - unfold wpe. simpl. apply Hcons; [discriminate | reflexivity | reflexivity].
Qed.


(** When every request fails, such a collector reports that nothing was
    collected, returns a null result and writes nothing. *)
Lemma looping_collector_all_failed self years banner endpoint flatten
    intro file saved total nothing s :
  (forall year, flatten year None = Py.Ok []) ->
  (forall t url params, failed (http_get t url params)) ->
  exists evs,
    (print intro ;;
     all <- request_loop self years banner endpoint flatten ;;
     save_if_any self all file saved total nothing) s
    = (Py.Ok None, after (evs ++ [Print nothing]) s).
Proof.
  intros Hnone Hfail.
  assert (H : wpe (print intro ;;
                   all <- request_loop self years banner endpoint flatten ;;
                   save_if_any self all file saved total nothing)
                (fun r s' => r = None /\
                             exists evs, s' = after (evs ++ [Print nothing]) s)
                never s).
  { apply wpe_bind, wpe_print, wpe_bind.
    eapply wpe_mono;
      [apply request_loop_all_failed; assumption | | intros e s' []].
    intros all s' [-> [evs ->]]. apply wpe_save_if_any; [| congruence].
    intros _. split; [reflexivity |]. exists ([Print intro] ++ evs).
    rewrite !after_after. reflexivity. }
  apply wpe_never_returns in H. destruct H as [r [s' [Hrun [-> [evs ->]]]]].
  exists evs. exact Hrun.
Qed.

End ErgastCollectors.

(** ** Synthetic weather *)

Section Synthetic.
Context {np : Numpy} {up : Upstream}.
Import weather_data_collector.

Lemma valid_seed_test n : valid_seed n <-> (0 <=? n) && (n <? 2 ^ 32) = true.
Proof. unfold valid_seed. lia. Qed.

Lemma draw_run (sampler : generator -> float * generator) (s : state) :
  draw sampler s
  = (Py.Ok (fst (sampler (rng s))),
     {| trace := trace s; files := files s; rng := snd (sampler (rng s)) |}).
Proof. unfold draw. destruct (sampler (rng s)); reflexivity. Qed.

(** One iteration: it raises [ValueError] on a year that is not a seed,
    and otherwise builds the record that the draws after seeding fix,
    whatever the generator held before. *)
Lemma synthetic_record_run year (s : state) :
  synthetic_record year s =
  if (0 <=? year) && (year <? 2 ^ 32)
  then (Py.Ok (synthetic_of year),
        {| trace := trace s; files := files s;
           rng := generator_after (draws_of year) |})
  else (Py.Raise Py.ValueError, s).
Proof.
  unfold synthetic_record, bind, np_random_seed.
  destruct ((0 <=? year) && (year <? 2 ^ 32)); [| reflexivity].
  unfold np_random_normal, np_random_exponential, np_random_uniform, ret.
  repeat (rewrite draw_run; cbn [rng trace files]).
  unfold synthetic_of, humidity_of, precipitation_of, draws_of.
  destruct (normal 26 2 (seeded year)) as [x1 g1]; cbn [fst snd].
  destruct (normal 31 2 g1) as [x2 g2]; cbn [fst snd].
  destruct (normal 80 10 g2) as [x3 g3]; cbn [fst snd].
  destruct (exponential 5 g3) as [x4 g4]; cbn [fst snd].
  destruct (exponential 8 g4) as [x5 g5]; cbn [fst snd].
  destruct (uniform 0 360 g5) as [x6 g6]; cbn [fst snd].
  destruct (normal 1013 10 g6) as [x7 g7]; cbn [fst snd].
  reflexivity.
Qed.

(** The loop of [create_synthetic_weather_data] appends the records of the
    years in order, or stops at the first year that is not a seed. *)
Lemma synthetic_loop years : forall acc (s : state),
  wpe (for_each years
         (fun weather_data year =>
            weather_record <- synthetic_record year ;;
            ret (weather_data ++ [weather_record]))
         acc)
    (fun recs s' => recs = acc ++ map synthetic_of years /\
                    Forall valid_seed years /\
                    trace s' = trace s /\ files s' = files s)
    (fun e s' => e = Py.ValueError /\ ~ Forall valid_seed years /\
                 trace s' = trace s /\ files s' = files s)
    s.
Proof.
  induction years as [| year rest IH]; intros acc s; simpl.
  - apply wpe_ret. rewrite app_nil_r. repeat split. constructor.
  - apply wpe_bind, wpe_bind. unfold wpe at 1. rewrite synthetic_record_run.
    destruct ((0 <=? year) && (year <? 2 ^ 32)) eqn:Hseed.
    + apply wpe_ret.
      eapply wpe_mono; [apply IH | |]; cbn [trace files].
      * intros recs s' (-> & Hvalid & Ht & Hf). rewrite <- app_assoc.
        repeat split; auto. constructor; [apply valid_seed_test; exact Hseed | exact Hvalid].
      * intros e s' (-> & Hvalid & Ht & Hf). repeat split; auto.
        intros H. apply Hvalid. inversion H; assumption.
    + repeat split. intros H. inversion H as [| ? ? Hy _]; subst.
      apply valid_seed_test in Hy. congruence.
Qed.

Lemma create_synthetic_weather_data_spec years (s : state) :
  wpe (create_synthetic_weather_data years)
    (fun recs s' => recs = map synthetic_of years /\
                    Forall valid_seed years /\
                    trace s' = trace s ++ [synthetic_banner] /\
                    files s' = files s)
    (fun e s' => e = Py.ValueError /\ ~ Forall valid_seed years /\
                 files s' = files s)
    s.
Proof.
  unfold create_synthetic_weather_data. apply wpe_bind, wpe_print.
  eapply wpe_mono; [apply synthetic_loop | |]; cbn [trace files after].
  - intros recs s' (-> & Hvalid & Ht & Hf). repeat split; auto.
  - intros e s' (-> & Hvalid & Ht & Hf). repeat split; auto.
Qed.

(** On years that are seeds the function returns, with one record per
    requested year, in order. *)
Lemma create_synthetic_weather_data_returns years (s : state) :
  Forall valid_seed years ->
  exists s', create_synthetic_weather_data years s
             = (Py.Ok (map synthetic_of years), s') /\
             trace s' = trace s ++ [synthetic_banner] /\
             files s' = files s.
Proof.
  intros Hvalid. pose proof (create_synthetic_weather_data_spec years s) as H.
  unfold wpe in H.
  destruct (create_synthetic_weather_data years s) as [[recs | e] s'].
  - destruct H as (-> & _ & Ht & Hf). exists s'. auto.
  - destruct H as (_ & Hno & _). contradiction.
Qed.

Lemma create_synthetic_weather_data_result years (s s' : state) recs :
  create_synthetic_weather_data years s = (Py.Ok recs, s') ->
  recs = map synthetic_of years.
Proof.
  intros Hrun. pose proof (create_synthetic_weather_data_spec years s) as H.
  unfold wpe in H. rewrite Hrun in H. apply H.
Qed.

End Synthetic.

(** C4.  Synthetic generation is deterministic per year: two invocations,
    on any year lists and from any states of the generator, that both
    return produce the same record for a year they share; each requested
    year has a record; and an invocation on years that numpy accepts as
    seeds does return. *)
Theorem synthetic_weather_deterministic
    {np : Numpy} (years1 years2 : list Z) (s1 s2 : state) :
  (Forall valid_seed years1 ->
   exists recs s1',
     weather_data_collector.create_synthetic_weather_data years1 s1
     = (Py.Ok recs, s1')) /\
  forall recs1 recs2 s1' s2',
    weather_data_collector.create_synthetic_weather_data years1 s1
    = (Py.Ok recs1, s1') ->
    weather_data_collector.create_synthetic_weather_data years2 s2
    = (Py.Ok recs2, s2') ->
    (forall year, In year years1 -> exists r, In r recs1 /\ Year r = year) /\
    (forall r1 r2, In r1 recs1 -> In r2 recs2 -> Year r1 = Year r2 -> r1 = r2).
Proof.
  split.
  - intros Hvalid.
    destruct (create_synthetic_weather_data_returns years1 s1 Hvalid) as [s' [H _]].
    eauto.
  - intros recs1 recs2 s1' s2' H1 H2.
    apply create_synthetic_weather_data_result in H1, H2. subst. split.
    + intros year Hin. exists (synthetic_of year). split; [| reflexivity].
      apply in_map. exact Hin.
    + intros r1 r2 Hr1 Hr2 Hyear.
      apply in_map_iff in Hr1, Hr2.
      destruct Hr1 as [y1 [<- _]]. destruct Hr2 as [y2 [<- _]].
      simpl in Hyear. subst. reflexivity.
Qed.

Lemma synthetic_weather_deterministic_witness :
  let run1 := weather_data_collector.create_synthetic_weather_data
                (np := Fixtures.counting_numpy)
                [2020; 2021] Fixtures.fresh_state in
  let run2 := weather_data_collector.create_synthetic_weather_data
                (np := Fixtures.counting_numpy)
                [2021; 2022] (after [Sleep 1] Fixtures.fresh_state) in
  (exists recs s1', run1 = (Py.Ok recs, s1')) /\
  match fst run1, fst run2 with
  | Py.Ok [_; r1], Py.Ok [r2; _] => r1 = r2
  | _, _ => False
  end.
Proof.
  destruct (synthetic_weather_deterministic
              (np := Fixtures.counting_numpy)
              [2020; 2021] [2021; 2022]
              Fixtures.fresh_state (after [Sleep 1] Fixtures.fresh_state))
    as [Hreturns Hsame].
  split.
  - apply Hreturns. repeat constructor; unfold valid_seed; lia.
  - destruct (weather_data_collector.create_synthetic_weather_data
                (np := Fixtures.counting_numpy)
                [2020; 2021] Fixtures.fresh_state) as [[recs1 | e1] s1'] eqn:H1;
      [| vm_compute in H1; discriminate].
    destruct (weather_data_collector.create_synthetic_weather_data
                (np := Fixtures.counting_numpy)
                [2021; 2022] (after [Sleep 1] Fixtures.fresh_state))
      as [[recs2 | e2] s2'] eqn:H2;
      [| vm_compute in H2; discriminate].
    destruct (Hsame recs1 recs2 s1' s2' eq_refl eq_refl) as [_ Heq].
    vm_compute in H1, H2.
    injection H1 as <- _. injection H2 as <- _. simpl.
    apply Heq; [right; left; reflexivity | left; reflexivity | reflexivity].
Defined.

(** C7 (amended).  The condition of a synthetic record follows from the
    precipitation and the humidity drawn for that record, before they are
    rounded (the humidity after its clamp to [60, 95]), by the ordered
    thresholds: above 10 mm "Rain", else above 2 mm "Light Rain", else
    above 85 percent "Humid", else "Clear".  The record stores the two
    quantities rounded to one decimal. *)
Theorem weather_condition_thresholds
    {np : Numpy} (years : list Z) (s s' : state)
    (recs : list weather_record) (r : weather_record) :
  weather_data_collector.create_synthetic_weather_data years s = (Py.Ok recs, s') ->
  In r recs ->
  let precipitation := precipitation_of (Year r) in
  let humidity := humidity_of (Year r) in
  Precipitation_mm r = Py.round precipitation 1 /\
  Humidity_Percent r = Py.round humidity 1 /\
  Weather_Condition r =
    (if PrimFloat.ltb 10 precipitation then "Rain"
     else if PrimFloat.ltb 2 precipitation then "Light Rain"
     else if PrimFloat.ltb 85 humidity then "Humid"
     else "Clear")%string.
Proof.
  intros Hrun Hin. apply create_synthetic_weather_data_result in Hrun. subst recs.
  apply in_map_iff in Hin. destruct Hin as [year [<- _]]. simpl.
  repeat split.
Qed.

Lemma weather_condition_thresholds_witness :
  let run := weather_data_collector.create_synthetic_weather_data
               (np := Fixtures.counting_numpy)
               [2020; 2021] Fixtures.fresh_state in
  match fst run with
  | Py.Ok (r :: _) =>
      Precipitation_mm r = Py.round 10.03125 1 /\
      Humidity_Percent r = Py.round 80 1 /\
      Weather_Condition r = "Rain"
  | _ => False
  end.
Proof.
  destruct (weather_data_collector.create_synthetic_weather_data
              (np := Fixtures.counting_numpy)
              [2020; 2021] Fixtures.fresh_state) as [[recs | e] s'] eqn:Hrun;
    [| vm_compute in Hrun; discriminate].
  destruct recs as [| r rest]; [vm_compute in Hrun; discriminate |].
  pose proof (weather_condition_thresholds
                (np := Fixtures.counting_numpy)
                [2020; 2021] Fixtures.fresh_state s' (r :: rest) r Hrun
                (or_introl eq_refl)) as H.
  vm_compute in Hrun. injection Hrun as <- _ _. exact H.
Defined.

(** C7, as stated, fails on the stored fields: a draw of 10.03125 mm
    gives the condition "Rain" and is stored as 10.0 mm, for which the
    thresholds read "Light Rain". *)
Lemma stored_precipitation_misses_threshold :
  let run := weather_data_collector.create_synthetic_weather_data
               (np := Fixtures.counting_numpy) [2020] Fixtures.fresh_state in
  exists r, fst run = Py.Ok [r] /\
            Precipitation_mm r = 10%float /\
            Weather_Condition r = "Rain" /\
            weather_data_collector.condition_of
              (Precipitation_mm r) (Humidity_Percent r) = "Light Rain".
Proof. vm_compute. eexists. repeat split. Qed.

(** ** Deduplication by year *)

Section DropDuplicates.
Import weather_data_collector.

Lemma existsb_eqb_In y seen : existsb (Z.eqb y) seen = true <-> In y seen.
Proof.
  rewrite existsb_exists. split.
  - intros [x [Hin Heq]]. apply Z.eqb_eq in Heq. subst. exact Hin.
  - intros Hin. exists y. split; [exact Hin | apply Z.eqb_refl].
Qed.

Lemma in_drop_duplicates_from rows : forall seen r,
  In r (drop_duplicates_from seen rows) -> In r rows /\ ~ In (col_Year r) seen.
Proof.
  induction rows as [| r0 rest IH]; intros seen r Hin; simpl in Hin; [contradiction |].
  destruct (existsb (Z.eqb (col_Year r0)) seen) eqn:Hseen.
  - destruct (IH _ _ Hin) as [H1 H2]. split; [right; exact H1 | exact H2].
  - destruct Hin as [<- | Hin].
    + split; [left; reflexivity |]. intros H. apply existsb_eqb_In in H. congruence.
    + destruct (IH _ _ Hin) as [H1 H2]. split; [right; exact H1 |].
      intros H. apply H2. right. exact H.
Qed.

Lemma drop_duplicates_from_NoDup rows : forall seen,
  List.NoDup (map col_Year (drop_duplicates_from seen rows)).
Proof.
  induction rows as [| r0 rest IH]; intros seen; simpl; [constructor |].
  destruct (existsb (Z.eqb (col_Year r0)) seen); [apply IH |].
  simpl. constructor; [| apply IH].
  intros Hin. apply in_map_iff in Hin. destruct Hin as [r [Hyear Hr]].
  apply in_drop_duplicates_from in Hr. destruct Hr as [_ Hnot].
  apply Hnot. left. symmetry. exact Hyear.
Qed.

(** After deduplication the rows of a year are its first row alone. *)
Lemma rows_of_year_drop_duplicates_from y rows : forall seen,
  rows_of_year y (drop_duplicates_from seen rows) =
  if existsb (Z.eqb y) seen then []
  else match first_of_year y rows with
       | Some r => [r]
       | None => []
       end.
Proof.
  unfold rows_of_year, first_of_year.
  induction rows as [| r0 rest IH]; intros seen; simpl.
  - destruct (existsb (Z.eqb y) seen); reflexivity.
  - destruct (existsb (Z.eqb (col_Year r0)) seen) eqn:Hseen.
    + rewrite IH. destruct (existsb (Z.eqb y) seen) eqn:Hy; [reflexivity |].
      destruct (Z.eqb_spec (col_Year r0) y) as [<- | Hne]; [congruence | reflexivity].
    + simpl. rewrite IH. simpl. rewrite (Z.eqb_sym y (col_Year r0)).
      destruct (Z.eqb_spec (col_Year r0) y) as [<- | Hne]; simpl.
      * rewrite Hseen. reflexivity.
      * reflexivity.
Qed.

Lemma drop_duplicates_NoDup rows : List.NoDup (map col_Year (drop_duplicates rows)).
Proof. apply drop_duplicates_from_NoDup. Qed.

Lemma rows_of_year_drop_duplicates y rows :
  rows_of_year y (drop_duplicates rows) =
  match first_of_year y rows with
  | Some r => [r]
  | None => []
  end.
Proof. unfold drop_duplicates. rewrite rows_of_year_drop_duplicates_from. reflexivity. Qed.

Lemma first_of_year_Some y rows r :
  first_of_year y rows = Some r -> In r rows /\ col_Year r = y.
Proof.
  unfold first_of_year. intros H. apply find_some in H.
  destruct H as [Hin Heq]. apply Z.eqb_eq in Heq. auto.
Qed.

Lemma first_of_year_In y rows :
  In y (map col_Year rows) -> exists r, first_of_year y rows = Some r.
Proof.
  unfold first_of_year. intros Hin. apply in_map_iff in Hin.
  destruct Hin as [r0 [Hyear Hr0]].
  destruct (find (fun r => col_Year r =? y) rows) as [r |] eqn:Hfind; [eauto |].
  apply (find_none _ _ Hfind) in Hr0. apply Z.eqb_neq in Hr0. contradiction.
Qed.

Lemma first_of_year_app y rows1 rows2 :
  first_of_year y (rows1 ++ rows2) =
  match first_of_year y rows1 with
  | Some r => Some r
  | None => first_of_year y rows2
  end.
Proof.
  unfold first_of_year. induction rows1 as [| r rest IH]; simpl; [reflexivity |].
  destruct (col_Year r =? y); [reflexivity | exact IH].
Qed.

(** When FastF1 rows come first, a year that has one keeps a FastF1 row. *)
Lemma first_of_year_observed_first y observed synthetic o :
  Forall from_fastf1 observed ->
  In (FromFastF1 o) observed -> obs_Year o = y ->
  exists o', first_of_year y (observed ++ synthetic) = Some (FromFastF1 o')
             /\ In (FromFastF1 o') observed /\ obs_Year o' = y.
Proof.
  intros Hobs Hin Hyear. rewrite first_of_year_app.
  destruct (first_of_year_In y observed) as [r Hr].
  { apply in_map_iff. exists (FromFastF1 o). auto. }
  rewrite Hr. apply first_of_year_Some in Hr. destruct Hr as [Hr Hy].
  rewrite List.Forall_forall in Hobs. specialize (Hobs r Hr).
  destruct r as [o' | w]; [| contradiction]. exists o'. auto.
Qed.

End DropDuplicates.

(** ** The weather collector *)

Section WeatherRun.
Context {np : Numpy} {up : Upstream}.
Import weather_data_collector.

Lemma wpe_load_session year (Q : session -> state -> Prop) E s :
  (forall sess, fastf1_session (trace s) year = SessionLoaded sess ->
                Q sess (after [LoadSession year] s)) ->
  (forall detail, fastf1_session (trace s) year = SessionError detail ->
                  E (Py.OtherException detail) (after [LoadSession year] s)) ->
  wpe (load_session year) Q E s.
Proof.
  intros HQ HE. unfold wpe, load_session.
  destruct (fastf1_session (trace s) year) as [detail | sess]; [apply HE | apply HQ];
    reflexivity.
Qed.

(** The FastF1 lookup never raises; what it returns is a table with at
    least one row, every row carrying the requested year. *)
Lemma get_weather_from_fastf1_spec year s :
  wpe (get_weather_from_fastf1 year)
    (fun r s' => only_events s s' /\
                 forall df, r = Some df ->
                            df <> [] /\ Forall (fun o => obs_Year o = year) df)
    never s.
Proof.
  unfold get_weather_from_fastf1. apply wpe_try_except, wpe_bind, wpe_load_session.
  - intros sess _.
    assert (Hs : only_events s (after [LoadSession year] s))
      by apply only_events_after, only_events_refl.
    destruct (weather_data sess) as [[| smp rows] |].
    + apply wpe_bind, wpe_print, wpe_ret. split; [| intros df Hdf; discriminate].
      apply only_events_after. exact Hs.
    + apply wpe_ret. split; [exact Hs |]. intros df Hdf. injection Hdf as <-.
      split; [simpl; discriminate |]. apply List.Forall_forall. intros o Ho.
      change (In o (map (fun smp0 => {| sample := smp0; obs_Year := year;
                                        obs_Race := "Singapore";
                                        obs_Date := date sess |}) (smp :: rows))) in Ho.
      apply in_map_iff in Ho. destruct Ho as [smp0 [<- _]]. reflexivity.
    + apply wpe_bind, wpe_print, wpe_ret. split; [| intros df Hdf; discriminate].
      apply only_events_after. exact Hs.
  - intros detail _. simpl. apply wpe_bind, wpe_print, wpe_ret.
    split; [| intros df Hdf; discriminate]. do 2 apply only_events_after. apply only_events_refl.
Qed.

Lemma collect_fastf1_frames_spec years s :
  wpe (collect_fastf1_frames years)
    (fun frames s' => only_events s s' /\ Forall observed_frame frames)
    never s.
Proof.
  unfold collect_fastf1_frames.
  apply wpe_for_each
    with (I := fun frames s' => only_events s s' /\ Forall observed_frame frames);
    [| split; [apply only_events_refl | constructor]].
  intros frames year s1 _ [Hs1 Hframes].
  apply wpe_try_except, wpe_bind.
  eapply wpe_mono; [apply get_weather_from_fastf1_spec | | intros e s' []].
  intros r s2 [Hs2 Hr].
  pose proof (only_events_trans _ _ _ Hs1 Hs2) as Hs.
  destruct r as [df |].
  - apply wpe_bind, wpe_print, wpe_ret. split; [apply only_events_after; exact Hs |].
    apply Forall_app. split; [exact Hframes |]. constructor; [| constructor].
    destruct (Hr df eq_refl) as [Hne _]. split.
    + destruct df; [congruence | discriminate].
    + apply List.Forall_forall. intros r Hin. apply in_map_iff in Hin.
      destruct Hin as [o [<- _]]. exact I.
  - apply wpe_bind, wpe_print, wpe_ret. split; [apply only_events_after; exact Hs |].
    exact Hframes.
Qed.

Lemma observed_frames_returns years use_fastf1 s :
  exists frames s',
    observed_frames years use_fastf1 s = (Py.Ok frames, s') /\
    only_events s s' /\ Forall observed_frame frames.
Proof.
  apply (wpe_never_returns (observed_frames years use_fastf1)
           (fun frames s' => only_events s s' /\ Forall observed_frame frames)).
  unfold observed_frames. destruct use_fastf1.
  - apply wpe_bind, wpe_print.
    eapply wpe_mono; [apply collect_fastf1_frames_spec | | intros e s' []].
    intros frames s' [Hs' Hframes]. split; [| exact Hframes].
    eapply only_events_trans; [| exact Hs']. apply only_events_after, only_events_refl.
  - apply wpe_ret. split; [apply only_events_refl | constructor].
Qed.

(** [fill_gaps] appends the synthetic batch exactly when synthesis is
    enabled and coverage is below half; an exception is a year that is
    not a seed. *)
Lemma fill_gaps_spec years use_synthetic frames s :
  wpe (fill_gaps years use_synthetic frames)
    (fun all s' =>
       files s' = files s /\
       if use_synthetic && below_half_coverage frames years
       then all = frames ++ [synthetic_batch years] /\ Forall valid_seed years
       else all = frames /\ s' = s)
    (fun e s' =>
       e = Py.ValueError /\ files s' = files s /\
       use_synthetic && below_half_coverage frames years = true /\
       ~ Forall valid_seed years)
    s.
Proof.
  unfold fill_gaps.
  destruct (use_synthetic && below_half_coverage frames years) eqn:Hcond.
  - apply wpe_bind, wpe_print, wpe_bind.
    eapply wpe_mono; [apply create_synthetic_weather_data_spec | |].
    + intros recs s' (-> & Hvalid & _ & Hf). apply wpe_ret. auto.
    + intros e s' (-> & Hno & Hf). auto.
  - apply wpe_ret. auto.
Qed.

Lemma combine_and_save_spec self all (E : Py.exn -> state -> Prop) s :
  wpe (combine_and_save self all)
    (fun r s' => r = combined all /\ files s' = saved self all (files s))
    E s.
Proof.
  unfold combine_and_save, combined, saved. destruct all as [| frame rest].
  - apply wpe_bind, wpe_print, wpe_ret. auto.
  - unfold wpe. simpl. auto.
Qed.

(** Every run of [collect_weather_data]: the FastF1 phase returns some
    frames; then either a year that is not a seed stops a triggered
    synthesis with [ValueError], or the run returns the deduplicated
    concatenation of the candidates, written to the weather file, or a
    null result when there is no candidate. *)
Lemma collect_weather_data_spec self years use_fastf1 use_synthetic s :
  let ys := requested_years years in
  exists frames s1,
    observed_frames ys use_fastf1 (after [weather_intro ys] s) = (Py.Ok frames, s1) /\
    Forall observed_frame frames /\
    wpe (collect_weather_data self years use_fastf1 use_synthetic)
      (fun r s' =>
         (use_synthetic && below_half_coverage frames ys = true ->
          Forall valid_seed ys) /\
         r = combined (candidates ys use_synthetic frames) /\
         files s' = saved self (candidates ys use_synthetic frames) (files s))
      (fun e s' =>
         e = Py.ValueError /\ files s' = files s /\
         use_synthetic && below_half_coverage frames ys = true /\
         ~ Forall valid_seed ys)
      s.
Proof.
  intros ys.
  destruct (observed_frames_returns ys use_fastf1 (after [weather_intro ys] s))
    as (frames & s1 & Hobs & Hs1 & Hframes).
  exists frames, s1. split; [exact Hobs |]. split; [exact Hframes |].
  unfold collect_weather_data. fold ys. apply wpe_bind, wpe_print, wpe_bind.
  unfold wpe at 1. unfold weather_intro in Hobs. rewrite Hobs.
  assert (Hf1 : files s1 = files s) by (apply only_events_files in Hs1; exact Hs1).
  apply wpe_bind.
  eapply wpe_mono; [apply fill_gaps_spec | |]; unfold candidates.
  - intros all s2 [Hf2 Hall].
    eapply wpe_mono; [apply combine_and_save_spec | | intros e s' H; exact H].
    intros r s3 [-> Hf3]. rewrite Hf3, Hf2, Hf1.
    destruct (use_synthetic && below_half_coverage frames ys).
    + destruct Hall as [-> Hvalid]. auto.
    + destruct Hall as [-> _]. repeat split. discriminate.
  - intros e s2 (-> & Hf2 & Hcond & Hno). rewrite Hf2, Hf1. auto.
Qed.

End WeatherRun.

Section Reconciliation.
Context {np : Numpy} {up : Upstream}.
Import weather_data_collector.

Lemma concat_observed_frames frames :
  Forall observed_frame frames -> Forall from_fastf1 (concat frames).
Proof.
  induction 1 as [| frame rest [_ Hframe] _ IH]; simpl; [constructor |].
  apply Forall_app. split; assumption.
Qed.

Lemma concat_candidates years use_synthetic frames :
  concat (candidates years use_synthetic frames) =
  concat frames ++
  (if use_synthetic && below_half_coverage frames years
   then synthetic_batch years else []).
Proof.
  unfold candidates. destruct (use_synthetic && below_half_coverage frames years).
  - rewrite concat_app. simpl. rewrite app_nil_r. reflexivity.
  - rewrite app_nil_r. reflexivity.
Qed.

Lemma in_synthetic_batch years r :
  In r (synthetic_batch years) <->
  exists year, In year years /\ r = FromSynthetic (synthetic_of year).
Proof.
  unfold synthetic_batch. rewrite map_map, in_map_iff. split.
  - intros [year [<- Hin]]. eauto.
  - intros [year [Hin ->]]. eauto.
Qed.

Lemma combined_Some all table :
  combined all = Some table ->
  table = drop_duplicates (concat all) /\
  forall self before,
    saved self all before = <[weather_csv self := WeatherRows table]> before.
Proof.
  unfold saved. intros H. rewrite H. split; [| reflexivity].
  unfold combined in H. destruct all; [discriminate |]. injection H as <-. reflexivity.
Qed.

Lemma below_half_nonempty {A B : Type} (frames : list A) (years : list B) :
  below_half_coverage frames years = true -> years <> [].
Proof.
  unfold below_half_coverage, len. intros H Hnil. subst.
  apply Z.ltb_lt in H. simpl in H. lia.
Qed.

End Reconciliation.

(** C1 (amended).  Whenever [collect_weather_data] produces a table, the
    table is the deduplicated concatenation of the candidates of the run
    (the FastF1 frames, then the synthetic batch if one was generated); it
    holds exactly one row for every year that has a candidate and no two
    rows with the same year; and for a year that has both a FastF1 row and
    a synthetic record, the surviving row is the first FastF1 row of that
    year.  That row carries no Data_Source tag: only synthetic records are
    tagged. *)
Theorem reconciled_weather_prefers_observed
    {np : Numpy} {up : Upstream}
    (self : weather_data_collector.WeatherDataCollector)
    (years : option (list Z)) (use_fastf1 use_synthetic : bool)
    (s s' : state) (table : list weather_row) :
  weather_data_collector.collect_weather_data self years use_fastf1 use_synthetic s
  = (Py.Ok (Some table), s') ->
  let ys := weather_data_collector.requested_years years in
  exists frames s1,
    weather_data_collector.observed_frames ys use_fastf1 (after [weather_intro ys] s)
    = (Py.Ok frames, s1) /\
    let rows := concat (candidates ys use_synthetic frames) in
    table = weather_data_collector.drop_duplicates rows /\
    files s' !! weather_data_collector.weather_csv self = Some (WeatherRows table) /\
    List.NoDup (map col_Year table) /\
    (forall y, In y (map col_Year rows) -> exists r, rows_of_year y table = [r]) /\
    (forall y o w,
        In (FromFastF1 o) rows -> obs_Year o = y ->
        In (FromSynthetic w) rows -> Year w = y ->
        exists o',
          rows_of_year y table = [FromFastF1 o'] /\
          first_of_year y rows = Some (FromFastF1 o') /\
          col_Data_Source (FromFastF1 o') = None).
Proof.
  intros Hrun ys.
  destruct (collect_weather_data_spec self years use_fastf1 use_synthetic s)
    as (frames & s1 & Hobs & Hframes & Hwp).
  fold ys in Hobs, Hwp. unfold wpe in Hwp. rewrite Hrun in Hwp.
  destruct Hwp as (_ & Hr & Hf).
  exists frames, s1. split; [exact Hobs |]. cbv zeta.
  symmetry in Hr. apply combined_Some in Hr. destruct Hr as [Htable Hsaved].
  rewrite Hsaved in Hf.
  split; [exact Htable |].
  split; [rewrite Hf; apply lookup_insert_eq |].
  rewrite Htable.
  split; [apply drop_duplicates_NoDup |].
  split.
  - intros y Hy. rewrite rows_of_year_drop_duplicates.
    destruct (first_of_year_In _ _ Hy) as [r ->]. eauto.
  - intros y o w Ho Hyear Hw _.
    rewrite rows_of_year_drop_duplicates.
    rewrite concat_candidates in Ho |- *.
    apply in_app_or in Ho. destruct Ho as [Ho | Ho].
    + destruct (first_of_year_observed_first y (concat frames)
                  (if use_synthetic && weather_data_collector.below_half_coverage frames ys
                   then synthetic_batch ys else []) o
                  (concat_observed_frames _ Hframes) Ho Hyear)
        as (o' & -> & _ & _).
      exists o'. repeat split.
    + destruct (use_synthetic && weather_data_collector.below_half_coverage frames ys);
        [| contradiction].
      apply in_synthetic_batch in Ho. destruct Ho as [year [_ Ho]]. discriminate.
Qed.

Lemma reconciled_weather_prefers_observed_witness :
  let run := weather_data_collector.collect_weather_data
               (np := Fixtures.counting_numpy) (up := Fixtures.only_2020)
               weather_collector (Some [2020; 2021; 2022]) true true
               Fixtures.fresh_state in
  exists table o,
    fst run = Py.Ok (Some table) /\
    map col_Year table = [2020; 2021; 2022] /\
    rows_of_year 2020 table = [FromFastF1 o] /\
    col_Data_Source (FromFastF1 o) = None.
Proof.
  cbv zeta.
  destruct (weather_data_collector.collect_weather_data
              (np := Fixtures.counting_numpy) (up := Fixtures.only_2020)
              weather_collector (Some [2020; 2021; 2022]) true true
              Fixtures.fresh_state) as [[[table |] | e] s'] eqn:Hrun;
    [| vm_compute in Hrun; discriminate | vm_compute in Hrun; discriminate].
  destruct (reconciled_weather_prefers_observed _ _ _ _ _ _ _ Hrun)
    as (frames & s1 & Hobs & Htable & _ & _ & _ & Hboth).
  vm_compute in Hobs. injection Hobs as <- _.
  set (o := {| sample := Fixtures.a_sample; obs_Year := 2020;
               obs_Race := "Singapore"; obs_Date := "2020-09-20" |}).
  destruct (Hboth 2020 o (synthetic_of (np := Fixtures.counting_numpy) 2020))
    as (o' & Hrows & _ & Hsource).
  - left. reflexivity.
  - reflexivity.
  - vm_compute. tauto.
  - reflexivity.
  - exists table, o'. split; [reflexivity |]. split; [| split; assumption].
    rewrite Htable. vm_compute. reflexivity.
Defined.

(** C1, as stated, fails: FastF1 has weather for 2020 only, so the three
    requested years get synthetic records as well; the row kept for 2020
    is the FastF1 row, and its Data_Source is empty, not "observed". *)
Lemma observed_row_has_no_source_tag :
  let run := weather_data_collector.collect_weather_data
               (np := Fixtures.counting_numpy) (up := Fixtures.only_2020)
               weather_collector (Some [2020; 2021; 2022]) true true
               Fixtures.fresh_state in
  exists table r,
    fst run = Py.Ok (Some table) /\
    rows_of_year 2020 table = [r] /\
    from_fastf1 r /\
    In (FromSynthetic (synthetic_of (np := Fixtures.counting_numpy) 2020))
       (synthetic_batch (np := Fixtures.counting_numpy) [2020; 2021; 2022]) /\
    col_Data_Source r <> Some "observed".
Proof.
  vm_compute. eexists _, _. split; [reflexivity |]. split; [reflexivity |].
  split; [exact I |]. split; [left; reflexivity | discriminate].
Qed.




(** ** The dashboard *)

Section Dashboard.
Import app.
Context {Model Scaler Encoders : Type}.







End Dashboard.



(** C9.  When one of the startup artifacts is absent or cannot be
    deserialized, the snapshot is the unavailable sentinel; the landing
    page and every driver page are the error page, the two JSON endpoints
    answer status 500 with an error body, and the about page is served. *)
Theorem unavailable_snapshot_responses
    {Model Scaler Encoders : Type}
    (team_analysis_of : list app.prediction -> list app.team_row)
    (dir : app.features_dir (Model := Model) (Scaler := Scaler)
             (Encoders := Encoders)) :
  unloadable (app.best_model_pkl dir) \/
  unloadable (app.feature_scaler_pkl dir) \/
  unloadable (app.label_encoders_pkl dir) \/
  unloadable (app.singapore_gp_2025_predictions_csv dir) \/
  unloadable (app.feature_importance_csv dir) \/
  unloadable (app.prediction_summary_csv dir) ->
  app.load_model_and_data dir = None /\
  app.serve team_analysis_of dir app.route_index
  = Py.Ok (app.error_html app.not_loaded) /\
  (forall code,
      app.serve team_analysis_of dir (app.route_driver code)
      = Py.Ok (app.error_html app.not_loaded)) /\
  app.serve team_analysis_of dir app.route_api_predictions
  = Py.Ok (app.json_error "Model data not found" 500) /\
  app.serve team_analysis_of dir app.route_api_feature_importance
  = Py.Ok (app.json_error "Model data not found" 500) /\
  app.serve team_analysis_of dir app.route_about = Py.Ok app.about_html.
Proof.
  intros Hmissing.
  assert (Hnone : app.load_model_and_data dir = None).
  { unfold app.load_model_and_data, app.load_all.
    destruct (app.best_model_pkl dir); simpl; try reflexivity.
    destruct (app.feature_scaler_pkl dir); simpl; try reflexivity.
    destruct (app.label_encoders_pkl dir); simpl; try reflexivity.
    destruct (app.singapore_gp_2025_predictions_csv dir); simpl; try reflexivity.
    destruct (app.feature_importance_csv dir); simpl; try reflexivity.
    destruct (app.prediction_summary_csv dir); simpl; try reflexivity.
    simpl in Hmissing. tauto. }
  unfold app.serve. rewrite Hnone. repeat split.
Qed.

Lemma unavailable_snapshot_responses_witness :
  unloadable (app.feature_scaler_pkl Fixtures.no_scaler) /\
  app.serve (fun _ => []) Fixtures.no_scaler app.route_api_predictions
  = Py.Ok (app.json_error "Model data not found" 500) /\
  app.serve (fun _ => []) Fixtures.no_scaler app.route_about = Py.Ok app.about_html.
Proof.
  assert (Hscaler : unloadable (app.feature_scaler_pkl Fixtures.no_scaler))
    by exact I.
  split; [exact Hscaler |].
  destruct (unavailable_snapshot_responses (fun _ => []) Fixtures.no_scaler
              (or_intror (or_introl Hscaler)))
    as (_ & _ & _ & Hapi & _ & Habout).
  split; assumption.
Defined.



(** ** The collectors, one by one *)

Section CollectorSpecs.
Context {np : Numpy} {up : Upstream}.
Import ergast_data_collector.






End CollectorSpecs.

(** C5 (the code departs from the claim).  The four collectors that loop
    over years, and the weather collector, write their file only when they
    hold at least one record ([looping_collector_spec],
    [collect_weather_data_spec]).  The circuit collector does not test the
    number of records: answered with a circuit table that lists no
    circuit, it accumulates nothing and still creates [circuits_info.csv],
    with no row, and returns that empty table. *)
Theorem circuit_table_written_without_records :
  let run := ergast_data_collector.collect_circuit_info
               (np := Fixtures.counting_numpy) (up := Fixtures.no_circuits)
               ergast_collector Fixtures.fresh_state in
  ergast_data_collector.circuit_records (Some Fixtures.no_circuits_body)
  = Py.Ok (Some []) /\
  fst run = Py.Ok (Some []) /\
  files Fixtures.fresh_state !! "../data/circuits_info.csv" = None /\
  files (snd run) !! "../data/circuits_info.csv" = Some (Rows []).
Proof. vm_compute. repeat split. Qed.

(** ** The orchestrator *)

Section Orchestrator.
Context {np : Numpy} {up : Upstream}.
Import run_data_collection.

Lemma bind_run {A B : Type} (c : M A) (k : A -> M B) s a s' :
  c s = (Py.Ok a, s') -> bind c k s = k a s'.
Proof. intros H. unfold bind. rewrite H. reflexivity. Qed.

Lemma bind_emit {B : Type} (ev : event) (k : unit -> M B) s :
  bind (emit ev) k s = k tt (after [ev] s).
Proof. reflexivity. Qed.








End Orchestrator.




(** ** Total failure of the Ergast service *)

Section TotalFailure.
Context {np : Numpy} {up : Upstream}.
Import ergast_data_collector.

Hypothesis every_request_fails : forall t url params, failed (http_get t url params).

Lemma collect_circuit_info_all_failed self s :
  exists evs,
    collect_circuit_info self s
    = (Py.Ok None, after (evs ++ [Print "No circuit information collected"]) s).
Proof.
  assert (H : wpe (collect_circuit_info self)
                (fun r s' =>
                   r = None /\
                   exists evs,
                     s' = after (evs ++ [Print "No circuit information collected"]) s)
                never s).
  { unfold collect_circuit_info.
    apply wpe_bind, wpe_print, wpe_bind, wpe_make_request.
    intros data evs Hdata. destruct data as [v |].
    - destruct (Hdata v eq_refl) as [status [Hget Hok]].
      pose proof (every_request_fails
                    (trace (after [Print "Collecting circuit information..."] s))
                    (url_of self "circuits") None) as Hfail.
      rewrite Hget in Hfail. simpl in Hfail. contradiction.
    - apply wpe_bind, wpe_lift. simpl. apply wpe_bind, wpe_print, wpe_ret.
      split; [reflexivity |].
      exists ([Print "Collecting circuit information..."] ++ evs).
      rewrite !after_after, <- app_assoc. reflexivity. }
  apply wpe_never_returns in H. destruct H as (r & s' & Hrun & -> & evs & ->).
  eauto.
Qed.

(** When every request fails, each of the five Ergast collectors reports
    that it collected nothing, returns a null result and leaves the output
    directory untouched. *)
Lemma collect_all_data_all_failed self s :
  exists s',
    collect_all_data self s
    = (Py.Ok {| singapore_results := None; driver_standings := None;
                constructor_standings := None; circuit_info := None;
                season_schedules := None |}, s') /\
    only_events s s' /\
    In (Print "No Singapore GP results collected") (trace s') /\
    In (Print "No driver standings collected") (trace s') /\
    In (Print "No constructor standings collected") (trace s') /\
    In (Print "No circuit information collected") (trace s') /\
    In (Print "No season schedules collected") (trace s').
Proof.
  set (s0 := after [Print "Starting comprehensive data collection..."] s).
  destruct (looping_collector_all_failed self (range 2008 2025)
              (fun year => "Collecting " +:+ Py.str year +:+ " Singapore GP...")
              results_endpoint singapore_records
              "Collecting Singapore GP results from Ergast API..."
              "singapore_gp_results_ergast_2008_2024.csv"
              "Saved Singapore GP results: " "Total records: "
              "No Singapore GP results collected" s0
              (fun _ => eq_refl) every_request_fails) as [evs1 H1].
  set (s1 := after (evs1 ++ [Print "No Singapore GP results collected"]) s0) in *.
  destruct (looping_collector_all_failed self (default_years None)
              (fun year => "Collecting " +:+ Py.str year +:+ " driver standings...")
              driver_standings_endpoint
              (fun _ => standings_records "DriverStandings" driver_standing_data)
              ("Collecting driver standings for years: "
               +:+ repr_list (default_years None))
              "driver_standings_2015_2024.csv"
              "Saved driver standings: " "Total records: "
              "No driver standings collected" s1
              (fun _ => eq_refl) every_request_fails) as [evs2 H2].
  set (s2 := after (evs2 ++ [Print "No driver standings collected"]) s1) in *.
  destruct (looping_collector_all_failed self (default_years None)
              (fun year => "Collecting " +:+ Py.str year
                           +:+ " constructor standings...")
              constructor_standings_endpoint
              (fun _ => standings_records "ConstructorStandings"
                          constructor_standing_data)
              ("Collecting constructor standings for years: "
               +:+ repr_list (default_years None))
              "constructor_standings_2015_2024.csv"
              "Saved constructor standings: " "Total records: "
              "No constructor standings collected" s2
              (fun _ => eq_refl) every_request_fails) as [evs3 H3].
  set (s3 := after (evs3 ++ [Print "No constructor standings collected"]) s2) in *.
  destruct (collect_circuit_info_all_failed self s3) as [evs4 H4].
  set (s4 := after (evs4 ++ [Print "No circuit information collected"]) s3) in *.
  destruct (looping_collector_all_failed self (default_years None)
              (fun year => "Collecting " +:+ Py.str year +:+ " schedule...")
              Py.str schedule_records
              ("Collecting season schedules for years: "
               +:+ repr_list (default_years None))
              "season_schedules_2015_2024.csv"
              "Saved season schedules: " "Total races: "
              "No season schedules collected" s4
              (fun _ => eq_refl) every_request_fails) as [evs5 H5].
  set (s5 := after (evs5 ++ [Print "No season schedules collected"]) s4) in *.
  eexists. split.
  - unfold collect_all_data. unfold print at 1. rewrite bind_emit. fold s0.
    rewrite (bind_run _ _ _ _ _ H1), (bind_run _ _ _ _ _ H2),
      (bind_run _ _ _ _ _ H3), (bind_run _ _ _ _ _ H4), (bind_run _ _ _ _ _ H5).
    unfold print. rewrite !bind_emit. reflexivity.
  - split.
    + do 2 apply only_events_after. unfold s5, s4, s3, s2, s1, s0.
      repeat apply only_events_after. apply only_events_refl.
    + unfold s5, s4, s3, s2, s1, s0. cbn [trace after].
      repeat split; rewrite !in_app_iff; simpl; tauto.
Qed.

End TotalFailure.

(** * Further properties *)

(** ** Flattening the Ergast responses *)

Section Flattening.
Import Py ergast_data_collector.

Lemma bind_result_Ok {A B : Type} (c : result A) (k : A -> result B) b :
  bind_result c k = Ok b -> exists a, c = Ok a /\ k a = Ok b.
Proof. destruct c as [a | e]; simpl; [eauto | discriminate]. Qed.

Lemma map_result_Forall {A B : Type} (f : A -> result B) (P : B -> Prop) :
  (forall x y, f x = Ok y -> P y) ->
  forall l ys, map_result f l = Ok ys -> Forall P ys.
Proof.
  intros Hf. induction l as [| x rest IH]; simpl; intros ys H.
  - injection H as <-. constructor.
  - apply bind_result_Ok in H. destruct H as (y & Hy & H).
    apply bind_result_Ok in H. destruct H as (ys' & Hys & H).
    injection H as <-. constructor; [eapply Hf; eassumption | apply IH; assumption].
Qed.

Lemma map_result_length {A B : Type} (f : A -> result B) :
  forall l ys, map_result f l = Ok ys -> length ys = length l.
Proof.
  induction l as [| x rest IH]; simpl; intros ys H.
  - injection H as <-. reflexivity.
  - apply bind_result_Ok in H. destruct H as (y & Hy & H).
    apply bind_result_Ok in H. destruct H as (ys' & Hys & H).
    injection H as <-. simpl. f_equal. apply IH. assumption.
Qed.

Lemma flat_map_result_Forall {A B : Type} (f : A -> result (list B)) (P : B -> Prop) :
  (forall x ys, f x = Ok ys -> Forall P ys) ->
  forall l ys, flat_map_result f l = Ok ys -> Forall P ys.
Proof.
  intros Hf l ys H. unfold flat_map_result in H.
  apply bind_result_Ok in H. destruct H as (chunks & Hchunks & H). injection H as <-.
  apply (map_result_Forall f (Forall P) Hf) in Hchunks.
  induction Hchunks; simpl; [constructor | apply Forall_app; auto].
Qed.

Lemma columns_dict_set k v d : columns (dict_set k v d) = add_column (columns d) k.
Proof.
  unfold add_column. induction d as [| [k' v'] rest IH]; simpl; [reflexivity |].
  destruct (String.eqb k k'); simpl; [reflexivity |].
  rewrite IH. destruct (existsb (String.eqb k) (columns rest)); reflexivity.
Qed.

Lemma columns_dict_update u : forall d,
  columns (dict_update d u) = fold_left add_column (columns u) (columns d).
Proof.
  unfold dict_update. induction u as [| [k v] rest IH]; intros d; simpl; [reflexivity |].
  rewrite IH, columns_dict_set. reflexivity.
Qed.

Lemma cell_dict_set k k' v d :
  cell k (dict_set k' v d) = if String.eqb k k' then Some v else cell k d.
Proof.
  unfold cell. induction d as [| [k0 v0] rest IH]; simpl.
  - destruct (String.eqb k k'); reflexivity.
  - destruct (String.eqb_spec k' k0) as [-> | Hne]; simpl.
    + destruct (String.eqb k k0); reflexivity.
    + rewrite IH. destruct (String.eqb_spec k k0) as [-> | Hne'].
      * destruct (String.eqb_spec k0 k'); [congruence | reflexivity].
      * reflexivity.
Qed.

Ltac invert_bind H :=
  apply bind_result_Ok in H; destruct H as (? & _ & H); cbv beta in H.
Ltac invert_binds H := repeat invert_bind H.

Lemma result_data_of_columns race_info result record :
  columns race_info = ["Year"; "Race"; "Date"; "Round"; "RaceName"] ->
  result_data_of race_info result = Ok record ->
  columns record = singapore_columns.
Proof.
  intros Hinfo H. unfold result_data_of in H. invert_binds H.
  injection H as <-. rewrite !columns_dict_set, Hinfo. reflexivity.
Qed.

Lemma results_of_race_columns year race rows :
  results_of_race year race = Ok rows ->
  Forall (fun record => columns record = singapore_columns) rows.
Proof.
  intros H. unfold results_of_race in H.
  apply bind_result_Ok in H. destruct H as (race_info & Hinfo & H).
  assert (Hcols : columns race_info = ["Year"; "Race"; "Date"; "Round"; "RaceName"]).
  { unfold race_info_of in Hinfo. invert_binds Hinfo. injection Hinfo as <-. reflexivity. }
  apply bind_result_Ok in H. destruct H as ([] & _ & H).
  - invert_binds H. revert H. apply map_result_Forall.
    intros result record. apply result_data_of_columns. exact Hcols.
  - injection H as <-. constructor.
Qed.

Lemma singapore_records_columns year data :
  records_with_columns singapore_columns (singapore_records year data).
Proof.
  unfold records_with_columns.
  destruct (singapore_records year data) as [rows | e] eqn:H; [| exact I].
  unfold singapore_records in H. destruct data as [d |]; [| injection H as <-; constructor].
  destruct (truthy d); [| injection H as <-; constructor].
  apply bind_result_Ok in H. destruct H as ([] & _ & H); [| injection H as <-; constructor].
  do 4 invert_bind H. revert H. apply flat_map_result_Forall.
  intros race. apply results_of_race_columns.
Qed.

Lemma standings_records_columns list_key standing_data cols data :
  (forall year_data standing record,
      standing_data year_data standing = Ok record -> columns record = cols) ->
  records_with_columns cols (standings_records list_key standing_data data).
Proof.
  intros Hdata. unfold records_with_columns.
  destruct (standings_records list_key standing_data data) as [rows | e] eqn:H;
    [| exact I].
  unfold standings_records in H. destruct data as [d |]; [| injection H as <-; constructor].
  destruct (truthy d); [| injection H as <-; constructor].
  apply bind_result_Ok in H. destruct H as ([] & _ & H); [| injection H as <-; constructor].
  do 3 invert_bind H. revert H. apply flat_map_result_Forall.
  intros standings_list records H. do 3 invert_bind H.
  revert H. apply map_result_Forall. intros standing record. apply Hdata.
Qed.

Lemma driver_standing_data_columns year_data standing record :
  driver_standing_data year_data standing = Ok record ->
  columns record = driver_standings_columns.
Proof.
  intros H. unfold driver_standing_data in H. invert_binds H.
  injection H as <-. reflexivity.
Qed.

Lemma constructor_standing_data_columns year_data standing record :
  constructor_standing_data year_data standing = Ok record ->
  columns record = constructor_standings_columns.
Proof.
  intros H. unfold constructor_standing_data in H. invert_binds H.
  injection H as <-. reflexivity.
Qed.

Lemma circuit_records_columns data rows :
  circuit_records data = Ok (Some rows) ->
  Forall (fun record => columns record = circuit_columns) rows.
Proof.
  intros H. unfold circuit_records in H. destruct data as [d |]; [| discriminate].
  destruct (truthy d); [| discriminate].
  apply bind_result_Ok in H. destruct H as ([] & _ & H); [| discriminate].
  do 2 invert_bind H. apply bind_result_Ok in H. destruct H as (circuit_data & Hmap & H).
  injection H as <-. revert Hmap. apply map_result_Forall.
  intros circuit record H. unfold circuit_info_of in H. invert_binds H.
  injection H as <-. reflexivity.
Qed.

Lemma schedule_records_columns year data :
  records_with_columns schedule_columns (schedule_records year data).
Proof.
  unfold records_with_columns.
  destruct (schedule_records year data) as [rows | e] eqn:H; [| exact I].
  unfold schedule_records in H. destruct data as [d |]; [| injection H as <-; constructor].
  destruct (truthy d); [| injection H as <-; constructor].
  apply bind_result_Ok in H. destruct H as ([] & _ & H); [| injection H as <-; constructor].
  do 2 invert_bind H. revert H. apply map_result_Forall.
  intros race record H. unfold schedule_data_of in H. invert_binds H.
  injection H as <-. reflexivity.
Qed.

End Flattening.

(** X1.  Every record that a flattening function of the Ergast collectors
    produces has exactly the columns of its table, in a fixed order,
    whichever optional fields the response carried: 21 columns for the
    Singapore results, 9 for the driver standings, 6 for the constructor
    standings, 6 for the circuits, 9 for the schedules.  So the records
    of one table never differ in their columns. *)
Theorem flattened_records_share_columns :
  (forall year data,
      records_with_columns singapore_columns
        (ergast_data_collector.singapore_records year data)) /\
  (forall data,
      records_with_columns driver_standings_columns
        (ergast_data_collector.standings_records "DriverStandings"
           ergast_data_collector.driver_standing_data data)) /\
  (forall data,
      records_with_columns constructor_standings_columns
        (ergast_data_collector.standings_records "ConstructorStandings"
           ergast_data_collector.constructor_standing_data data)) /\
  (forall data,
      match ergast_data_collector.circuit_records data with
      | Py.Ok (Some rows) => Forall (fun record => columns record = circuit_columns) rows
      | _ => True
      end) /\
  (forall year data,
      records_with_columns schedule_columns
        (ergast_data_collector.schedule_records year data)).
Proof.
  split; [exact singapore_records_columns |].
  split; [intros data; apply standings_records_columns;
          exact driver_standing_data_columns |].
  split; [intros data; apply standings_records_columns;
          exact constructor_standing_data_columns |].
  split; [| exact schedule_records_columns].
  intros data.
  destruct (ergast_data_collector.circuit_records data) as [[rows |] | e] eqn:H;
    try exact I.
  apply (circuit_records_columns data). exact H.
Qed.

(** ** Optional fields of a response *)

Ltac atom t :=
  lazymatch t with
  | match ?x with _ => _ end => atom x
  | bind_result ?c _ => atom c
  | Py.getitem ?v _ => atom v
  | Py.contains _ ?v => atom v
  | Py.getitem0 ?v => atom v
  | Py.truthy ?v => atom v
  | Py.iter ?v => atom v
  | Py.int ?v => atom v
  | _ => t
  end.

(** One step of the evaluation of a flattening function on a symbolic
    response: case analysis on what the next subscript or test meets. *)
Ltac evaluate_step :=
  match goal with
  | |- match ?S with _ => _ end => let a := atom S in destruct a eqn:?
  end;
  cbn [bind_result Py.getitem Py.contains Py.getitem0 Py.truthy Py.int].

Ltac cell_of_update :=
  unfold ergast_data_collector.dict_update; cbn [fold_left fst snd];
  rewrite ?cell_dict_set; reflexivity.

(** X2.  A race result or a schedule entry that lacks an optional field
    is not dropped and raises nothing on that account: the flattening of
    a result never raises [KeyError] for [permanentNumber], [Time],
    [FastestLap] or [AverageSpeed], and the record it returns holds None
    under Time when the result has no [Time], under the three fastest-lap
    columns when it has no [FastestLap], and under DriverNumber when the
    driver has no [permanentNumber]; the flattening of a schedule entry
    never raises [KeyError] for [time], and holds None under Time when
    the entry has none. *)
Theorem optional_fields_become_none :
  (forall race_info result,
      match ergast_data_collector.result_data_of race_info result with
      | Py.Raise (Py.KeyError k) => ~ In k optional_keys
      | Py.Raise _ => True
      | Py.Ok record =>
          (Py.contains "Time" result = Py.Ok false ->
           cell "Time" record = Some Py.VNone) /\
          (Py.contains "FastestLap" result = Py.Ok false ->
           cell "FastestLapRank" record = Some Py.VNone /\
           cell "FastestLapTime" record = Some Py.VNone /\
           cell "FastestLapAvgSpeed" record = Some Py.VNone) /\
          (forall driver,
              Py.getitem result "Driver" = Py.Ok driver ->
              Py.contains "permanentNumber" driver = Py.Ok false ->
              cell "DriverNumber" record = Some Py.VNone)
      end) /\
  (forall year race,
      match ergast_data_collector.schedule_data_of year race with
      | Py.Raise (Py.KeyError k) => k <> "time"
      | Py.Raise _ => True
      | Py.Ok record =>
          Py.contains "time" race = Py.Ok false -> cell "Time" record = Some Py.VNone
      end).
Proof.
  split.
  - intros race_info result.
    unfold ergast_data_collector.result_data_of, ergast_data_collector.getitem3,
      ergast_data_collector.getitem2.
    repeat (evaluate_step; try exact I;
            try lazymatch goal with
                | |- ~ In _ _ => unfold optional_keys; simpl; intuition discriminate
                end).
    all: (split;
      [ intros H; first [discriminate H | cell_of_update]
      | split;
        [ intros H; first [discriminate H | repeat split; cell_of_update]
        | intros driver Hdriver H; injection Hdriver as <-; cbn [Py.contains] in H;
          match goal with
          | E : Py.lookup_key "permanentNumber" _ = _ |- _ => rewrite E in H
          end;
          first [discriminate H | cell_of_update] ] ]).
  - intros year race.
    unfold ergast_data_collector.schedule_data_of, ergast_data_collector.getitem3,
      ergast_data_collector.getitem2.
    repeat (evaluate_step; try exact I; try discriminate).
    all: intros H; first [discriminate H | reflexivity].
Qed.

(** X3.  The driver standings take the constructor from the first entry
    of [Constructors], and a driver without one gets None in both
    constructor columns: the subscript [0] is guarded by the truth value
    of the list, so the flattening never raises [IndexError]. *)
Theorem driver_without_constructor year_data standing :
  match ergast_data_collector.driver_standing_data year_data standing with
  | Py.Raise e => e <> Py.IndexError
  | Py.Ok record =>
      forall constructors,
        Py.getitem standing "Constructors" = Py.Ok constructors ->
        (Py.truthy constructors = false ->
         cell "ConstructorName" record = Some Py.VNone /\
         cell "ConstructorId" record = Some Py.VNone) /\
        (forall first rest,
            constructors = Py.VList (first :: rest) ->
            exists name id,
              Py.getitem first "name" = Py.Ok name /\
              Py.getitem first "constructorId" = Py.Ok id /\
              cell "ConstructorName" record = Some name /\
              cell "ConstructorId" record = Some id)
  end.
Proof.
  unfold ergast_data_collector.driver_standing_data, ergast_data_collector.getitem3,
    ergast_data_collector.getitem2.
  repeat (evaluate_step; try discriminate;
          try match goal with
              | E : Py.int_of_float ?f = Py.Raise _ |- _ <> _ =>
                  unfold Py.int_of_float in E; destruct (Prim2SF f);
                  try discriminate E; injection E as <-; discriminate
              end).
  all: intros constructors Hc; injection Hc as <-;
    (split;
     [ intros Ht; first [discriminate Ht | split; reflexivity]
     | intros first rest Heq; first [discriminate Heq | injection Heq as <- <-];
       cbn [Py.getitem];
       repeat match goal with
              | E : Py.lookup_key _ _ = _ |- _ => rewrite E; clear E
              end;
       eexists _, _; repeat split ]).
Qed.

(** ** Events and the output directory *)

Section TraceLaws.
Context {np : Numpy} {up : Upstream}.

Lemma requested_app evs1 evs2 : requested (evs1 ++ evs2) = requested evs1 ++ requested evs2.
Proof. apply flat_map_app. Qed.

Lemma sessions_loaded_app evs1 evs2 :
  sessions_loaded (evs1 ++ evs2) = sessions_loaded evs1 ++ sessions_loaded evs2.
Proof. apply flat_map_app. Qed.

Lemma written_app evs1 evs2 : written (evs1 ++ evs2) = written evs1 ++ written evs2.
Proof. apply flat_map_app. Qed.

Lemma chatter_written evs : Forall chatter evs -> written evs = [].
Proof.
  induction 1 as [| ev rest Hev _ IH]; [reflexivity |].
  destruct ev; try destruct Hev; exact IH.
Qed.

Lemma chatter_sessions_loaded evs : Forall chatter evs -> sessions_loaded evs = [].
Proof.
  induction 1 as [| ev rest Hev _ IH]; [reflexivity |].
  destruct ev; try destruct Hev; exact IH.
Qed.

Lemma fastf1_chatter_written evs : Forall fastf1_chatter evs -> written evs = [].
Proof.
  induction 1 as [| ev rest Hev _ IH]; [reflexivity |].
  destruct ev; try destruct Hev; exact IH.
Qed.

Lemma fastf1_chatter_requested evs : Forall fastf1_chatter evs -> requested evs = [].
Proof.
  induction 1 as [| ev rest Hev _ IH]; [reflexivity |].
  destruct ev; try destruct Hev; exact IH.
Qed.

Lemma after_nil (s : state) : after [] s = s.
Proof. destruct s. unfold after. simpl. rewrite app_nil_r. reflexivity. Qed.

Lemma extends_refl (s : state) : extends s [] s.
Proof.
  split; [symmetry; apply app_nil_r |]. split; [reflexivity | intros path []].
Qed.

Lemma extends_trans (s s1 s2 : state) evs1 evs2 :
  extends s evs1 s1 -> extends s1 evs2 s2 -> extends s (evs1 ++ evs2) s2.
Proof.
  intros (Ht1 & Hout1 & Hin1) (Ht2 & Hout2 & Hin2).
  split; [rewrite Ht2, Ht1, app_assoc; reflexivity |].
  split; intros path; rewrite written_app, in_app_iff.
  - intros Hno. rewrite Hout2, Hout1; tauto.
  - intros Hin. destruct (in_dec String.string_dec path (written evs2)) as [H2 | H2].
    + apply Hin2. exact H2.
    + rewrite Hout2 by exact H2. apply Hin1. tauto.
Qed.

Lemma extends_after (s : state) evs : written evs = [] -> extends s evs (after evs s).
Proof.
  intros Hw. split; [reflexivity |]. rewrite Hw. split; [reflexivity | intros path []].
Qed.

(** When no event wrote a file, the directory is as it was. *)
Lemma extends_files (s s' : state) evs :
  extends s evs s' -> written evs = [] -> files s' = files s.
Proof.
  intros (_ & Hout & _) Hw. apply map_eq. intros path. apply Hout.
  rewrite Hw. intros [].
Qed.

Lemma extends_to_csv (s : state) path t :
  extends s [ToCsv path]
    {| trace := trace s ++ [ToCsv path]; files := <[path := t]> (files s); rng := rng s |}.
Proof.
  split; [reflexivity |]. simpl. split; intros p Hp.
  - apply lookup_insert_ne. tauto.
  - destruct Hp as [<- | []]. rewrite lookup_insert_eq. eauto.
Qed.

Lemma yields_ret {A : Type} (a : A) s Q E : Q a [] s -> yields (ret a) s Q E.
Proof. intros H. exists []. split; [apply extends_refl | exact H]. Qed.

Lemma yields_lift {A : Type} (r : Py.result A) s
    (Q : A -> list event -> state -> Prop) E :
  match r with Py.Ok a => Q a [] s | Py.Raise e => E e [] s end ->
  yields (lift r) s Q E.
Proof.
  unfold yields, lift. destruct r; intros H; exists []; (split; [apply extends_refl | exact H]).
Qed.

Lemma yields_raise {A : Type} (e : Py.exn) s (Q : A -> list event -> state -> Prop) E :
  E e [] s -> yields (raise e) s Q E.
Proof. intros H. exists []. split; [apply extends_refl | exact H]. Qed.

Lemma yields_bind {A B : Type} (c : M A) (k : A -> M B) s Q E :
  yields c s
    (fun a evs1 s1 =>
       yields (k a) s1 (fun b evs2 s2 => Q b (evs1 ++ evs2) s2)
         (fun e evs2 s2 => E e (evs1 ++ evs2) s2))
    E ->
  yields (bind c k) s Q E.
Proof.
  unfold yields, bind. destruct (c s) as [[a | e] s1]; [| auto].
  intros (evs1 & Hext1 & H). destruct (k a s1) as [[b | e] s2];
    destruct H as (evs2 & Hext2 & H); exists (evs1 ++ evs2);
    (split; [eapply extends_trans; eassumption | exact H]).
Qed.

Lemma yields_mono {A : Type} (c : M A) s
    (Q Q' : A -> list event -> state -> Prop)
    (E E' : Py.exn -> list event -> state -> Prop) :
  yields c s Q E ->
  (forall a evs s', extends s evs s' -> Q a evs s' -> Q' a evs s') ->
  (forall e evs s', extends s evs s' -> E e evs s' -> E' e evs s') ->
  yields c s Q' E'.
Proof.
  unfold yields. destruct (c s) as [[a | e] s']; intros (evs & Hext & H) HQ HE;
    exists evs; split; auto.
Qed.

Lemma yields_try_except {A : Type} (body : M A) (catches : Py.exn -> bool)
    (handler : Py.exn -> M A) s Q E :
  yields body s Q
    (fun e evs1 s1 =>
       if catches e
       then yields (handler e) s1 (fun a evs2 s2 => Q a (evs1 ++ evs2) s2)
              (fun e' evs2 s2 => E e' (evs1 ++ evs2) s2)
       else E e evs1 s1) ->
  yields (try_except body catches handler) s Q E.
Proof.
  unfold yields, try_except. destruct (body s) as [[a | e] s1]; [auto |].
  intros (evs1 & Hext1 & H). destruct (catches e); [| eauto].
  destruct (handler e s1) as [[a | e'] s2]; destruct H as (evs2 & Hext2 & H);
    exists (evs1 ++ evs2); (split; [eapply extends_trans; eassumption | exact H]).
Qed.

Lemma yields_emit (ev : event) s (Q : unit -> list event -> state -> Prop) E :
  written [ev] = [] -> Q tt [ev] (after [ev] s) -> yields (emit ev) s Q E.
Proof.
  intros Hw H. exists [ev]. split; [apply extends_after; exact Hw | exact H].
Qed.

Lemma yields_print (line : string) s (Q : unit -> list event -> state -> Prop) E :
  Q tt [Print line] (after [Print line] s) -> yields (print line) s Q E.
Proof. apply yields_emit. reflexivity. Qed.

Lemma yields_to_csv path t s (Q : unit -> list event -> state -> Prop) E :
  Q tt [ToCsv path]
    {| trace := trace s ++ [ToCsv path]; files := <[path := t]> (files s); rng := rng s |} ->
  yields (to_csv path t) s Q E.
Proof.
  intros H. exists [ToCsv path]. split; [apply extends_to_csv | exact H].
Qed.

(** A run that satisfies [yields] with no exception allowed returns. *)
Lemma yields_returns {A : Type} (c : M A) s Q :
  yields c s Q no_exception ->
  exists a s' evs, c s = (Py.Ok a, s') /\ extends s evs s' /\ Q a evs s'.
Proof.
  unfold yields. destruct (c s) as [[a | e] s']; [| intros (evs & _ & [])].
  intros (evs & Hext & H). eauto 6.
Qed.

Lemma yields_of_run {A : Type} (c : M A) s Q E a s' :
  yields c s Q E -> c s = (Py.Ok a, s') -> exists evs, extends s evs s' /\ Q a evs s'.
Proof. unfold yields. intros H Hrun. rewrite Hrun in H. exact H. Qed.

End TraceLaws.

(** ** One request to the Ergast service *)


(** ** The collectors that loop over years *)

Section ErgastTraces.
Context {np : Numpy} {up : Upstream}.
Import ergast_data_collector.

Lemma make_request_events self endpoint params s :
  exists data rest,
    make_request self endpoint params s
    = (Py.Ok data, after (Get (url_of self endpoint) params :: rest) s) /\
    Forall chatter rest /\ requested rest = [].
Proof.
  rewrite make_request_run.
  destruct (http_get _ _ _) as [detail | status body].
  - eexists _, _. split; [reflexivity |]. split; [repeat constructor | reflexivity].
  - destruct ((400 <=? status) && (status <? 600)).
    + eexists _, _. split; [reflexivity |]. split; [repeat constructor | reflexivity].
    + destruct body; eexists _, _; (split; [reflexivity |]);
        (split; [repeat constructor | reflexivity]).
Qed.

Lemma yields_make_request self endpoint params s
    (Q : option Py.value -> list event -> state -> Prop) E :
  (forall data rest,
      Forall chatter rest -> requested rest = [] ->
      Q data (Get (url_of self endpoint) params :: rest)
        (after (Get (url_of self endpoint) params :: rest) s)) ->
  yields (make_request self endpoint params) s Q E.
Proof.
  intros HQ. unfold yields.
  destruct (make_request_events self endpoint params s) as (data & rest & -> & Hch & Hreq).
  eexists. split; [| apply HQ; assumption].
  apply extends_after. change (written (Get (url_of self endpoint) params :: rest))
    with (written rest). apply chatter_written. exact Hch.
Qed.

(** The loop requests the URL of each year once, in order; an exception
    stops it after the request of some year. *)
Lemma yields_request_loop self banner endpoint
    (flatten : Z -> option Py.value -> Py.result (list Py.row)) years :
  forall acc s,
    yields (for_each years
              (fun acc year =>
                 print (banner year) ;;
                 data <- make_request self (endpoint year) None ;;
                 records <- lift (flatten year data) ;;
                 ret (acc ++ records))
              acc) s
      (fun _ evs s' =>
         s' = after evs s /\ Forall chatter evs /\
         requested evs = urls self endpoint years)
      (fun _ evs s' =>
         s' = after evs s /\ Forall chatter evs /\
         exists done, requested evs = urls self endpoint done /\ done `prefix_of` years).
Proof.
  induction years as [| year rest IH]; intros acc s; simpl.
  - apply yields_ret. rewrite after_nil. repeat split. constructor.
  - apply yields_bind, yields_bind, yields_print, yields_bind, yields_make_request.
    intros data more Hch Hreq. apply yields_bind, yields_lift.
    set (first := [Print (banner year)] ++
                  (Get (url_of self (endpoint year)) None :: more) ++ [] ++ []).
    assert (Hfirst : Forall chatter first)
      by (unfold first; simpl; rewrite app_nil_r; repeat constructor; exact Hch).
    assert (Hurl : requested first = [url_of self (endpoint year)])
      by (unfold first; simpl; rewrite app_nil_r, Hreq; reflexivity).
    assert (Hstate : after (Get (url_of self (endpoint year)) None :: more)
                       (after [Print (banner year)] s) = after first s)
      by (unfold first; rewrite after_after, !app_nil_r; reflexivity).
    destruct (flatten year data) as [records | e].
    + apply yields_ret. rewrite Hstate. fold first.
      eapply yields_mono; [apply IH | |].
      * intros r evs s' _ (-> & Hevs & Hrequested).
        rewrite after_after. split; [reflexivity |].
        split; [apply Forall_app; auto |].
        rewrite requested_app, Hurl, Hrequested. reflexivity.
      * intros e evs s' _ (-> & Hevs & done & Hrequested & Hdone).
        rewrite after_after. split; [reflexivity |].
        split; [apply Forall_app; auto |].
        exists (year :: done). rewrite requested_app, Hurl, Hrequested.
        split; [reflexivity |]. apply prefix_cons. exact Hdone.
    + rewrite Hstate. fold first. split; [reflexivity |]. split; [exact Hfirst |].
      exists [year]. split; [exact Hurl |]. apply prefix_cons, prefix_nil.
Qed.

Lemma looping_collector_run self years banner endpoint flatten
    intro file saved total nothing s :
  looping_run self years endpoint intro file saved total nothing
    (print intro ;;
     all <- request_loop self years banner endpoint flatten ;;
     save_if_any self all file saved total nothing) s.
Proof.
  unfold looping_run, request_loop. apply yields_bind, yields_print, yields_bind.
  eapply yields_mono; [apply yields_request_loop | |].
  - intros all loop s1 _ (-> & Hloop & Hrequested).
    unfold save_if_any. destruct all as [| record records].
    + apply yields_bind, yields_print, yields_ret.
      exists loop. rewrite !app_nil_r. repeat split; auto; try discriminate.
    + apply yields_bind, yields_to_csv, yields_bind, yields_print, yields_bind,
        yields_print, yields_ret.
      exists loop. rewrite !app_nil_r. repeat split; auto; try discriminate.
  - intros e loop s1 _ (-> & Hloop & done & Hrequested & Hdone).
    exists loop, done. repeat split; auto.
Qed.

End ErgastTraces.

(** X5.  Each of the four collectors that loop over years, when it
    returns, has requested the URL of every year exactly once, in the
    order of the years, without retrying any, and only then ended: with
    the single write of its table, which holds at least one record,
    followed by two lines, or, when it accumulated nothing, with one line
    and the directory as it was.  When an exception escapes it, it has
    requested the URLs of some first years and written nothing. *)
Theorem collectors_request_each_year_once {np : Numpy} {up : Upstream}
    (self : ergast_data_collector.ErgastDataCollector)
    (years : option (list Z)) (s : state) :
  let ys := ergast_data_collector.default_years years in
  looping_run self (range 2008 2025) results_endpoint
    "Collecting Singapore GP results from Ergast API..."
    "singapore_gp_results_ergast_2008_2024.csv"
    "Saved Singapore GP results: " "Total records: "
    "No Singapore GP results collected"
    (ergast_data_collector.collect_singapore_gp_results self) s /\
  looping_run self ys driver_standings_endpoint
    ("Collecting driver standings for years: " +:+ repr_list ys)
    "driver_standings_2015_2024.csv"
    "Saved driver standings: " "Total records: " "No driver standings collected"
    (ergast_data_collector.collect_driver_standings self years) s /\
  looping_run self ys constructor_standings_endpoint
    ("Collecting constructor standings for years: " +:+ repr_list ys)
    "constructor_standings_2015_2024.csv"
    "Saved constructor standings: " "Total records: "
    "No constructor standings collected"
    (ergast_data_collector.collect_constructor_standings self years) s /\
  looping_run self ys Py.str
    ("Collecting season schedules for years: " +:+ repr_list ys)
    "season_schedules_2015_2024.csv"
    "Saved season schedules: " "Total races: " "No season schedules collected"
    (ergast_data_collector.collect_season_schedules self years) s.
Proof.
  intros ys. split; [| split; [| split]].
  - apply (looping_collector_run self (range 2008 2025)
             (fun year => "Collecting " +:+ Py.str year +:+ " Singapore GP...")
             results_endpoint ergast_data_collector.singapore_records).
  - apply (looping_collector_run self ys
             (fun year => "Collecting " +:+ Py.str year +:+ " driver standings...")
             driver_standings_endpoint
             (fun _ => ergast_data_collector.standings_records "DriverStandings"
                         ergast_data_collector.driver_standing_data)).
  - apply (looping_collector_run self ys
             (fun year => "Collecting " +:+ Py.str year +:+ " constructor standings...")
             constructor_standings_endpoint
             (fun _ => ergast_data_collector.standings_records "ConstructorStandings"
                         ergast_data_collector.constructor_standing_data)).
  - apply (looping_collector_run self ys
             (fun year => "Collecting " +:+ Py.str year +:+ " schedule...")
             Py.str ergast_data_collector.schedule_records).
Qed.

(** ** The five collectors in sequence *)

Section ErgastPlan.
Context {np : Numpy} {up : Upstream}.
Import ergast_data_collector.

Lemma requested_ending path saved total nothing r :
  requested (ending path saved total nothing r) = [].
Proof. destruct r; reflexivity. Qed.

Lemma written_ending path saved total nothing r :
  written (ending path saved total nothing r) = present [path] [r].
Proof. destruct r; reflexivity. Qed.

(** What the rest of a run needs to know of a collector that loops. *)
Lemma looping_run_step self years endpoint intro file saved total nothing c s :
  looping_run self years endpoint intro file saved total nothing c s ->
  yields c s
    (fun r evs s' =>
       requested evs = urls self endpoint years /\
       written evs = present [data_dir self +:+ "/" +:+ file] [r] /\
       files s' = directory_after (data_dir self +:+ "/" +:+ file) r (files s))
    (fun _ evs _ => written evs = []).
Proof.
  unfold looping_run. intros H. eapply yields_mono; [exact H | |].
  - intros r evs s' _ (loop & -> & Hloop & Hrequested & _ & Hfiles).
    change (Print intro :: loop ++ ending (data_dir self +:+ "/" +:+ file)
                                      saved total nothing r)
      with ([Print intro] ++ loop ++ ending (data_dir self +:+ "/" +:+ file)
                                       saved total nothing r).
    rewrite !requested_app, !written_app, requested_ending, written_ending,
      (chatter_written loop Hloop), Hrequested, app_nil_r.
    auto.
  - intros e evs s' _ (loop & done & -> & Hloop & _).
    apply (chatter_written (Print intro :: loop)). constructor; [exact I | exact Hloop].
Qed.

Lemma collect_circuit_info_step self s :
  yields (collect_circuit_info self) s
    (fun r evs s' =>
       requested evs = [url_of self "circuits"] /\
       written evs = present [data_dir self +:+ "/" +:+ "circuits_info.csv"] [r] /\
       files s' = directory_after (data_dir self +:+ "/" +:+ "circuits_info.csv") r
                    (files s))
    (fun _ evs _ => written evs = []).
Proof.
  unfold collect_circuit_info.
  apply yields_bind, yields_print, yields_bind, yields_make_request.
  intros data rest Hch Hreq. apply yields_bind, yields_lift.
  pose proof (chatter_written rest Hch) as Hw.
  destruct (circuit_records data) as [[records |] | e].
  - apply yields_bind, yields_to_csv, yields_bind, yields_print, yields_bind,
      yields_print, yields_ret.
    simpl. rewrite !requested_app, !written_app, Hreq, Hw. auto.
  - apply yields_bind, yields_print, yields_ret.
    simpl. rewrite !requested_app, !written_app, Hreq, Hw. auto.
  - simpl. rewrite !written_app, Hw. reflexivity.
Qed.

Lemma path_inj (dir file1 file2 : string) :
  dir +:+ "/" +:+ file1 = dir +:+ "/" +:+ file2 -> file1 = file2.
Proof.
  induction dir as [| c rest IH]; simpl; intros H; injection H; auto.
Qed.

Lemma lookup_directory_after path r fs other :
  directory_after path r fs !! other =
  if decide (path = other)
  then match r with Some records => Some (Rows records) | None => fs !! other end
  else fs !! other.
Proof.
  unfold directory_after. destruct r as [records |].
  - rewrite lookup_insert. case_decide; reflexivity.
  - case_decide; reflexivity.
Qed.

Lemma present_sublist paths : forall tables, sublist (present paths tables) paths.
Proof.
  induction paths as [| path rest IH]; intros tables; simpl.
  - destruct tables as [| [] ?]; constructor.
  - destruct tables as [| [records |] more].
    + apply sublist_nil_l.
    + apply sublist_skip, IH.
    + apply sublist_cons, IH.
Qed.

End ErgastPlan.

Section ErgastSteps.
Context {np : Numpy} {up : Upstream}.
Import ergast_data_collector.

Lemma collect_singapore_gp_results_step self s :
  yields (collect_singapore_gp_results self) s
    (fun r evs s' =>
       requested evs = urls self results_endpoint (range 2008 2025) /\
       written evs = present [data_dir self +:+ "/" +:+
                              "singapore_gp_results_ergast_2008_2024.csv"] [r] /\
       files s' = directory_after (data_dir self +:+ "/" +:+
                                   "singapore_gp_results_ergast_2008_2024.csv") r
                    (files s))
    (fun _ evs _ => written evs = []).
Proof.
  eapply looping_run_step.
  apply (looping_collector_run self (range 2008 2025)
           (fun year => "Collecting " +:+ Py.str year +:+ " Singapore GP...")
           results_endpoint singapore_records).
Qed.

Lemma collect_driver_standings_step self years s :
  yields (collect_driver_standings self years) s
    (fun r evs s' =>
       requested evs = urls self driver_standings_endpoint (default_years years) /\
       written evs = present [data_dir self +:+ "/" +:+
                              "driver_standings_2015_2024.csv"] [r] /\
       files s' = directory_after (data_dir self +:+ "/" +:+
                                   "driver_standings_2015_2024.csv") r (files s))
    (fun _ evs _ => written evs = []).
Proof.
  eapply looping_run_step.
  apply (looping_collector_run self (default_years years)
           (fun year => "Collecting " +:+ Py.str year +:+ " driver standings...")
           driver_standings_endpoint
           (fun _ => standings_records "DriverStandings" driver_standing_data)).
Qed.

Lemma collect_constructor_standings_step self years s :
  yields (collect_constructor_standings self years) s
    (fun r evs s' =>
       requested evs
       = urls self constructor_standings_endpoint (default_years years) /\
       written evs = present [data_dir self +:+ "/" +:+
                              "constructor_standings_2015_2024.csv"] [r] /\
       files s' = directory_after (data_dir self +:+ "/" +:+
                                   "constructor_standings_2015_2024.csv") r (files s))
    (fun _ evs _ => written evs = []).
Proof.
  eapply looping_run_step.
  apply (looping_collector_run self (default_years years)
           (fun year => "Collecting " +:+ Py.str year +:+ " constructor standings...")
           constructor_standings_endpoint
           (fun _ => standings_records "ConstructorStandings"
                       constructor_standing_data)).
Qed.

Lemma collect_season_schedules_step self years s :
  yields (collect_season_schedules self years) s
    (fun r evs s' =>
       requested evs = urls self Py.str (default_years years) /\
       written evs = present [data_dir self +:+ "/" +:+
                              "season_schedules_2015_2024.csv"] [r] /\
       files s' = directory_after (data_dir self +:+ "/" +:+
                                   "season_schedules_2015_2024.csv") r (files s))
    (fun _ evs _ => written evs = []).
Proof.
  eapply looping_run_step.
  apply (looping_collector_run self (default_years years)
           (fun year => "Collecting " +:+ Py.str year +:+ " schedule...")
           Py.str schedule_records).
Qed.

End ErgastSteps.

Ltac written_sublist :=
  cbv beta in *; rewrite ?written_app;
  repeat match goal with
         | H : written _ = _ |- _ => rewrite H; clear H
         end;
  repeat match goal with
         | |- context [present [_] [?r]] => is_var r; destruct r
         end;
  simpl; unfold ergast_outputs; simpl;
  solve [eauto 12 using sublist_nil, sublist_skip, sublist_cons].

Lemma decide_path {A : Type} (dir file1 file2 : string) (x y : A) :
  (if decide (dir +:+ "/" +:+ file1 = dir +:+ "/" +:+ file2) then x else y)
  = if String.eqb file1 file2 then x else y.
Proof.
  case_decide as Heq; destruct (String.eqb_spec file1 file2) as [Hfile | Hfile];
    try reflexivity.
  - apply path_inj in Heq. contradiction.
  - subst. contradiction.
Qed.

(** Every run of the five collectors in sequence. *)
Lemma collect_all_data_run {np : Numpy} {up : Upstream}
    (self : ergast_data_collector.ErgastDataCollector) (s : state) :
  yields (ergast_data_collector.collect_all_data self) s
    (fun data evs s' =>
       requested evs = request_plan self /\
       written evs = present (ergast_outputs self) (tables data) /\
       Forall2 (reflects (files s) (files s')) (ergast_outputs self) (tables data))
    (fun _ evs _ => sublist (written evs) (ergast_outputs self)).
Proof.
  unfold ergast_data_collector.collect_all_data.
  apply yields_bind, yields_print, yields_bind.
  eapply yields_mono; [apply collect_singapore_gp_results_step | | ].
  2: { intros e evs1 s1 _ H1. written_sublist. }
  intros r1 evs1 s1 _ (Hr1 & Hw1 & Hf1). apply yields_bind.
  eapply yields_mono; [apply collect_driver_standings_step | | ].
  2: { intros e evs2 s2 _ H2. written_sublist. }
  intros r2 evs2 s2 _ (Hr2 & Hw2 & Hf2). apply yields_bind.
  eapply yields_mono; [apply collect_constructor_standings_step | | ].
  2: { intros e evs3 s3 _ H3. written_sublist. }
  intros r3 evs3 s3 _ (Hr3 & Hw3 & Hf3). apply yields_bind.
  eapply yields_mono; [apply collect_circuit_info_step | | ].
  2: { intros e evs4 s4 _ H4. written_sublist. }
  intros r4 evs4 s4 _ (Hr4 & Hw4 & Hf4). apply yields_bind.
  eapply yields_mono; [apply collect_season_schedules_step | | ].
  2: { intros e evs5 s5 _ H5. written_sublist. }
  intros r5 evs5 s5 _ (Hr5 & Hw5 & Hf5).
  apply yields_bind, yields_print, yields_bind, yields_print, yields_ret.
  split; [| split].
  - rewrite !requested_app, Hr1, Hr2, Hr3, Hr4, Hr5. reflexivity.
  - rewrite !written_app, Hw1, Hw2, Hw3, Hw4, Hw5.
    destruct r1, r2, r3, r4, r5; reflexivity.
  - cbn [files after]. rewrite Hf5, Hf4, Hf3, Hf2, Hf1. cbn [files after].
    unfold ergast_outputs, tables, reflects. simpl.
    repeat constructor; rewrite !lookup_directory_after, !decide_path; reflexivity.
Qed.

Lemma sublist_In {A : Type} (l1 l2 : list A) x : sublist l1 l2 -> In x l1 -> In x l2.
Proof.
  induction 1 as [| y l1 l2 _ IH | y l1 l2 _ IH]; simpl; intros Hin.
  - exact Hin.
  - destruct Hin as [-> | Hin]; [left; reflexivity | right; apply IH; exact Hin].
  - right. apply IH. exact Hin.
Qed.

(** X6.  A complete run of the five Ergast collectors requests 48 URLs:
    those of the Singapore results of 2008 to 2024, of the driver
    standings and of the constructor standings of 2015 to 2024, of the
    circuits, and of the schedules of 2015 to 2024, in this order.  It
    writes the tables it returns, each once and in the order of the
    collectors, and when it ends each file holds the table returned for
    it, while the file of a null result is as it was before the run.  A
    run that an exception ends has written some of the five files, in
    this order, none of them twice, and has changed no other file. *)
Theorem collect_all_data_plan {np : Numpy} {up : Upstream}
    (self : ergast_data_collector.ErgastDataCollector) (s : state) :
  length (request_plan self) = 48%nat /\
  match ergast_data_collector.collect_all_data self s with
  | (Py.Ok data, s') =>
      exists evs,
        trace s' = trace s ++ evs /\
        requested evs = request_plan self /\
        written evs = present (ergast_outputs self) (tables data) /\
        Forall2 (reflects (files s) (files s')) (ergast_outputs self) (tables data)
  | (Py.Raise _, s') =>
      exists evs,
        trace s' = trace s ++ evs /\
        sublist (written evs) (ergast_outputs self) /\
        forall path, ~ In path (ergast_outputs self) ->
                     files s' !! path = files s !! path
  end.
Proof.
  split; [unfold request_plan; rewrite !length_app, !length_map; reflexivity |].
  pose proof (collect_all_data_run self s) as H. unfold yields in H.
  destruct (ergast_data_collector.collect_all_data self s) as [[data | e] s'];
    destruct H as (evs & (Htrace & Hout & _) & H); exists evs.
  - split; [exact Htrace | exact H].
  - split; [exact Htrace |]. split; [exact H |].
    intros path Hpath. apply Hout. intros Hin. apply Hpath.
    eapply sublist_In; eassumption.
Qed.

(** ** The summary of [ergast_data_collector.main] *)

(** X7.  When [main] of the Ergast collector returns, the summary it
    printed last agrees with the output directory: a data type reported
    with a number of records has its file holding a table of that many
    records, and a data type reported as not collected has its file as
    it was before the run. *)
Theorem ergast_summary_agrees_with_directory {np : Numpy} {up : Upstream} (s : state) :
  match ergast_data_collector.main s with
  | (Py.Ok _, s') =>
      exists data before,
        trace s'
        = before ++ Print (newline +:+ "=== COLLECTION SUMMARY ===")
                 :: map (fun item => Print (ergast_data_collector.summary_line
                                              (fst item) (snd item)))
                      (ergast_data_collector.items data) /\
        Forall2 (reflects (files s) (files s'))
          (ergast_outputs ergast_collector) (tables data)
  | (Py.Raise _, s') =>
      forall path, ~ In path (ergast_outputs ergast_collector) ->
                   files s' !! path = files s !! path
  end.
Proof.
  assert (H : yields ergast_data_collector.main s
                (fun _ evs s' =>
                   exists data before,
                     evs = before ++ Print (newline +:+ "=== COLLECTION SUMMARY ===")
                                  :: map (fun item =>
                                            Print (ergast_data_collector.summary_line
                                                     (fst item) (snd item)))
                                       (ergast_data_collector.items data) /\
                     Forall2 (reflects (files s) (files s'))
                       (ergast_outputs ergast_collector) (tables data))
                (fun _ evs _ => sublist (written evs) (ergast_outputs ergast_collector))).
  { unfold ergast_data_collector.main, ergast_data_collector.init, mkdir.
    apply yields_bind, yields_bind, yields_emit; [reflexivity |].
    apply yields_ret, yields_bind.
    eapply yields_mono; [apply (collect_all_data_run ergast_collector) | |].
    - intros data evs s1 _ (_ & _ & Hfiles).
      apply yields_bind, yields_print. cbn [for_each ergast_data_collector.items fst snd].
      do 5 apply yields_bind, yields_print. apply yields_ret.
      exists data, ([Mkdir "../data"] ++ evs). split; [| exact Hfiles].
      rewrite <- !app_assoc. reflexivity.
    - intros e evs s1 _ H. exact H. }
  unfold yields in H.
  destruct (ergast_data_collector.main s) as [[[] | e] s'];
    destruct H as (evs & (Htrace & Hout & _) & H).
  - destruct H as (data & before & -> & Hfiles).
    exists data, (trace s ++ before). split; [| exact Hfiles].
    rewrite Htrace, <- app_assoc. reflexivity.
  - intros path Hpath. apply Hout. intros Hin. apply Hpath.
    eapply sublist_In; eassumption.
Qed.

(** ** The FastF1 phase of the weather collector *)

Section FastF1Weather.
Context {np : Numpy} {up : Upstream}.
Import weather_data_collector.

(** Every run of [get_weather_from_fastf1], in full. *)
Lemma get_weather_from_fastf1_run year s :
  get_weather_from_fastf1 year s =
  match fastf1_session (trace s) year with
  | SessionError detail =>
      (Py.Ok None,
       after [LoadSession year;
              Print ("Error getting FastF1 weather data for " +:+ Py.str year
                     +:+ ": " +:+ detail)] s)
  | SessionLoaded sess =>
      match weather_data sess with
      | Some (smp :: rows) =>
          (Py.Ok (Some (tagged year sess (smp :: rows))), after [LoadSession year] s)
      | _ =>
          (Py.Ok None,
           after [LoadSession year;
                  Print ("No weather data available for " +:+ Py.str year
                         +:+ " Singapore GP")] s)
      end
  end.
Proof.
  unfold get_weather_from_fastf1, try_except, bind, load_session.
  destruct (fastf1_session (trace s) year) as [detail | sess]; simpl.
  - unfold print, emit, after. simpl. rewrite <- app_assoc. reflexivity.
  - destruct (weather_data sess) as [[| smp rows] |]; simpl;
      unfold print, emit, ret, after; simpl; rewrite <- ?app_assoc; reflexivity.
Qed.

Lemma get_weather_from_fastf1_events year s :
  exists r prints,
    get_weather_from_fastf1 year s = (Py.Ok r, after (LoadSession year :: prints) s) /\
    Forall is_print prints /\
    forall df, r = Some df -> frame_of_year year (map FromFastF1 df).
Proof.
  rewrite get_weather_from_fastf1_run.
  destruct (fastf1_session (trace s) year) as [detail | sess].
  - eexists _, _. split; [reflexivity |]. split; [repeat constructor | discriminate].
  - destruct (weather_data sess) as [[| smp rows] |].
    + eexists _, _. split; [reflexivity |]. split; [repeat constructor | discriminate].
    + eexists _, _. split; [reflexivity |]. split; [constructor |].
      intros df Hdf.
      assert (df = tagged year sess (smp :: rows)) as -> by congruence.
      split; [discriminate |].
      apply List.Forall_forall. intros r Hr. apply in_map_iff in Hr.
      destruct Hr as (o & <- & Ho). unfold tagged in Ho. apply in_map_iff in Ho.
      destruct Ho as (smp' & <- & _). split; [exact I | reflexivity].
    + eexists _, _. split; [reflexivity |]. split; [repeat constructor | discriminate].
Qed.

Lemma is_print_fastf1_chatter evs : Forall is_print evs -> Forall fastf1_chatter evs.
Proof.
  intros H. eapply Forall_impl; [exact H |]. intros ev. destruct ev; simpl; auto.
Qed.

Lemma is_print_sessions_loaded evs : Forall is_print evs -> sessions_loaded evs = [].
Proof.
  induction 1 as [| ev rest Hev _ IH]; [reflexivity |].
  destruct ev; try destruct Hev; exact IH.
Qed.

(** The loop of lines 166-175 loads the session of each year once, in
    order, and keeps one frame for each year that has weather. *)
Lemma collect_fastf1_frames_loop years : forall acc s,
  yields (for_each years
            (fun all_weather_data year =>
               try_except
                 (weather_df <- get_weather_from_fastf1 year ;;
                  match weather_df with
                  | Some df =>
                      print ("Collected FastF1 weather data for " +:+ Py.str year) ;;
                      ret (all_weather_data ++ [map FromFastF1 df])
                  | None =>
                      print ("No FastF1 weather data for " +:+ Py.str year) ;;
                      ret all_weather_data
                  end)
                 any_Exception
                 (fun e =>
                    print ("Error collecting FastF1 weather data for " +:+ Py.str year
                           +:+ ": " +:+ Py.exn_text e) ;;
                    ret all_weather_data))
            acc) s
    (fun frames evs s' =>
       s' = after evs s /\ Forall fastf1_chatter evs /\
       sessions_loaded evs = years /\
       exists covered new,
         frames = acc ++ new /\ sublist covered years /\
         Forall2 frame_of_year covered new)
    no_exception.
Proof.
  induction years as [| year rest IH]; intros acc s; simpl.
  - apply yields_ret. rewrite after_nil. repeat split; [constructor |].
    exists [], []. rewrite app_nil_r. repeat split; constructor.
  - apply yields_bind, yields_try_except, yields_bind.
    destruct (get_weather_from_fastf1_events year s) as (r & prints & Hrun & Hprints & Hr).
    unfold yields at 1. rewrite Hrun.
    pose proof (is_print_fastf1_chatter _ Hprints) as Hchat.
    exists (LoadSession year :: prints).
    split; [apply extends_after, (fastf1_chatter_written (LoadSession year :: prints));
            constructor; [exact I | exact Hchat] |].
    assert (Hloaded : sessions_loaded (LoadSession year :: prints) = [year])
      by (simpl; rewrite (is_print_sessions_loaded _ Hprints); reflexivity).
    destruct r as [df |].
    + apply yields_bind, yields_print, yields_ret.
      eapply yields_mono; [apply IH | | intros e evs s' _ []].
      intros frames evs s' _ (-> & Hevs & Hsessions & covered & new & -> & Hsub & Hnew).
      rewrite !after_after, !app_nil_r.
      split; [rewrite <- !app_assoc; reflexivity |].
      split; [repeat (apply Forall_app; split); auto; repeat constructor; exact Hchat |].
      split; [rewrite !sessions_loaded_app, Hsessions; simpl;
              rewrite (is_print_sessions_loaded _ Hprints); reflexivity |].
      exists (year :: covered), (map FromFastF1 df :: new).
      rewrite <- app_assoc. split; [reflexivity |].
      split; [apply sublist_skip; exact Hsub |].
      constructor; [apply Hr; reflexivity | exact Hnew].
    + apply yields_bind, yields_print, yields_ret.
      eapply yields_mono; [apply IH | | intros e evs s' _ []].
      intros frames evs s' _ (-> & Hevs & Hsessions & covered & new & -> & Hsub & Hnew).
      rewrite !after_after, !app_nil_r.
      split; [rewrite <- !app_assoc; reflexivity |].
      split; [repeat (apply Forall_app; split); auto; repeat constructor; exact Hchat |].
      split; [rewrite !sessions_loaded_app, Hsessions; simpl;
              rewrite (is_print_sessions_loaded _ Hprints); reflexivity |].
      exists covered, new. split; [reflexivity |].
      split; [apply sublist_cons; exact Hsub | exact Hnew].
Qed.

End FastF1Weather.

(** X8.  Whatever FastF1 does, [get_weather_from_fastf1] returns: it
    loads the session of the year once and then prints at most lines.  It
    returns a table exactly when the session was loaded and has at least
    one weather sample; the table then holds one row per sample, each
    with the requested year, the race 'Singapore' and the date of the
    session.  In every other case (an exception of FastF1, no weather
    table, an empty one) it returns a null result, and it does so exactly
    when it printed a line. *)
Theorem fastf1_weather_lookup {np : Numpy} {up : Upstream} (year : Z) (s : state) :
  let answer := fastf1_session (trace s) year in
  exists r prints,
    weather_data_collector.get_weather_from_fastf1 year s
    = (Py.Ok r, after (LoadSession year :: prints) s) /\
    Forall is_print prints /\
    (forall df, r = Some df <->
                exists sess smp rows,
                  answer = SessionLoaded sess /\
                  weather_data sess = Some (smp :: rows) /\
                  df = tagged year sess (smp :: rows)) /\
    (r = None <-> prints <> []).
Proof.
  intros answer. rewrite get_weather_from_fastf1_run. fold answer.
  destruct answer as [detail | sess].
  - eexists None, _. split; [reflexivity |]. split; [repeat constructor |]. split.
    + intros df. split; [discriminate | intros (sess & smp & rows & H & _); discriminate].
    + split; [discriminate | reflexivity].
  - destruct (weather_data sess) as [[| smp rows] |] eqn:Hweather.
    + eexists None, _. split; [reflexivity |]. split; [repeat constructor |]. split.
      * intros df. split; [discriminate |].
        intros (sess' & smp & rows & H & Hw & _). injection H as <-. congruence.
      * split; [discriminate | reflexivity].
    + eexists (Some _), []. split; [reflexivity |]. split; [constructor |]. split.
      * intros df. split.
        -- intros H. exists sess, smp, rows. repeat split; congruence.
        -- intros (sess' & smp' & rows' & H & Hw & ->). injection H as <-.
           rewrite Hweather in Hw. injection Hw as <- <-. reflexivity.
      * split; [discriminate | intros H; destruct H; reflexivity].
    + eexists None, _. split; [reflexivity |]. split; [repeat constructor |]. split.
      * intros df. split; [discriminate |].
        intros (sess' & smp & rows & H & Hw & _). injection H as <-. congruence.
      * split; [discriminate | reflexivity].
Qed.

Section WeatherTraces.
Context {np : Numpy} {up : Upstream}.
Import weather_data_collector.

Lemma observed_frames_run years use_fastf1 s :
  yields (observed_frames years use_fastf1) s
    (fun frames evs s' =>
       s' = after evs s /\ Forall fastf1_chatter evs /\
       sessions_loaded evs = (if use_fastf1 then years else []) /\
       (use_fastf1 = false -> frames = []) /\
       exists covered, sublist covered years /\ Forall2 frame_of_year covered frames)
    no_exception.
Proof.
  unfold observed_frames. destruct use_fastf1.
  - apply yields_bind, yields_print.
    eapply yields_mono; [apply collect_fastf1_frames_loop | | intros e evs s' _ []].
    intros frames evs s' _ (-> & Hevs & Hsessions & covered & new & -> & Hsub & Hnew).
    rewrite after_after. split; [reflexivity |].
    split; [constructor; [exact I | exact Hevs] |].
    split; [exact Hsessions |]. split; [discriminate |]. exists covered. auto.
  - apply yields_ret. rewrite after_nil. repeat split; [constructor |].
    exists []. split; [apply sublist_nil_l | constructor].
Qed.

Lemma Forall2_length_le {A B : Type} (P : A -> B -> Prop) l1 l2 l :
  Forall2 P l1 l2 -> sublist l1 l -> (length l2 <= length l)%nat.
Proof.
  intros Hall Hsub. apply Forall2_length in Hall. apply sublist_length in Hsub. lia.
Qed.

End WeatherTraces.

(** X9.  Whatever FastF1 does, the FastF1 phase of the weather collector
    returns.  When enabled it loads the session of every requested year
    exactly once, in the order of the request, also after a year failed;
    it keeps one frame for some of the requested years, in their order,
    each frame with at least one row and all its rows from FastF1 and of
    that year.  So the number of frames, which the coverage test counts,
    never exceeds the number of requested years.  When disabled it loads
    nothing and keeps no frame. *)
Theorem fastf1_phase_covers_requested_years {np : Numpy} {up : Upstream}
    (years : list Z) (use_fastf1 : bool) (s : state) :
  exists frames evs covered,
    weather_data_collector.observed_frames years use_fastf1 s
    = (Py.Ok frames, after evs s) /\
    Forall fastf1_chatter evs /\
    sessions_loaded evs = (if use_fastf1 then years else []) /\
    sublist covered years /\
    Forall2 frame_of_year covered frames /\
    (length frames <= length years)%nat /\
    (use_fastf1 = false -> frames = []).
Proof.
  destruct (yields_returns _ _ _ (observed_frames_run years use_fastf1 s))
    as (frames & s' & evs & Hrun & _ & -> & Hevs & Hsessions & Hoff & covered & Hsub
        & Hall).
  exists frames, evs, covered. repeat split; auto.
  eapply Forall2_length_le; eassumption.
Qed.

(** ** The whole weather collector *)

Section WeatherRuns.
Context {np : Numpy} {up : Upstream}.
Import weather_data_collector.

Lemma extends_of_trace (s s' : state) evs :
  trace s' = trace s ++ evs -> files s' = files s -> written evs = [] ->
  extends s evs s'.
Proof.
  intros Ht Hf Hw. split; [exact Ht |]. rewrite Hw, Hf.
  split; [reflexivity | intros path []].
Qed.

(** The generator after the synthetic records of [years] were made. *)
Lemma synthetic_loop_rng years : forall acc (s : state),
  Forall valid_seed years ->
  exists s',
    for_each years
      (fun weather_data year =>
         weather_record <- synthetic_record year ;;
         ret (weather_data ++ [weather_record]))
      acc s
    = (Py.Ok (acc ++ map synthetic_of years), s') /\
    trace s' = trace s /\ files s' = files s /\
    rng s' = match years with
             | [] => rng s
             | _ :: _ => generator_after (draws_of (List.last years 0))
             end.
Proof.
  induction years as [| year rest IH]; intros acc s Hvalid.
  - exists s. simpl. rewrite app_nil_r. auto.
  - inversion Hvalid as [| ? ? Hyear Hrest]; subst.
    apply valid_seed_test in Hyear.
    cbn [for_each]. unfold bind at 1. unfold bind at 1.
    rewrite synthetic_record_run, Hyear. cbn [ret].
    destruct (IH (acc ++ [synthetic_of year])
                {| trace := trace s; files := files s;
                   rng := generator_after (draws_of year) |} Hrest)
      as (s' & Hrun & Ht & Hf & Hr).
    exists s'. rewrite Hrun, <- app_assoc. split; [reflexivity |].
    split; [exact Ht |]. split; [exact Hf |].
    rewrite Hr. destruct rest; reflexivity.
Qed.

Lemma yields_create_synthetic years s
    (Q : list weather_record -> list event -> state -> Prop) E :
  (Forall valid_seed years ->
   forall s', files s' = files s -> Q (map synthetic_of years) [synthetic_banner] s') ->
  (~ Forall valid_seed years ->
   forall s', files s' = files s -> E Py.ValueError [synthetic_banner] s') ->
  yields (create_synthetic_weather_data years) s Q E.
Proof.
  intros HQ HE. unfold yields, create_synthetic_weather_data, bind, print, emit.
  pose proof (synthetic_loop years []
                (after [Print "Creating synthetic weather data based on Singapore climate patterns..."] s))
    as H.
  unfold wpe in H. fold (after [Print "Creating synthetic weather data based on Singapore climate patterns..."] s).
  destruct (for_each years _ [] _) as [[recs | e] s'].
  - destruct H as (-> & Hvalid & Ht & Hf). exists [synthetic_banner].
    split; [apply extends_of_trace; auto | apply HQ; [exact Hvalid | exact Hf]].
  - destruct H as (-> & Hno & Ht & Hf). exists [synthetic_banner].
    split; [apply extends_of_trace; auto | apply HE; [exact Hno | exact Hf]].
Qed.

(** Every run of [collect_weather_data]. *)
Lemma collect_weather_data_run self years use_fastf1 use_synthetic s :
  let ys := requested_years years in
  yields (collect_weather_data self years use_fastf1 use_synthetic) s
    (fun r evs s' =>
       exists frames covered,
         sublist covered ys /\ Forall2 frame_of_year covered frames /\
         r = combined (candidates ys use_synthetic frames) /\
         files s' = saved self (candidates ys use_synthetic frames) (files s) /\
         written evs = match r with Some _ => [weather_csv self] | None => [] end /\
         requested evs = [] /\
         sessions_loaded evs = (if use_fastf1 then ys else []) /\
         (use_fastf1 = false -> frames = []) /\
         (use_synthetic && below_half_coverage frames ys = true ->
          Forall valid_seed ys))
    (fun e evs s' =>
       e = Py.ValueError /\ written evs = [] /\ files s' = files s /\
       use_synthetic = true /\ ~ Forall valid_seed ys).
Proof.
  intros ys. unfold collect_weather_data. fold ys.
  apply yields_bind, yields_print, yields_bind.
  eapply yields_mono; [apply observed_frames_run | | intros e evs s' _ []].
  intros frames evs1 s1 _ (-> & Hevs1 & Hsessions & Hoff & covered & Hsub & Hall).
  pose proof (fastf1_chatter_written _ Hevs1) as Hw1.
  pose proof (fastf1_chatter_requested _ Hevs1) as Hr1.
  apply yields_bind. unfold fill_gaps, candidates.
  destruct (use_synthetic && below_half_coverage frames ys) eqn:Htrigger.
  - apply yields_bind, yields_print, yields_bind, yields_create_synthetic.
    + intros Hvalid s2 Hf2. apply yields_ret. unfold combine_and_save.
      destruct (frames ++ [map FromSynthetic (map synthetic_of ys)])
        as [| frame more] eqn:Hall'; [destruct frames; discriminate |].
      apply yields_bind, yields_to_csv, yields_bind, yields_print, yields_bind,
        yields_print, yields_ret.
      exists frames, covered. unfold combined, saved, combined.
      rewrite Htrigger. unfold synthetic_batch. rewrite Hall'.
      cbn [files after]. rewrite !written_app, !requested_app, !sessions_loaded_app, Hw1, Hr1,
        Hsessions, Hf2.
      repeat split; auto. simpl. rewrite !app_nil_r. reflexivity.
    + intros Hno s2 Hf2. cbn [files after] in Hf2. rewrite !written_app, Hw1.
      apply andb_prop in Htrigger. destruct Htrigger as [-> _]. repeat split; auto.
  - apply yields_ret. unfold combine_and_save, combined, saved.
    destruct frames as [| frame more].
    + apply yields_bind, yields_print, yields_ret. exists [], covered.
      unfold combined, saved, combined. rewrite Htrigger.
      rewrite !written_app, !requested_app, !sessions_loaded_app, Hw1, Hr1, Hsessions.
      simpl. rewrite !app_nil_r. repeat split; auto. discriminate.
    + apply yields_bind, yields_to_csv, yields_bind, yields_print, yields_bind,
        yields_print, yields_ret.
      exists (frame :: more), covered.
      unfold combined, saved, combined. rewrite Htrigger.
      rewrite !written_app, !requested_app, !sessions_loaded_app, Hw1, Hr1, Hsessions.
      simpl. rewrite !app_nil_r. repeat split; auto. discriminate.
Qed.

End WeatherRuns.

Section WeatherTables.
Context {np : Numpy} {up : Upstream}.
Import weather_data_collector.

Lemma in_drop_duplicates rows r : In r (drop_duplicates rows) -> In r rows.
Proof. intros H. apply in_drop_duplicates_from in H. apply H. Qed.

Lemma drop_duplicates_nonempty rows : rows <> [] -> drop_duplicates rows <> [].
Proof. destruct rows as [| r rest]; [congruence | discriminate]. Qed.

Lemma in_frames_requested covered frames years r :
  sublist covered years -> Forall2 frame_of_year covered frames ->
  In r (concat frames) -> In (col_Year r) years.
Proof.
  intros Hsub Hall Hr. apply in_concat in Hr. destruct Hr as (frame & Hframe & Hr).
  revert Hsub. induction Hall as [| year frame0 covered' frames' [_ Hrows] _ IH];
    intros Hsub; [destruct Hframe |].
  destruct Hframe as [-> | Hframe].
  - rewrite List.Forall_forall in Hrows. destruct (Hrows r Hr) as [_ ->].
    eapply sublist_In; [exact Hsub | left; reflexivity].
  - apply IH; [exact Hframe |].
    transitivity (year :: covered'); [apply sublist_cons; reflexivity | exact Hsub].
Qed.

Lemma in_candidates_requested covered frames years use_synthetic r :
  sublist covered years -> Forall2 frame_of_year covered frames ->
  In r (concat (candidates years use_synthetic frames)) -> In (col_Year r) years.
Proof.
  intros Hsub Hall Hr. rewrite concat_candidates in Hr. apply in_app_or in Hr.
  destruct Hr as [Hr | Hr]; [eapply in_frames_requested; eassumption |].
  destruct (use_synthetic && below_half_coverage frames years); [| destruct Hr].
  apply in_synthetic_batch in Hr. destruct Hr as (year & Hyear & ->). exact Hyear.
Qed.

Lemma candidates_concat_nonempty covered frames years use_synthetic :
  Forall2 frame_of_year covered frames ->
  candidates years use_synthetic frames <> [] ->
  concat (candidates years use_synthetic frames) <> [].
Proof.
  intros Hall Hne. rewrite concat_candidates.
  destruct Hall as [| year frame covered' frames' [Hframe _] _].
  - unfold candidates in Hne. simpl in *.
    destruct (use_synthetic && below_half_coverage [] years) eqn:Htrigger;
      [| congruence].
    apply andb_prop in Htrigger. destruct Htrigger as [_ Hbelow].
    apply below_half_nonempty in Hbelow. destruct years; [congruence | discriminate].
  - simpl. destruct frame; [congruence | discriminate].
Qed.

End WeatherTables.

(** X10.  A weather table that [collect_weather_data] returns is never
    empty, holds only years that were requested, and has at most as many
    rows as years were requested. *)
Theorem weather_table_holds_requested_years {np : Numpy} {up : Upstream}
    (self : weather_data_collector.WeatherDataCollector)
    (years : option (list Z)) (use_fastf1 use_synthetic : bool)
    (s s' : state) (table : list weather_row) :
  weather_data_collector.collect_weather_data self years use_fastf1 use_synthetic s
  = (Py.Ok (Some table), s') ->
  table <> [] /\
  (forall r, In r table -> In (col_Year r) (weather_data_collector.requested_years years)) /\
  (length table <= length (weather_data_collector.requested_years years))%nat.
Proof.
  intros Hrun.
  destruct (yields_of_run _ _ _ _ _ _
              (collect_weather_data_run self years use_fastf1 use_synthetic s) Hrun)
    as (evs & _ & frames & covered & Hsub & Hall & Hr & _).
  set (ys := weather_data_collector.requested_years years) in *.
  assert (Hne : candidates ys use_synthetic frames <> [])
    by (intros Hnil; rewrite Hnil in Hr; discriminate).
  symmetry in Hr. apply combined_Some in Hr. destruct Hr as [-> _].
  assert (Hyears : forall r,
             In r (weather_data_collector.drop_duplicates
                     (concat (candidates ys use_synthetic frames))) ->
             In (col_Year r) ys).
  { intros r Hr. apply in_drop_duplicates in Hr.
    eapply in_candidates_requested; eassumption. }
  split; [| split; [exact Hyears |]].
  - apply drop_duplicates_nonempty.
    eapply candidates_concat_nonempty; eassumption.
  - rewrite <- (length_map col_Year).
    apply NoDup_incl_length; [apply drop_duplicates_NoDup |].
    intros y Hy. apply in_map_iff in Hy. destruct Hy as (r & <- & Hr).
    apply Hyears. exact Hr.
Qed.

(** X11.  With synthesis enabled (the default) and requested years that
    numpy accepts as seeds, [collect_weather_data] returns, whatever
    FastF1 does, and its result is null exactly when no year was
    requested; it then wrote nothing.  So with the default flags the
    weather file is missing after a run only for an empty request. *)
Theorem weather_result_null_only_without_years {np : Numpy} {up : Upstream}
    (self : weather_data_collector.WeatherDataCollector)
    (years : option (list Z)) (use_fastf1 : bool) (s : state) :
  let ys := weather_data_collector.requested_years years in
  Forall valid_seed ys ->
  exists r s',
    weather_data_collector.collect_weather_data self years use_fastf1 true s
    = (Py.Ok r, s') /\
    (r = None <-> ys = []) /\
    (r = None -> files s' = files s) /\
    (forall table, r = Some table ->
       files s' = <[weather_data_collector.weather_csv self := WeatherRows table]>
                    (files s)).
Proof.
  intros ys Hvalid.
  pose proof (collect_weather_data_run self years use_fastf1 true s) as H.
  fold ys in H. unfold yields in H.
  destruct (weather_data_collector.collect_weather_data self years use_fastf1 true s)
    as [[r | e] s']; destruct H as (evs & _ & H);
    [| destruct H as (_ & _ & _ & _ & Hno); contradiction].
  destruct H as (frames & covered & Hsub & Hall & Hr & Hfiles & _).
  exists r, s'. split; [reflexivity |].
  unfold saved in Hfiles. rewrite <- Hr in Hfiles.
  split; [| split].
  - subst r. unfold combined, candidates. simpl andb.
    destruct (weather_data_collector.below_half_coverage frames ys) eqn:Hbelow.
    + split.
      * destruct frames; discriminate.
      * intros Hnil. apply below_half_nonempty in Hbelow. contradiction.
    + destruct frames as [| frame more].
      * split; [intros _ | reflexivity].
        unfold weather_data_collector.below_half_coverage, len in Hbelow.
        apply Z.ltb_ge in Hbelow. simpl in Hbelow.
        destruct ys; [reflexivity | simpl in Hbelow; lia].
      * split; [discriminate |]. intros Hnil. rewrite Hnil in Hsub.
        apply sublist_nil_r in Hsub. subst covered. inversion Hall.
  - intros ->. exact Hfiles.
  - intros table ->. exact Hfiles.
Qed.


(** X13.  [create_synthetic_weather_data] reseeds numpy's global
    generator for every year: on years that are seeds it prints one line,
    writes nothing, and leaves the generator in the state that the draws
    for the last year left it in, whatever state it had before; on an
    empty list it leaves the generator alone. *)
Theorem synthetic_generation_reseeds {np : Numpy} (years : list Z) (s : state) :
  Forall valid_seed years ->
  exists s',
    weather_data_collector.create_synthetic_weather_data years s
    = (Py.Ok (map synthetic_of years), s') /\
    trace s' = trace s ++ [synthetic_banner] /\
    files s' = files s /\
    rng s' = match years with
             | [] => rng s
             | _ :: _ => generator_after (draws_of (List.last years 0))
             end.
Proof.
  intros Hvalid. unfold weather_data_collector.create_synthetic_weather_data.
  unfold bind at 1. unfold print, emit.
  destruct (synthetic_loop_rng years []
              {| trace := trace s ++ [Print "Creating synthetic weather data based on Singapore climate patterns..."];
                 files := files s; rng := rng s |} Hvalid)
    as (s' & Hrun & Ht & Hf & Hr).
  exists s'. rewrite Hrun. auto.
Qed.

(** ** The FastF1 results of the orchestrator *)

Section ResultsSubset.
Import Py run_data_collection.

Lemma select_columns_sublist cols r : sublist (columns (select_columns cols r)) cols.
Proof.
  unfold select_columns. induction cols as [| col rest IH]; simpl; [constructor |].
  destruct (lookup_key col r); simpl; [apply sublist_skip | apply sublist_cons]; exact IH.
Qed.

Lemma cell_app col (r1 r2 : row) :
  cell col (r1 ++ r2) = match cell col r1 with Some v => Some v | None => cell col r2 end.
Proof.
  unfold cell. induction r1 as [| [k v] rest IH]; simpl; [reflexivity |].
  destruct (String.eqb col k); [reflexivity | exact IH].
Qed.

Lemma cell_select_columns col cols r :
  cell col (select_columns cols r)
  = if existsb (String.eqb col) cols then cell col r else None.
Proof.
  unfold select_columns. induction cols as [| c rest IH]; simpl; [reflexivity |].
  rewrite cell_app, IH.
  destruct (String.eqb_spec col c) as [-> | Hne]; simpl.
  - unfold cell at 1 3. destruct (lookup_key c r) as [v |] eqn:Hc; simpl.
    + rewrite String.eqb_refl. reflexivity.
    + unfold cell. rewrite Hc. destruct (existsb (String.eqb c) rest); reflexivity.
  - destruct (lookup_key c r) as [v |]; simpl; [| reflexivity].
    destruct (String.eqb_spec col c); [contradiction | reflexivity].
Qed.

End ResultsSubset.

(** X14.  Of each row of a session's results the orchestrator keeps the
    columns of [cols_to_keep] that the row has, in the order of that
    list, and drops every other column.  Year, Race and Date are always
    kept: they hold the requested year, 'Singapore' and the date of the
    session, whatever the results held under these names; every other
    kept column holds what the results held. *)
Theorem fastf1_results_columns (year : Z) (session_date : string) (r : Py.row) :
  let kept := run_data_collection.results_subset_of year session_date r in
  sublist (columns kept) run_data_collection.cols_to_keep /\
  cell "Year" kept = Some (Py.VInt year) /\
  cell "Race" kept = Some (Py.VStr "Singapore") /\
  cell "Date" kept = Some (Py.VStr session_date) /\
  (forall col,
      In col run_data_collection.cols_to_keep ->
      ~ In col ["Year"; "Race"; "Date"] ->
      cell col kept = cell col r) /\
  (forall col, ~ In col run_data_collection.cols_to_keep -> cell col kept = None).
Proof.
  intros kept. unfold kept, run_data_collection.results_subset_of.
  split; [apply select_columns_sublist |].
  repeat split.
  - rewrite cell_select_columns, !cell_dict_set. reflexivity.
  - rewrite cell_select_columns, !cell_dict_set. reflexivity.
  - rewrite cell_select_columns, !cell_dict_set. reflexivity.
  - intros col Hin Hnot. rewrite cell_select_columns, !cell_dict_set.
    assert (Hcol : existsb (String.eqb col) run_data_collection.cols_to_keep = true).
    { apply existsb_exists. exists col. split; [exact Hin | apply String.eqb_refl]. }
    rewrite Hcol.
    destruct (String.eqb_spec col "Date") as [-> | _];
      [destruct Hnot; simpl; tauto |].
    destruct (String.eqb_spec col "Race") as [-> | _];
      [destruct Hnot; simpl; tauto |].
    destruct (String.eqb_spec col "Year") as [-> | _];
      [destruct Hnot; simpl; tauto | reflexivity].
  - intros col Hnot. rewrite cell_select_columns.
    destruct (existsb (String.eqb col) run_data_collection.cols_to_keep) eqn:Hcol;
      [| reflexivity].
    apply existsb_exists in Hcol. destruct Hcol as (c & Hc & Heq).
    apply String.eqb_eq in Heq. subst c. contradiction.
Qed.

Section FastF1Results.
Context {np : Numpy} {up : Upstream}.
Import run_data_collection.

Lemma yields_load_session year s (Q : session -> list event -> state -> Prop) E :
  (forall sess, fastf1_session (trace s) year = SessionLoaded sess ->
                Q sess [LoadSession year] (after [LoadSession year] s)) ->
  (forall detail, fastf1_session (trace s) year = SessionError detail ->
                  E (Py.OtherException detail) [LoadSession year]
                    (after [LoadSession year] s)) ->
  yields (load_session year) s Q E.
Proof.
  intros HQ HE. unfold yields, load_session.
  destruct (fastf1_session (trace s) year) as [detail | sess];
    exists [LoadSession year];
    (split; [apply (extends_after s [LoadSession year]); reflexivity | auto]).
Qed.

(** The loop of lines 61-84 loads the session of each year once, in
    order, whatever happened to the years before. *)
Lemma collect_singapore_fastf1_loop years :
  let body := fun singapore_results year =>
    try_except
      (print ("  Collecting " +:+ Py.str year +:+ " Singapore GP from FastF1...") ;;
       session <- load_session year ;;
       match results session with
       | None => raise Py.TypeError
       | Some results =>
           let results_subset :=
             map (results_subset_of year (date session)) results in
           ret (singapore_results ++ [results_subset])
       end)
      any_Exception
      (fun e =>
         print ("  Error collecting " +:+ Py.str year +:+ ": " +:+ Py.exn_text e) ;;
         ret singapore_results) in
  forall acc s,
    yields (for_each years body acc) s
      (fun frames evs s' =>
         s' = after evs s /\ Forall fastf1_chatter evs /\
         sessions_loaded evs = years /\
         exists new, frames = acc ++ new /\ Forall (results_frame_of years) new)
      no_exception.
Proof.
  intros body. induction years as [| year rest IH]; intros acc s; cbn [for_each].
  - apply yields_ret. rewrite after_nil. repeat split; [constructor |].
    exists []. rewrite app_nil_r. split; [reflexivity | constructor].
  - assert (Hrest : forall acc' first,
               Forall fastf1_chatter first -> sessions_loaded first = [year] ->
               (exists new0, acc' = acc ++ new0 /\
                             Forall (results_frame_of (year :: rest)) new0) ->
               yields (for_each rest body acc') (after first s)
                 (fun frames evs s' =>
                    s' = after (first ++ evs) s /\
                    Forall fastf1_chatter (first ++ evs) /\
                    sessions_loaded (first ++ evs) = year :: rest /\
                    exists new, frames = acc ++ new /\
                                Forall (results_frame_of (year :: rest)) new)
                 no_exception).
    { intros acc' first Hfirst Hloaded (new0 & -> & Hnew0).
      eapply yields_mono; [apply IH | | intros e evs s' _ []].
      intros frames evs s' _ (-> & Hevs & Hsessions & new & -> & Hnew).
      rewrite after_after. split; [reflexivity |].
      split; [apply Forall_app; auto |].
      split; [rewrite sessions_loaded_app, Hloaded, Hsessions; reflexivity |].
      exists (new0 ++ new). rewrite app_assoc. split; [reflexivity |].
      apply Forall_app. split; [exact Hnew0 |].
      eapply Forall_impl; [exact Hnew |].
      intros frame (y & d & results & Hy & ->). exists y, d, results.
      split; [right; exact Hy | reflexivity]. }
    apply yields_bind. unfold body at 1.
    apply yields_try_except, yields_bind, yields_print, yields_bind,
      yields_load_session.
    + intros sess _. destruct (results sess) as [results |].
      * apply yields_ret. rewrite after_after.
        eapply yields_mono;
          [apply (Hrest _ ([Print _] ++ [LoadSession year]));
           [repeat constructor | reflexivity |] | |].
        -- exists [map (results_subset_of year (date sess)) results].
           split; [reflexivity |]. constructor; [| constructor].
           exists year, (date sess), results. split; [left |]; reflexivity.
        -- intros frames evs s' _ H. rewrite !app_nil_r. exact H.
        -- intros e evs s' _ [].
      * apply yields_raise. simpl. apply yields_bind, yields_print, yields_ret.
        rewrite !after_after.
        eapply yields_mono;
          [apply (Hrest _ (([Print _] ++ [LoadSession year] ++ []) ++ [Print _] ++ []));
           [repeat constructor | reflexivity |] | |].
        -- exists []. rewrite app_nil_r. split; [reflexivity | constructor].
        -- intros frames evs s' _ H. exact H.
        -- intros e evs s' _ [].
    + intros detail _. simpl. apply yields_bind, yields_print, yields_ret.
      rewrite !after_after.
      eapply yields_mono;
        [apply (Hrest _ (([Print _] ++ [LoadSession year]) ++ [Print _] ++ []));
         [repeat constructor | reflexivity |] | |].
      * exists []. rewrite app_nil_r. split; [reflexivity | constructor].
      * intros frames evs s' _ H. exact H.
      * intros e evs s' _ [].
Qed.

End FastF1Results.

Section FastF1ResultsRun.
Context {np : Numpy} {up : Upstream}.
Import run_data_collection.

Lemma collect_singapore_fastf1_run data_dir s :
  let path := data_dir +:+ "/" +:+ "singapore_gp_results_fastf1_2008_2024.csv" in
  yields (collect_singapore_fastf1 data_dir) s
    (fun r evs s' =>
       sessions_loaded evs = range 2008 2025 /\
       requested evs = [] /\
       written evs = present [path] [r] /\
       files s' = directory_after path r (files s) /\
       exists frames,
         Forall (results_frame_of (range 2008 2025)) frames /\
         r = match frames with [] => None | _ :: _ => Some (concat frames) end)
    no_exception.
Proof.
  intros path. unfold collect_singapore_fastf1. apply yields_bind.
  eapply yields_mono;
    [apply collect_singapore_fastf1_loop | | intros e evs s' _ []].
  intros frames evs s1 _ (-> & Hevs & Hsessions & new & -> & Hnew).
  pose proof (fastf1_chatter_written _ Hevs) as Hw.
  pose proof (fastf1_chatter_requested _ Hevs) as Hr.
  simpl app. destruct new as [| frame more].
  - apply yields_ret. rewrite app_nil_r. repeat split; auto.
    exists []. split; [constructor | reflexivity].
  - apply yields_bind, yields_to_csv, yields_bind, yields_print, yields_ret.
    rewrite !sessions_loaded_app, !requested_app, !written_app, Hsessions, Hw, Hr.
    simpl. rewrite ?app_nil_r. repeat split; auto.
    exists (frame :: more). split; [exact Hnew | reflexivity].
Qed.

End FastF1ResultsRun.


(** ** The summary of the orchestrator *)

Section Summary.
Context {np : Numpy} {up : Upstream}.
Import run_data_collection.

(** A file that cannot be read has no record to count. *)
Lemma read_csv_rows t :
  match read_csv t with
  | Py.Ok records => records = rows_of t
  | Py.Raise _ => rows_of t = 0
  end.
Proof. destruct t as [[| r f] | rows]; reflexivity. Qed.

Lemma summary_listing data_files : forall total s,
  yields (for_each data_files
            (fun total_records file =>
               try_except
                 (records <- lift (read_csv (snd file)) ;;
                  print ("  " +:+ fst file +:+ ": " +:+ Py.str records
                         +:+ " records") ;;
                  ret (total_records + records))
                 any_Exception
                 (fun e =>
                    print ("  " +:+ fst file +:+ ": Error reading file - "
                           +:+ Py.exn_text e) ;;
                    ret total_records))
            total) s
    (fun total_records listing s' =>
       total_records = total + total_rows data_files /\
       s' = after listing s /\
       Forall is_print listing /\ length listing = length data_files)
    no_exception.
Proof.
  induction data_files as [| file rest IH]; intros total s; cbn [for_each].
  - apply yields_ret. rewrite after_nil. simpl. rewrite Z.add_0_r.
    repeat split. constructor.
  - pose proof (read_csv_rows (snd file)) as Hrows.
    apply yields_bind, yields_try_except, yields_bind, yields_lift.
    destruct (read_csv (snd file)) as [records | e].
    + apply yields_bind, yields_print, yields_ret.
      eapply yields_mono; [apply IH | | intros e evs s' _ []].
      intros t listing s' _ (-> & -> & Hprints & Hlen).
      rewrite after_after. simpl. rewrite Hrows, Hlen.
      split; [lia |]. split; [reflexivity |]. split; [| reflexivity].
      constructor; [exact I | exact Hprints].
    + cbn [any_Exception]. apply yields_bind, yields_print, yields_ret.
      eapply yields_mono; [apply IH | | intros e' evs s' _ []].
      intros t listing s' _ (-> & -> & Hprints & Hlen).
      rewrite after_after. simpl. rewrite Hrows, Hlen.
      split; [lia |]. split; [reflexivity |]. split; [| reflexivity].
      constructor; [exact I | exact Hprints].
Qed.

Lemma yields_path_exists path s (Q : bool -> list event -> state -> Prop) E :
  Q (bool_decide (is_Some (files s !! path))) [] s ->
  yields (path_exists path) s Q E.
Proof. intros H. exists []. split; [apply extends_refl | exact H]. Qed.

Lemma yields_key_file data_dir key_file (fs : gmap string table) s
    (Q : unit -> list event -> state -> Prop) E :
  files s = fs ->
  Q tt [key_file_status data_dir fs key_file]
    (after [key_file_status data_dir fs key_file] s) ->
  yields (present <- path_exists (data_dir +:+ "/" +:+ key_file) ;;
          if present : bool
          then print ("  " +:+ key_file)
          else print ("  " +:+ key_file +:+ " (missing)")) s Q E.
Proof.
  intros <- H. apply yields_bind, yields_path_exists. unfold key_file_status in H.
  destruct (files s !! (data_dir +:+ "/" +:+ key_file)) as [t |] eqn:Hfile.
  - rewrite bool_decide_eq_true_2 by eauto. apply yields_print. exact H.
  - rewrite bool_decide_eq_false_2 by (intros [t Ht]; discriminate).
    apply yields_print. exact H.
Qed.

Lemma validate_and_summarize_run data_dir s :
  let data_files := csv_files data_dir (files s) in
  yields (validate_and_summarize data_dir) s
    (fun _ evs s' =>
       s' = after evs s /\
       exists listing,
         evs = [Print (newline +:+ "Collected " +:+ Py.str (len data_files)
                       +:+ " data files:")]
               ++ listing
               ++ [Print (newline +:+ "Total records collected: "
                          +:+ Py.str (total_rows data_files));
                   Print (newline +:+ "Key data files status:")]
               ++ map (key_file_status data_dir (files s)) key_files /\
         Forall is_print listing /\ length listing = length data_files)
    no_exception.
Proof.
  intros data_files. unfold validate_and_summarize. apply yields_bind.
  exists []. split; [apply extends_refl |]. fold (csv_files data_dir (files s)).
  fold data_files. apply yields_bind, yields_print, yields_bind.
  eapply yields_mono; [apply summary_listing | | intros e evs s' _ []].
  intros total listing s1 _ (-> & -> & Hprints & Hlen).
  apply yields_bind, yields_print, yields_bind, yields_print.
  unfold key_files. cbn [for_each].
  apply yields_bind, (yields_key_file data_dir _ (files s)); [reflexivity |].
  apply yields_bind, (yields_key_file data_dir _ (files s)); [reflexivity |].
  apply yields_bind, (yields_key_file data_dir _ (files s)); [reflexivity |].
  apply yields_bind, (yields_key_file data_dir _ (files s)); [reflexivity |].
  apply yields_ret. rewrite !after_after. split.
  - f_equal; simpl; rewrite ?app_nil_r; reflexivity.
  - exists listing. split; [| split; assumption].
    simpl. rewrite ?app_nil_r, <- ?app_assoc. reflexivity.
Qed.

End Summary.

(** X16.  [validate_and_summarize] returns, whatever is in the directory,
    and changes nothing.  It prints the number of [*.csv] files directly
    in the data directory, then one line per file, then the total, which
    is the sum of the numbers of records of these files (a file that
    cannot be read counts for none), and last the checklist: for each of
    the four key files one line, marked missing exactly when the file is
    not there.  The circuit, schedule and FastF1 files are not on the
    checklist.  (The lines are modelled without their pictograms, the
    numbers without digit grouping, the file sizes not at all.) *)
Theorem summary_reports_the_directory {np : Numpy} {up : Upstream}
    (data_dir : string) (s : state) :
  let data_files := csv_files data_dir (files s) in
  exists listing,
    run_data_collection.validate_and_summarize data_dir s
    = (Py.Ok tt,
       after ([Print (newline +:+ "Collected " +:+ Py.str (len data_files)
                      +:+ " data files:")]
              ++ listing
              ++ [Print (newline +:+ "Total records collected: "
                         +:+ Py.str (total_rows data_files));
                  Print (newline +:+ "Key data files status:")]
              ++ map (key_file_status data_dir (files s))
                   run_data_collection.key_files) s) /\
    Forall is_print listing /\
    length listing = length data_files.
Proof.
  intros data_files.
  destruct (yields_returns _ _ _ (validate_and_summarize_run data_dir s))
    as ([] & s' & evs & Hrun & _ & -> & listing & -> & Hprints & Hlen).
  exists listing. fold data_files in Hlen. auto.
Qed.

(** ** The weather theorems on runs that can be evaluated *)

Lemma weather_table_holds_requested_years_witness :
  exists table,
    fst (weather_data_collector.collect_weather_data
           (np := Fixtures.counting_numpy) (up := Fixtures.only_2020)
           weather_collector (Some [2020; 2021; 2022]) true true
           Fixtures.fresh_state)
    = Py.Ok (Some table) /\
    table <> [] /\
    (forall r, In r table -> In (col_Year r) [2020; 2021; 2022]) /\
    (length table <= 3)%nat.
Proof.
  destruct (weather_data_collector.collect_weather_data
              (np := Fixtures.counting_numpy) (up := Fixtures.only_2020)
              weather_collector (Some [2020; 2021; 2022]) true true
              Fixtures.fresh_state) as [[[table |] | e] s'] eqn:Hrun;
    [| vm_compute in Hrun; discriminate | vm_compute in Hrun; discriminate].
  exists table. split; [reflexivity |].
  exact (weather_table_holds_requested_years
           (np := Fixtures.counting_numpy) (up := Fixtures.only_2020)
           weather_collector (Some [2020; 2021; 2022]) true true
           Fixtures.fresh_state s' table Hrun).
Defined.

Lemma weather_result_null_only_without_years_witness :
  Forall valid_seed [2020; 2021] /\
  exists r s',
    weather_data_collector.collect_weather_data
      (np := Fixtures.counting_numpy) (up := Fixtures.unavailable)
      weather_collector (Some [2020; 2021]) true true Fixtures.fresh_state
    = (Py.Ok r, s') /\
    (r = None <-> [2020; 2021] = []) /\
    (r = None -> files s' = files Fixtures.fresh_state) /\
    (forall table, r = Some table ->
       files s' = <[weather_data_collector.weather_csv weather_collector
                    := WeatherRows table]> (files Fixtures.fresh_state)).
Proof.
  assert (Hvalid : Forall valid_seed [2020; 2021])
    by (repeat constructor; unfold valid_seed; lia).
  split; [exact Hvalid |].
  exact (weather_result_null_only_without_years
           (np := Fixtures.counting_numpy) (up := Fixtures.unavailable)
           weather_collector (Some [2020; 2021]) true Fixtures.fresh_state Hvalid).
Defined.


Lemma synthetic_generation_reseeds_witness :
  Forall valid_seed [2020; 2021] /\
  exists s',
    weather_data_collector.create_synthetic_weather_data
      (np := Fixtures.counting_numpy) [2020; 2021] Fixtures.fresh_state
    = (Py.Ok (map (synthetic_of (np := Fixtures.counting_numpy)) [2020; 2021]), s') /\
    trace s' = trace Fixtures.fresh_state ++ [synthetic_banner] /\
    files s' = files Fixtures.fresh_state /\
    rng s' = generator_after (draws_of (np := Fixtures.counting_numpy) 2021).
Proof.
  assert (Hvalid : Forall valid_seed [2020; 2021])
    by (repeat constructor; unfold valid_seed; lia).
  split; [exact Hvalid |].
  exact (synthetic_generation_reseeds
           (np := Fixtures.counting_numpy) [2020; 2021] Fixtures.fresh_state
           Hvalid).
Defined.

(** ** The orchestrator as a whole *)

Section Pipeline.
Context {np : Numpy} {up : Upstream}.

(** Two descriptions of the runs of one computation hold together. *)
Lemma yields_conj {A : Type} (c : M A) s
    (Q Q' : A -> list event -> state -> Prop)
    (E E' : Py.exn -> list event -> state -> Prop) :
  yields c s Q E -> yields c s Q' E' ->
  yields c s (fun a evs s' => Q a evs s' /\ Q' a evs s')
    (fun e evs s' => E e evs s' /\ E' e evs s').
Proof.
  unfold yields. destruct (c s) as [[a | e] s'];
    intros (evs & Hext & H) (evs' & Hext' & H');
    (assert (evs' = evs) as ->
        by (destruct Hext as [Ht _], Hext' as [Ht' _]; rewrite Ht in Ht';
            apply app_inv_head in Ht'; congruence));
    exists evs; auto.
Qed.

Lemma sessions_loaded_ending path saved total nothing r :
  sessions_loaded (ending path saved total nothing r) = [].
Proof. destruct r; reflexivity. Qed.

(** The Ergast collectors never touch FastF1. *)
Lemma looping_run_quiet self years endpoint intro file saved total nothing c s :
  looping_run self years endpoint intro file saved total nothing c s ->
  yields c s (fun _ evs _ => sessions_loaded evs = [])
    (fun _ evs _ => sessions_loaded evs = []).
Proof.
  unfold looping_run. intros H. eapply yields_mono; [exact H | |].
  - intros r evs s' _ (loop & -> & Hloop & _).
    change (sessions_loaded
              (loop ++ ending (ergast_data_collector.data_dir self +:+ "/" +:+ file)
                         saved total nothing r) = []).
    rewrite sessions_loaded_app, sessions_loaded_ending,
      (chatter_sessions_loaded loop Hloop). reflexivity.
  - intros e evs s' _ (loop & done & -> & Hloop & _).
    apply (chatter_sessions_loaded (Print intro :: loop)).
    constructor; [exact I | exact Hloop].
Qed.

Lemma collect_circuit_info_quiet self s :
  yields (ergast_data_collector.collect_circuit_info self) s
    (fun _ evs _ => sessions_loaded evs = [])
    (fun _ evs _ => sessions_loaded evs = []).
Proof.
  unfold ergast_data_collector.collect_circuit_info.
  apply yields_bind, yields_print, yields_bind, yields_make_request.
  intros data rest Hch Hreq. apply yields_bind, yields_lift.
  pose proof (chatter_sessions_loaded rest Hch) as Hs.
  destruct (ergast_data_collector.circuit_records data) as [[records |] | e].
  - apply yields_bind, yields_to_csv, yields_bind, yields_print, yields_bind,
      yields_print, yields_ret.
    simpl. rewrite !sessions_loaded_app, Hs. reflexivity.
  - apply yields_bind, yields_print, yields_ret.
    simpl. rewrite !sessions_loaded_app, Hs. reflexivity.
  - simpl. rewrite !sessions_loaded_app, Hs. reflexivity.
Qed.

Ltac quiet_so_far :=
  cbv beta in *; rewrite ?sessions_loaded_app;
  repeat match goal with
         | H : sessions_loaded _ = _ |- _ => rewrite H; clear H
         end;
  reflexivity.

Lemma collect_all_data_quiet self s :
  yields (ergast_data_collector.collect_all_data self) s
    (fun _ evs _ => sessions_loaded evs = [])
    (fun _ evs _ => sessions_loaded evs = []).
Proof.
  unfold ergast_data_collector.collect_all_data.
  apply yields_bind, yields_print, yields_bind.
  eapply yields_mono;
    [eapply looping_run_quiet;
     apply (looping_collector_run self (range 2008 2025)
              (fun year => "Collecting " +:+ Py.str year +:+ " Singapore GP...")
              results_endpoint ergast_data_collector.singapore_records) | |].
  2: { intros e evs1 s1 _ H1. quiet_so_far. }
  intros r1 evs1 s1 _ H1. apply yields_bind.
  eapply yields_mono;
    [eapply looping_run_quiet;
     apply (looping_collector_run self (ergast_data_collector.default_years None)
              (fun year => "Collecting " +:+ Py.str year +:+ " driver standings...")
              driver_standings_endpoint
              (fun _ => ergast_data_collector.standings_records "DriverStandings"
                          ergast_data_collector.driver_standing_data)) | |].
  2: { intros e evs2 s2 _ H2. quiet_so_far. }
  intros r2 evs2 s2 _ H2. apply yields_bind.
  eapply yields_mono;
    [eapply looping_run_quiet;
     apply (looping_collector_run self (ergast_data_collector.default_years None)
              (fun year => "Collecting " +:+ Py.str year +:+ " constructor standings...")
              constructor_standings_endpoint
              (fun _ => ergast_data_collector.standings_records "ConstructorStandings"
                          ergast_data_collector.constructor_standing_data)) | |].
  2: { intros e evs3 s3 _ H3. quiet_so_far. }
  intros r3 evs3 s3 _ H3. apply yields_bind.
  eapply yields_mono; [apply collect_circuit_info_quiet | |].
  2: { intros e evs4 s4 _ H4. quiet_so_far. }
  intros r4 evs4 s4 _ H4. apply yields_bind.
  eapply yields_mono;
    [eapply looping_run_quiet;
     apply (looping_collector_run self (ergast_data_collector.default_years None)
              (fun year => "Collecting " +:+ Py.str year +:+ " schedule...")
              Py.str ergast_data_collector.schedule_records) | |].
  2: { intros e evs5 s5 _ H5. quiet_so_far. }
  intros r5 evs5 s5 _ H5.
  apply yields_bind, yields_print, yields_bind, yields_print, yields_ret.
  quiet_so_far.
Qed.

Lemma is_print_written evs : Forall is_print evs -> written evs = [].
Proof. intros H. apply fastf1_chatter_written, is_print_fastf1_chatter, H. Qed.

Lemma is_print_requested evs : Forall is_print evs -> requested evs = [].
Proof. intros H. apply fastf1_chatter_requested, is_print_fastf1_chatter, H. Qed.

Lemma key_file_status_prints dir fs files :
  Forall is_print (map (key_file_status dir fs) files).
Proof. apply Forall_map, Forall_forall. intros file _. exact I. Qed.

(** The summary only prints. *)
Lemma validate_and_summarize_prints data_dir s :
  yields (run_data_collection.validate_and_summarize data_dir) s
    (fun _ evs _ => Forall is_print evs) no_exception.
Proof.
  eapply yields_mono;
    [apply validate_and_summarize_run | | intros e evs s' _ []].
  intros [] evs s' _ (_ & listing & -> & Hprints & _).
  repeat (apply Forall_app; split);
    auto using key_file_status_prints; repeat constructor.
Qed.

(** When synthesis is enabled and a year was requested, there is a frame
    to concatenate. *)
Lemma candidates_nonempty years (frames : list (list weather_row)) :
  years <> [] -> candidates years true frames <> [].
Proof.
  intros Hyears. unfold candidates. simpl andb.
  destruct (weather_data_collector.below_half_coverage frames years) eqn:Hbelow.
  - destruct frames; discriminate.
  - unfold weather_data_collector.below_half_coverage, len in Hbelow.
    apply Z.ltb_ge in Hbelow. destruct frames as [| frame more]; [| discriminate].
    destruct years; [contradiction | simpl in Hbelow; lia].
Qed.

Lemma default_years_are_seeds :
  Forall valid_seed (weather_data_collector.requested_years None).
Proof.
  apply List.Forall_forall. intros year Hyear. simpl in Hyear.
  unfold valid_seed. intuition lia.
Qed.

Lemma main_run s :
  yields run_data_collection.main s
    (fun _ evs s' =>
       requested evs = request_plan ergast_collector /\
       sessions_loaded evs = range 2008 2025 ++ range 2008 2025 /\
       sublist (written evs) pipeline_outputs /\
       In (weather_data_collector.weather_csv weather_collector) (written evs))
    (fun _ evs s' =>
       sessions_loaded evs = [] /\
       sublist (written evs) (ergast_outputs ergast_collector)).
Proof.
  unfold run_data_collection.main, run_data_collection.enable_cache,
    ergast_data_collector.init, weather_data_collector.init, mkdir.
  cbv zeta.
  apply yields_bind, yields_print, yields_bind, yields_print.
  apply yields_bind, yields_emit; [reflexivity |].
  apply yields_bind, yields_emit; [reflexivity |].
  apply yields_bind, yields_print.
  apply yields_bind, yields_bind, yields_emit; [reflexivity |]. apply yields_ret.
  apply yields_bind.
  eapply yields_mono;
    [apply yields_conj; [apply collect_all_data_run | apply collect_all_data_quiet] | |].
  2: { intros e evs1 s1 _ [Hw1 Hs1]. cbv beta.
       rewrite !sessions_loaded_app, !written_app, Hs1. simpl.
       rewrite ?app_nil_r. split; [reflexivity | exact Hw1]. }
  intros data evs1 s1 _ [(Hr1 & Hw1 & _) Hs1].
  apply yields_bind, yields_print.
  apply yields_bind, yields_bind, yields_emit; [reflexivity |]. apply yields_ret.
  apply yields_bind.
  eapply yields_mono; [apply collect_weather_data_run | |].
  2: { intros e evs2 s2 _ (_ & _ & _ & _ & Hno). destruct Hno.
       apply default_years_are_seeds. }
  intros r2 evs2 s2 _
    (frames & covered & _ & _ & Hr2 & _ & Hw2 & Hq2 & Hs2 & _).
  assert (Hsome : exists table, r2 = Some table).
  { subst r2. unfold combined.
    destruct (candidates (weather_data_collector.requested_years None) true frames)
      eqn:Hc; [| eauto].
    apply candidates_nonempty in Hc; [destruct Hc | discriminate]. }
  destruct Hsome as [table ->].
  apply yields_bind, yields_print, yields_bind.
  eapply yields_mono;
    [apply collect_singapore_fastf1_run | | intros e evs3 s3 _ []].
  intros r3 evs3 s3 _ (Hs3 & Hq3 & Hw3 & _).
  apply yields_bind, yields_print, yields_bind.
  eapply yields_mono;
    [apply validate_and_summarize_prints | | intros e evs4 s4 _ []].
  intros [] evs4 s4 _ Hprints.
  apply yields_bind, yields_print, yields_print.
  rewrite !requested_app, !sessions_loaded_app, !written_app.
  rewrite Hr1, Hw1, Hs1, Hq2, Hw2, Hs2, Hs3, Hq3, Hw3,
    (is_print_written _ Hprints), (is_print_requested _ Hprints),
    (is_print_sessions_loaded _ Hprints).
  cbn [written requested sessions_loaded flat_map app
       weather_data_collector.requested_years].
  rewrite ?app_nil_r, <- ?app_assoc.
  split; [reflexivity |]. split; [reflexivity |]. split.
  - unfold pipeline_outputs. apply sublist_app; [apply present_sublist |].
    destruct r3; cbn [present app];
      eauto using sublist_nil, sublist_skip, sublist_cons.
  - apply in_or_app. right. left. reflexivity.
Qed.

End Pipeline.

(** X17.  Every run of the orchestrator, whatever the Ergast service and
    FastF1 do.  A run that completes has requested the 48 URLs of the
    Ergast plan and none else, has loaded the FastF1 session of each year
    from 2008 to 2024 twice (once for the weather, once for the results),
    has written some of the seven output files, in the order of the
    steps, none of them twice, and the weather file among them, and has
    changed no other file.  A run that an exception ends was ended by the
    Ergast step: it loaded no FastF1 session and wrote at most Ergast
    files, so neither the weather file nor the FastF1 results. *)
Theorem pipeline_run {np : Numpy} {up : Upstream} (s : state) :
  let weather := weather_data_collector.weather_csv weather_collector in
  match run_data_collection.main s with
  | (Py.Ok _, s') =>
      exists evs,
        trace s' = trace s ++ evs /\
        requested evs = request_plan ergast_collector /\
        sessions_loaded evs = range 2008 2025 ++ range 2008 2025 /\
        sublist (written evs) pipeline_outputs /\
        In weather (written evs) /\ is_Some (files s' !! weather) /\
        forall path, ~ In path pipeline_outputs -> files s' !! path = files s !! path
  | (Py.Raise _, s') =>
      exists evs,
        trace s' = trace s ++ evs /\
        sessions_loaded evs = [] /\
        sublist (written evs) (ergast_outputs ergast_collector) /\
        forall path, ~ In path (ergast_outputs ergast_collector) ->
                     files s' !! path = files s !! path
  end.
Proof.
  intros weather. pose proof (main_run s) as H. unfold yields in H.
  destruct (run_data_collection.main s) as [[[] | e] s'];
    destruct H as (evs & (Ht & Hout & Hin) & H); exists evs.
  - destruct H as (Hr & Hs & Hw & Hweather).
    repeat (split; [assumption |]). split; [apply Hin; exact Hweather |].
    intros path Hpath. apply Hout. intros Hwritten. apply Hpath.
    eapply sublist_In; eassumption.
  - destruct H as (Hs & Hw). repeat (split; [assumption |]).
    intros path Hpath. apply Hout. intros Hwritten. apply Hpath.
    eapply sublist_In; eassumption.
Qed.

(** ** The clamps of the synthetic weather *)

Lemma ltb_leb (x y : float) : PrimFloat.ltb x y = true -> PrimFloat.leb x y = true.
Proof.
  rewrite ltb_spec, leb_spec. unfold SFltb, SFleb.
  destruct (SFcompare (Prim2SF x) (Prim2SF y)) as [[] |]; congruence.
Qed.

(** X18.  The humidity that decides the weather condition lies between
    60 and 95 for every draw of the generator, also for an infinite one
    and for one that is not a number (which the clamp of line 109 turns
    into 95); likewise the clamp of line 116 leaves a wind speed of at
    most 25. *)
Theorem synthetic_clamps_hold {np : Numpy} (year : Z) :
  PrimFloat.leb 60 (humidity_of year) = true /\
  PrimFloat.leb (humidity_of year) 95 = true /\
  PrimFloat.leb (Py.min 25 (wind_speed_drawn (draws_of year))) 25 = true.
Proof.
  unfold humidity_of, Py.max, Py.min.
  generalize (humidity_drawn (draws_of year)) (wind_speed_drawn (draws_of year)).
  intros h w. split; [| split].
  - destruct (PrimFloat.ltb h 95) eqn:H95.
    + destruct (PrimFloat.ltb 60 h) eqn:H60; [apply ltb_leb; exact H60 | reflexivity].
    + reflexivity.
  - destruct (PrimFloat.ltb h 95) eqn:H95.
    + destruct (PrimFloat.ltb 60 h) eqn:H60; [apply ltb_leb; exact H95 | reflexivity].
    + reflexivity.
  - destruct (PrimFloat.ltb w 25) eqn:H25; [apply ltb_leb; exact H25 | reflexivity].
Qed.

(** ** The snapshot of the dashboard *)

(** X19.  [load_model_and_data] returns a snapshot exactly when all six
    artifacts can be read and the summary table has a row; the snapshot
    then holds the contents of the files and the first row of the
    summary.  In every other case, also when only the summary table is
    empty, it returns nothing at all: there is no partial snapshot. *)
Theorem snapshot_needs_every_artifact {Model Scaler Encoders : Type}
    (dir : app.features_dir (Model := Model) (Scaler := Scaler)
             (Encoders := Encoders))
    (data : app.model_data_t) :
  app.load_model_and_data dir = Some data <->
  exists rest,
    app.best_model_pkl dir = app.Stored (app.model data) /\
    app.feature_scaler_pkl dir = app.Stored (app.scaler data) /\
    app.label_encoders_pkl dir = app.Stored (app.label_encoders data) /\
    app.singapore_gp_2025_predictions_csv dir = app.Stored (app.predictions data) /\
    app.feature_importance_csv dir = app.Stored (app.feature_importance data) /\
    app.prediction_summary_csv dir = app.Stored (app.summary data :: rest).
Proof.
  unfold app.load_model_and_data, app.load_all, app.load, app.iloc0.
  destruct dir as [m sc en p fi su]. cbn [app.best_model_pkl app.feature_scaler_pkl
    app.label_encoders_pkl app.singapore_gp_2025_predictions_csv
    app.feature_importance_csv app.prediction_summary_csv].
  split.
  - destruct m, sc, en, p, fi, su as [| ? | [| first rest]]; cbn;
      try discriminate.
    intros H. injection H as <-. exists rest. cbn. repeat split.
  - intros (rest & -> & -> & -> & -> & -> & ->). cbn. destruct data. reflexivity.
Qed.

(** ** The launcher *)

Section LauncherRuns.
Import run_webapp.
Variable disk : string -> option entry.

Lemma for_each_prints (pre : string) (xs : list string) : forall t,
  for_each xs (fun x => print (pre +:+ x)) t
  = (Done tt, t ++ map (fun x => Out (pre +:+ x)) xs).
Proof.
  induction xs as [| x rest IH]; intros t; cbn [for_each map].
  - unfold wret. rewrite app_nil_r. reflexivity.
  - unfold wbind, print, do. rewrite IH, <- app_assoc. reflexivity.
Qed.

Lemma check_requirements_run t :
  check_requirements disk t
  = match missing_files disk with
    | [] => (Done true, t)
    | missing => (Done false, t ++ launcher_complaint missing)
    end.
Proof.
  unfold check_requirements. destruct (missing_files disk) as [| m ms]; [reflexivity |].
  unfold wbind at 1. unfold print at 1. unfold do.
  unfold wbind at 1. rewrite (for_each_prints "   - ").
  unfold wbind, print, do, wret, launcher_complaint. rewrite <- !app_assoc. reflexivity.
Qed.

Lemma main_run_launcher t :
  main disk t
  = match missing_files disk with
    | [] =>
        match disk "webapp" with
        | Some Directory =>
            (Done tt, t ++ launcher_banner ++ launcher_announcement
                        ++ [Chdir "webapp"; System "python app.py"])
        | Some File =>
            (Failed (Py.OtherException ("Not a directory: " +:+ "webapp")),
             t ++ launcher_banner ++ launcher_announcement)
        | None =>
            (Failed (Py.OtherException ("No such file or directory: " +:+ "webapp")),
             t ++ launcher_banner ++ launcher_announcement)
        end
    | missing => (Exit 1, t ++ launcher_banner ++ launcher_complaint missing)
    end.
Proof.
  unfold main. unfold wbind at 1. unfold print at 1. unfold do.
  unfold wbind at 1. unfold print at 1. unfold do.
  unfold wbind at 1. rewrite check_requirements_run.
  destruct (missing_files disk) as [| m ms].
  - unfold os_chdir, os_system.
    destruct (disk "webapp") as [[] |];
      unfold wbind, print, do, wret, launcher_banner, launcher_announcement;
      rewrite <- ?app_assoc; reflexivity.
  - unfold wbind, sys_exit, launcher_banner. rewrite <- !app_assoc. reflexivity.
Qed.

Lemma missing_files_sublist : sublist (missing_files disk) required_files.
Proof.
  unfold missing_files. induction required_files as [| x rest IH]; cbn [List.filter].
  - constructor.
  - destruct (negb (path_exists disk x)); [apply sublist_skip | apply sublist_cons];
      exact IH.
Qed.

Lemma missing_files_spec file_path :
  In file_path (missing_files disk) <->
  In file_path required_files /\ path_exists disk file_path = false.
Proof.
  unfold missing_files. rewrite List.filter_In, negb_true_iff. reflexivity.
Qed.

Lemma missing_files_nil :
  missing_files disk = [] <->
  forall file_path, In file_path required_files -> path_exists disk file_path = true.
Proof.
  split.
  - intros Hnil file_path Hin.
    destruct (path_exists disk file_path) eqn:Hexists; [reflexivity |].
    assert (Hmissing : In file_path (missing_files disk))
      by (apply missing_files_spec; auto).
    rewrite Hnil in Hmissing. destruct Hmissing.
  - intros Hall. destruct (missing_files disk) as [| m ms] eqn:Hm; [reflexivity |].
    assert (Hmissing : In m (missing_files disk)) by (rewrite Hm; left; reflexivity).
    apply missing_files_spec in Hmissing. destruct Hmissing as [Hin Hno].
    rewrite (Hall m Hin) in Hno. discriminate.
Qed.

Lemma in_complaint file_path missing :
  In (Out ("   - " +:+ file_path)) (launcher_complaint missing) <-> In file_path missing.
Proof.
  unfold launcher_complaint. cbn [In]. rewrite in_app_iff, in_map_iff. cbn [In]. split.
  - intros [H | [(x & H & Hx) | [H | [H | []]]]]; try discriminate H.
    injection H as H. change (x = file_path) in H. subst x. exact Hx.
  - intros H. right. left. exists file_path. split; [reflexivity | exact H].
Qed.

End LauncherRuns.

(** X20.  [check_requirements] always returns: it returns true exactly
    when every required file exists, and then prints nothing; otherwise
    it prints, between its three fixed lines, one line for each missing
    file and for no other, in the order of the list. *)
Theorem check_requirements_reports_missing (disk : string -> option run_webapp.entry)
    (t : list run_webapp.action) :
  exists ok lines,
    run_webapp.check_requirements disk t = (run_webapp.Done ok, t ++ lines) /\
    (ok = true <->
     forall file_path, In file_path run_webapp.required_files ->
                       run_webapp.path_exists disk file_path = true) /\
    (ok = true -> lines = []) /\
    (ok = false -> lines = launcher_complaint (run_webapp.missing_files disk)) /\
    sublist (run_webapp.missing_files disk) run_webapp.required_files /\
    forall file_path,
      In file_path (run_webapp.missing_files disk) <->
      In file_path run_webapp.required_files /\
      run_webapp.path_exists disk file_path = false.
Proof.
  rewrite check_requirements_run.
  pose proof (missing_files_nil disk) as Hnil.
  assert (Hsub : sublist (run_webapp.missing_files disk) run_webapp.required_files)
    by apply missing_files_sublist.
  destruct (run_webapp.missing_files disk) as [| m ms] eqn:Hm.
  - exists true, []. rewrite app_nil_r. split; [reflexivity |].
    split; [split; [intros _; apply Hnil; reflexivity | reflexivity] |].
    split; [reflexivity |]. split; [discriminate |]. split; [exact Hsub |].
    intros file_path. rewrite <- Hm. apply missing_files_spec.
  - exists false, (launcher_complaint (m :: ms)). split; [reflexivity |].
    split; [split; [discriminate | intros Hall; apply Hnil in Hall; discriminate] |].
    split; [discriminate |]. split; [reflexivity |]. split; [exact Hsub |].
    intros file_path. rewrite <- Hm. apply missing_files_spec.
Qed.

(** X21.  The launcher starts the dashboard only over a complete
    directory.  It ends with [sys.exit(1)] exactly when a required file
    is missing, and then has named each missing file and has neither
    changed directory nor run a command.  It runs [python app.py], once
    and after changing into [webapp], exactly when every required file
    exists and [webapp] is a directory; and an exception escapes exactly
    when every required file exists and [webapp] is not a directory. *)
Theorem launcher_starts_only_when_complete (disk : string -> option run_webapp.entry)
    (t : list run_webapp.action) :
  let complete :=
    forall file_path, In file_path run_webapp.required_files ->
                      run_webapp.path_exists disk file_path = true in
  exists out acts,
    run_webapp.main disk t = (out, t ++ acts) /\
    (out = run_webapp.Exit 1 <-> ~ complete) /\
    (out = run_webapp.Done tt <->
     complete /\ disk "webapp" = Some run_webapp.Directory) /\
    ((exists e, out = run_webapp.Failed e) <->
     complete /\ disk "webapp" <> Some run_webapp.Directory) /\
    (out = run_webapp.Done tt ->
     exists prints,
       acts = prints ++ [run_webapp.Chdir "webapp"; run_webapp.System "python app.py"] /\
       Forall (fun a => exists line, a = run_webapp.Out line) prints) /\
    (out <> run_webapp.Done tt ->
     Forall (fun a => exists line, a = run_webapp.Out line) acts) /\
    (out = run_webapp.Exit 1 ->
     forall file_path,
       In (run_webapp.Out ("   - " +:+ file_path)) acts <->
       In file_path run_webapp.required_files /\
       run_webapp.path_exists disk file_path = false).
Proof.
  intros complete. rewrite main_run_launcher.
  pose proof (missing_files_nil disk) as Hnil. fold complete in Hnil.
  assert (Hprints : forall missing,
             Forall (fun a => exists line, a = run_webapp.Out line)
               (launcher_banner ++ launcher_complaint missing)).
  { intros missing. apply Forall_app. split; [repeat constructor; eauto |].
    unfold launcher_complaint. constructor; [eauto |]. apply Forall_app. split.
    - apply Forall_map, Forall_forall. intros x _. cbn. eauto.
    - repeat constructor; eauto. }
  assert (Hann : Forall (fun a => exists line, a = run_webapp.Out line)
                   (launcher_banner ++ launcher_announcement))
    by (repeat constructor; eauto).
  destruct (run_webapp.missing_files disk) as [| m ms] eqn:Hm.
  - assert (Hc : complete) by (apply Hnil; reflexivity).
    destruct (disk "webapp") as [[] |] eqn:Hweb; eexists _, _;
      (split; [reflexivity |]).
    + split; [split; [discriminate | intros H; destruct (H Hc)] |].
      split; [split; [discriminate | intros [_ H]; discriminate] |].
      split; [split; [intros _; split; [exact Hc | discriminate] | eauto] |].
      split; [discriminate |]. split; [intros _; exact Hann | discriminate].
    + split; [split; [discriminate | intros H; destruct (H Hc)] |].
      split; [split; [auto | reflexivity] |].
      split; [split; [intros [e He]; discriminate
                     | intros [_ H]; destruct H; reflexivity] |].
      split; [| split; [intros H; destruct H; reflexivity | discriminate]].
      intros _. exists (launcher_banner ++ launcher_announcement).
      split; [rewrite <- app_assoc; reflexivity | exact Hann].
    + split; [split; [discriminate | intros H; destruct (H Hc)] |].
      split; [split; [discriminate | intros [_ H]; discriminate] |].
      split; [split; [intros _; split; [exact Hc | discriminate] | eauto] |].
      split; [discriminate |]. split; [intros _; exact Hann | discriminate].
  - assert (Hc : ~ complete) by (intros Hc; apply Hnil in Hc; discriminate).
    eexists _, _. split; [reflexivity |].
    split; [split; [intros _; exact Hc | reflexivity] |].
    split; [split; [discriminate | intros [H _]; destruct (Hc H)] |].
    split; [split; [intros [e He]; discriminate | intros [H _]; destruct (Hc H)] |].
    split; [discriminate |]. split; [intros _; apply Hprints |].
    intros _ file_path. rewrite <- (missing_files_spec disk), Hm. split.
    + intros H. apply in_app_iff in H. destruct H as [H | H].
      * destruct H as [H | [H | []]]; discriminate H.
      * apply in_complaint in H. exact H.
    + intros H. apply in_app_iff. right. apply in_complaint. exact H.
Qed.

(** ** Records without their optional fields, evaluated *)

(** A result without [Time], [FastestLap] and [permanentNumber] is
    flattened, with None in the five columns concerned. *)
Lemma retired_result_is_kept :
  exists record,
    ergast_data_collector.result_data_of [("Year", Py.VInt 2008)] retired_result
    = Py.Ok record /\
    columns record = ("Year" :: skipn 5 singapore_columns) /\
    (map (fun column => cell column record)
       ["DriverNumber"; "Time"; "FastestLapRank"; "FastestLapTime";
        "FastestLapAvgSpeed"]
     = repeat (Some Py.VNone) 5).
Proof. eexists. split; [vm_compute; reflexivity |]. split; reflexivity. Qed.

(** A standing with an empty list of constructors is flattened, with None
    in both constructor columns. *)
Lemma unattached_standing_is_kept :
  exists record,
    ergast_data_collector.driver_standing_data (Py.VStr "2008") unattached_standing
    = Py.Ok record /\
    cell "ConstructorName" record = Some Py.VNone /\
    cell "ConstructorId" record = Some Py.VNone.
Proof. eexists. split; [vm_compute; reflexivity |]. split; reflexivity. Qed.
